(** * zhihuiwenzhang: the generate and search route handlers

    A shallow embedding of [src/app/api/generate/route.ts] and
    [src/app/api/search/route.ts], and the properties of the prompt builder,
    the content/style selectors, the search normalisation and the two HTTP
    handlers.  The handlers of the two pages, [src/app/page.tsx] and
    [src/app/result/page.tsx], are embedded after them, with the properties
    that link the form, the generate handler and the result page.

    Conventions of the embedding:
    - a JavaScript string is the list of its UTF-16 code units ([jsstring]),
      so [length], [substring] and [trim] count exactly what the engine counts;
    - a value that may be [undefined] is an [option];
    - code that may throw returns a [JsResult]; [try]/[catch] is [tryCatch];
    - the outbound [fetch] is the only effect of the handlers: it is recorded
      in a log of calls and answered by a network given as a parameter;
    - [searchData], a JSON object used as a dictionary, is a [gmap] from the
      object's own keys; reading it by name goes through the prototype chain
      and also finds the members inherited from [Object.prototype];
    - request bodies are read at their declared types ([GenerateRequest],
      [SearchRequestBody]); a body that cannot be read is a thrown value:
      what [request.json()] throws on a text that is not JSON, and what the
      first statements of a handler throw when they read the title or the
      models from a body that has not that type. *)

From Stdlib Require Import String Ascii NArith QArith Lia.
From Stdlib Require DecimalN.
From stdpp Require Import base list option countable gmap.

Local Open Scope N_scope.
Local Open Scope list_scope.

(** ** JavaScript strings *)

Module JS.

Definition jsstring : Type := list N.

(** *** Literals: the UTF-8 bytes of the source text, read as UTF-16 *)

Fixpoint bytes_of_string (s : string) : list N :=
  match s with
  | EmptyString => []
  | String a s' => N_of_ascii a :: bytes_of_string s'
  end.

Definition cont (b : N) : N := N.land b 63.

Fixpoint utf8_decode (bs : list N) : list N :=
  match bs with
  | [] => []
  | b0 :: r =>
      if b0 <? 128 then b0 :: utf8_decode r
      else if b0 <? 224 then
        match r with
        | b1 :: r1 =>
            N.lor (N.shiftl (N.land b0 31) 6) (cont b1) :: utf8_decode r1
        | _ => []
        end
      else if b0 <? 240 then
        match r with
        | b1 :: b2 :: r2 =>
            N.lor (N.shiftl (N.land b0 15) 12)
              (N.lor (N.shiftl (cont b1) 6) (cont b2)) :: utf8_decode r2
        | _ => []
        end
      else
        match r with
        | b1 :: b2 :: b3 :: r3 =>
            N.lor (N.shiftl (N.land b0 7) 18)
              (N.lor (N.shiftl (cont b1) 12)
                 (N.lor (N.shiftl (cont b2) 6) (cont b3))) :: utf8_decode r3
        | _ => []
        end
  end.

Definition utf16_units (cp : N) : list N :=
  if cp <? 65536 then [cp]
  else [55296 + N.shiftr (cp - 65536) 10; 56320 + N.land (cp - 65536) 1023].

Definition js (s : string) : jsstring :=
  concat (map utf16_units (utf8_decode (bytes_of_string s))).

Definition dq : jsstring := [34].
Definition nl : jsstring := [10].

(** [quoted s] is [s] between two ASCII double quotes. *)
Definition quoted (s : jsstring) : jsstring := dq ++ s ++ dq.

(** *** The operations of [String.prototype] and [Array.prototype] used *)

(** ECMAScript WhiteSpace and LineTerminator code points, what [trim] strips. *)
Definition isWhiteSpace (c : N) : bool :=
  (c =? 9) || (c =? 10) || (c =? 11) || (c =? 12) || (c =? 13) || (c =? 32)
  || (c =? 160) || (c =? 5760) || ((8192 <=? c) && (c <=? 8202))
  || (c =? 8232) || (c =? 8233) || (c =? 8239) || (c =? 8287)
  || (c =? 12288) || (c =? 65279).

Fixpoint trimStart (s : jsstring) : jsstring :=
  match s with
  | [] => []
  | c :: s' => if isWhiteSpace c then trimStart s' else s
  end.

Definition trimEnd (s : jsstring) : jsstring := rev (trimStart (rev s)).

Definition trim (s : jsstring) : jsstring := trimEnd (trimStart s).

Fixpoint startsWith (s pat : jsstring) {struct pat} : bool :=
  match pat, s with
  | [], _ => true
  | _ :: _, [] => false
  | p :: pat', c :: s' => (c =? p) && startsWith s' pat'
  end.

(** [s.includes(pat)] *)
Fixpoint includes (s pat : jsstring) : bool :=
  startsWith s pat ||
  match s with
  | [] => false
  | _ :: s' => includes s' pat
  end.

(** [s.substring(0, n)] *)
Definition substring0 (n : nat) (s : jsstring) : jsstring := take n s.

(** [a.slice(0, n)] *)
Definition slice0 {A} (n : nat) (a : list A) : list A := take n a.

(** [a.join(sep)] on an array of strings *)
Fixpoint join (sep : jsstring) (a : list jsstring) : jsstring :=
  match a with
  | [] => []
  | [x] => x
  | x :: a' => x ++ sep ++ join sep a'
  end.

(** [s.split(sep)] for a non-empty separator, also when the separator is a
    regular expression that is a plain text, as [/\n## /]: the pieces of [s]
    around the occurrences of [sep], found from left to right.  [skip]
    counts the code units of an occurrence still to be passed over. *)
Fixpoint splitFrom (sep : jsstring) (skip : nat) (s : jsstring) : list jsstring :=
  match s with
  | [] => [[]]
  | c :: s' =>
      match skip with
      | S k => splitFrom sep k s'
      | O =>
          if startsWith s sep then [] :: splitFrom sep (length sep - 1) s'
          else match splitFrom sep O s' with
               | [] => [[c]]
               | p :: ps => (c :: p) :: ps
               end
      end
  end.

Definition split (sep s : jsstring) : list jsstring := splitFrom sep 0 s.

(** Truthiness of a string, and of a possibly undefined string. *)
Definition truthy (s : jsstring) : bool :=
  match s with [] => false | _ :: _ => true end.

Definition truthy_opt (o : option jsstring) : bool :=
  match o with Some s => truthy s | None => false end.

(** [a || b] on possibly undefined strings with a string default. *)
Definition or_else (o : option jsstring) (d : jsstring) : jsstring :=
  match o with
  | Some s => if truthy s then s else d
  | None => d
  end.

(** The decimal digits of a number, as [`${n}`] prints a non-negative
    integer. *)
Fixpoint digits_of_uint (d : Decimal.uint) : jsstring :=
  match d with
  | Decimal.Nil => []
  | Decimal.D0 d' => 48 :: digits_of_uint d'
  | Decimal.D1 d' => 49 :: digits_of_uint d'
  | Decimal.D2 d' => 50 :: digits_of_uint d'
  | Decimal.D3 d' => 51 :: digits_of_uint d'
  | Decimal.D4 d' => 52 :: digits_of_uint d'
  | Decimal.D5 d' => 53 :: digits_of_uint d'
  | Decimal.D6 d' => 54 :: digits_of_uint d'
  | Decimal.D7 d' => 55 :: digits_of_uint d'
  | Decimal.D8 d' => 56 :: digits_of_uint d'
  | Decimal.D9 d' => 57 :: digits_of_uint d'
  end.

Definition toString (n : N) : jsstring := digits_of_uint (N.to_uint n).

(** *** Exceptions *)

(** What a [catch] clause receives: an [Error] with its [name] and
    [message], or some other thrown value. *)
Inductive JsThrown : Type :=
  | ThrownError (name message : jsstring)
  | ThrownOther.

Inductive JsResult (A : Type) : Type :=
  | Returned (a : A)
  | Threw (e : JsThrown).

Arguments Returned {A} a.
Arguments Threw {A} e.

(** [new Error(msg)] *)
Definition newError (msg : jsstring) : JsThrown := ThrownError (js "Error") msg.

(** [a.map(f)] for a callback that may throw: the first exception ends the
    loop and is the exception of the whole. *)
Fixpoint mapThrowing {A B} (f : A -> JsResult B) (a : list A) : JsResult (list B) :=
  match a with
  | [] => Returned []
  | x :: a' =>
      match f x with
      | Returned y =>
          match mapThrowing f a' with
          | Returned ys => Returned (y :: ys)
          | Threw e => Threw e
          end
      | Threw e => Threw e
      end
  end.

(** *** Effects: a log of outbound calls, and exceptions

    A computation takes the log of the calls made so far and gives back a
    result or a thrown value together with the extended log. *)

Definition Eff (L A : Type) : Type := list L -> JsResult A * list L.

Definition ret {L A} (a : A) : Eff L A := fun log => (Returned a, log).

Definition throw {L A} (e : JsThrown) : Eff L A := fun log => (Threw e, log).

Definition bind {L A B} (m : Eff L A) (k : A -> Eff L B) : Eff L B :=
  fun log =>
    match m log with
    | (Returned a, log') => k a log'
    | (Threw e, log') => (Threw e, log')
    end.

(** [try { m } catch (e) { h e }] *)
Definition tryCatch {L A} (m : Eff L A) (h : JsThrown -> Eff L A) : Eff L A :=
  fun log =>
    match m log with
    | (Returned a, log') => (Returned a, log')
    | (Threw e, log') => h e log'
    end.

(** [await p] for a promise whose settlement is already known. *)
Definition await {L A} (r : JsResult A) : Eff L A := fun log => (r, log).

(** What [fetch] resolves to: the fields and body readers the handlers use. *)
Record FetchResponse (D : Type) : Type := {
  status : N;
  statusText : jsstring;
  text : JsResult jsstring;
  json : JsResult D
}.

Arguments status {D} _.
Arguments statusText {D} _.
Arguments text {D} _.
Arguments json {D} _.

(** [response.ok]: the status is in the range 200-299. *)
Definition ok {D} (r : FetchResponse D) : bool :=
  (200 <=? status r) && (status r <=? 299).

(** What a handler answers: [Response.json(body, { status })]. *)
Record HttpResponse (B : Type) : Type := {
  responseBody : B;
  responseStatus : N
}.

Arguments responseBody {B} _.
Arguments responseStatus {B} _.

Definition Response_json {B} (body : B) (status : N) : HttpResponse B :=
  {| responseBody := body; responseStatus := status |}.

End JS.

Import JS.

Declare Scope eff_scope.
Delimit Scope eff_scope with eff.
Notation "'let*' x ':=' m 'in' k" := (bind m (fun x => k))
  (at level 10, x name, m at level 100, k at level 200) : eff_scope.

(** ** The generate endpoint: [src/app/api/generate/route.ts] *)

Module Generate.

Module SearchResultItem.
Record t : Type := {
  title : jsstring;
  snippet : jsstring;
  link : option jsstring;
  source : option jsstring
}.
End SearchResultItem.

Module GenerateRequest.
Record t : Type := {
  title : option jsstring;
  models : option (list jsstring);
  searchData : option (gmap jsstring (list SearchResultItem.t));
  manualPrompt : option jsstring;
  contentType : option jsstring;
  stylePreference : option jsstring
}.
End GenerateRequest.

Definition lines (ls : list jsstring) : jsstring := join nl ls.

(** *** [buildPrompt] *)

(** The [styleHint] constant computed at the top of [buildPrompt]. *)
Definition styleHint (writingStyle : jsstring) : jsstring :=
  if decide (writingStyle = js "rational")
  then nl ++ js "写作倾向：偏理性，多给决策思路，少情绪化描述。"
  else if decide (writingStyle = js "experience")
  then nl ++ js "写作倾向：偏体验，多讲真实感受和细节，允许不完全严谨。"
  else [].

(** The text of the inner template literal of the [contentType === "beauty"]
    interpolation, after its leading line break. *)
Definition fragranceText : jsstring :=
  lines [
    js "关于香水类商品的香调描述（非常重要）：";
    js "- 如果涉及香水，必须详细描述香调：前调、中调、后调";
    js "- 用大白话、有吸引力的文字描述香味，让读者能" ++ quoted (js "闻到") ++ js "那种感觉";
    js "- 不要只列香调名称（如" ++ quoted (js "柑橘、茉莉、麝香") ++ js "），要描述实际闻起来的感觉";
    js "- 前调：描述刚喷出来那一刻的感觉（比如" ++ quoted (js "像刚剥开的橙子，清新但不刺鼻") ++ js "）";
    js "- 中调：描述味道稳定后的感觉（比如" ++ quoted (js "慢慢变成温温柔柔的花香，像雨后花园") ++ js "）";
    js "- 后调：描述最后留下的余香（比如" ++ quoted (js "最后是淡淡的木质调，闻起来很安心，像冬天晒太阳的感觉") ++ js "）";
    js "- 可以用生活场景比喻（" ++ quoted (js "像小时候奶奶家的味道") ++ quoted (js "像刚洗完的白衬衫") ++ js "）";
    js "- 可以描述在不同场合的感受（" ++ quoted (js "夏天用很清爽，但冬天感觉有点单薄") ++ js "）";
    js "- 让香调描述成为回答的亮点，用具体、生动的语言让读者产生共鸣"
  ].

(** [contentType === "beauty" ? `...` : ""] *)
Definition fragranceGuidance (contentType : jsstring) : jsstring :=
  if decide (contentType = js "beauty") then nl ++ fragranceText else [].

(** The line of the product template that asks for both audiences. *)
Definition suitsLine : jsstring :=
  js "- 每个被提到的商品，必须同时出现「适合谁」和「不适合谁」".

Definition buildPrompt (title : jsstring) (models : list jsstring)
    (searchDigest : jsstring) (hasModels : bool)
    (writingStyle contentType : jsstring) : jsstring :=
  let styleHint := styleHint writingStyle in
  if hasModels then
    let modelsText := join (js "、") models in
    lines [
      js "你正在知乎回答下面这个问题：";
      js "";
      js "「" ++ title ++ js "」";
      js "";
      js "核心写作规则（非常重要）：";
      js "1. 必须从“直接回应提问者的核心困惑”开始，而不是商品或个人经历。";
      js "2. 回答的重点是：如何判断 / 如何选择 / 如何避免踩坑，而不是推荐具体产品。";
      js "3. 商品只是用来说明观点的例子，不是主角。";
      js "";
      js "关于商品的使用方式：";
      js "- 可用来举例的商品有：" ++ modelsText;
      js "- 不要求每个商品都写同样多，商品段落不要结构完全一致，可以有的写详细，有的只轻描淡写，允许插入个人跑题或临时感受，避免清单感。";
      js "- 允许有的商品只是一笔带过";
      suitsLine;
      js "- 商品之间不要形成明显的“清单感”或“评测感”";
      js "";
      js "干货表达方式（重要）：";
      js "- 少写" ++ quoted (js "配置说明") ++ js "，多写" ++ quoted (js "使用判断逻辑");
      js "- 技术点只能用于解释" ++ quoted (js "为什么适合 / 不适合");
      js "- 不写参数表、价格、榜单、推荐语";
      fragranceGuidance contentType;
      js "";
      js "语言与风格：";
      js "- 第一人称";
      js "- 允许犹豫、反复、改口";
      js "- 像真实用户边想边打字";
      js "- 不要总结全文";
      styleHint;
      js "";
      js "结尾要求：";
      js "- 用一个带立场或纠结点的问题收尾";
      js "- 让读者忍不住想反驳或分享自己经历";
      js "";
      js "下面是一些背景信息，仅用于你理解商品差异，不要逐字照抄：";
      js "";
      searchDigest;
      js "";
      js "请直接输出完整回答内容，不解释写作过程。"
    ]
  else
    lines [
      js "你正在知乎回答下面这个问题：";
      js "";
      js "「" ++ title ++ js "」";
      js "";
      js "写作要求：";
      js "";
      js "- 必须从" ++ quoted (js "直接回应问题本身的核心困惑") ++ js "开始，先说清楚你的观点。";
      js "";
      js "- 之后用生活经验和观察来支撑观点。";
      js "";
      js "- 允许犹豫、不同角度分析、对比，不要求完全对称。";
      js "";
      js "- 允许提出看法并表达" ++ quoted (js "别人可能不一样") ++ js "的观点。";
      js "";
      js "- 可以在过程中加入" ++ quoted (js "我自己经历过 / 我身边朋友遇到…") ++ js "等细节。";
      js "";
      js "- 不要写总结式收尾，而是留一个可以引发讨论的点。";
      js "";
      js "- 不要出现 AI、模型、搜索、数据来源 等字样。";
      js "";
      js "语言风格：";
      js "";
      js "- 口语化、自然、有停顿、可以有转折";
      js "";
      js "- 段落长短不一，更像真实用户写的回答";
      js "";
      js "- 不要用 #、## 等 Markdown 标题符号";
      js "";
      js "请直接开始输出完整回答内容，不解释你的写作过程。" ++ styleHint
    ].

(** *** [formatSearchData] *)

(** [`- ${i.title}：${i.snippet}`] *)
Definition formatItem (i : SearchResultItem.t) : jsstring :=
  js "- " ++ SearchResultItem.title i ++ js "：" ++ SearchResultItem.snippet i.

(** The methods that an object parsed from JSON inherits from
    [Object.prototype], each with its [length], the number of its
    parameters. *)
Definition prototypeMethods : list (jsstring * N) :=
  [ (js "constructor", 1);
    (js "hasOwnProperty", 1);
    (js "isPrototypeOf", 1);
    (js "propertyIsEnumerable", 1);
    (js "toLocaleString", 0);
    (js "toString", 0);
    (js "valueOf", 0);
    (js "__defineGetter__", 2);
    (js "__defineSetter__", 2);
    (js "__lookupGetter__", 1);
    (js "__lookupSetter__", 1) ].

(** What [searchData[model]] evaluates to: the list under a key of the
    object itself; else, through the prototype chain, a method of
    [Object.prototype], or for [__proto__] the prototype itself; else
    [undefined]. *)
Inductive Property : Type :=
  | OwnItems (items : list SearchResultItem.t)
  | Method (parameters : N)
  | Prototype
  | Undefined.

Definition getProperty (searchData : gmap jsstring (list SearchResultItem.t))
    (key : jsstring) : Property :=
  match searchData !! key with
  | Some items => OwnItems items
  | None =>
      if decide (key = js "__proto__") then Prototype
      else
        match List.find (fun m => bool_decide (m.1 = key)) prototypeMethods with
        | Some m => Method m.2
        | None => Undefined
        end
  end.

(** The [TypeError] of the engine of Node for [items.slice(0, 4)] on a value
    without [slice]. *)
Definition noSliceError : JsThrown :=
  ThrownError (js "TypeError") (js "items.slice is not a function").

(** The callback of [models.map]: the block of one product.  In
    [searchData[model] || []] an array, a function and an object are all
    truthy, so only [undefined] gives the empty array.  [!items.length]
    holds for an empty array, for a function without parameters and for the
    prototype object, which has no [length].  A function with parameters
    passes that test and has no [slice]: the call throws. *)
Definition formatModel (searchData : gmap jsstring (list SearchResultItem.t))
    (model : jsstring) : JsResult jsstring :=
  match getProperty searchData model with
  | OwnItems items =>
      if (length items =? 0)%nat then Returned (model ++ js "：暂无摘要")
      else Returned (model ++ js "：" ++ nl
                     ++ join nl (map formatItem (slice0 4 items)))
  | Method parameters =>
      if parameters =? 0 then Returned (model ++ js "：暂无摘要")
      else Threw noSliceError
  | Prototype | Undefined => Returned (model ++ js "：暂无摘要")
  end.

Definition formatSearchData (models : list jsstring)
    (searchData : gmap jsstring (list SearchResultItem.t)) : JsResult jsstring :=
  match mapThrowing (formatModel searchData) models with
  | Returned blocks => Returned (join (nl ++ nl) blocks)
  | Threw e => Threw e
  end.

(** *** [selectStyleHint] *)

Definition selectStyleHint (stylePreference : jsstring) : jsstring :=
  if decide (stylePreference = js "rational")
  then js "写作倾向：偏理性，多给决策思路，少感性描述。"
  else if decide (stylePreference = js "experience")
  then js "写作倾向：偏体验，多说真实感受、使用场景、情绪。"
  else [].

Definition zhihuPersona : jsstring :=
  lines [
    js "你是一名长期活跃在知乎的普通用户。";
    js "";
    js "【身份】";
    js "- 不是媒体、不是测评机构";
    js "- 不接广告、不写软文";
    js "- 写回答是因为真的思考过这个问题";
    js "";
    js "【写作状态】";
    js "- 像在认真给陌生网友回帖";
    js "- 允许犹豫、不确定、改口";
    js "- 不追求完美逻辑，但追求真实";
    js "";
    js "【禁止】";
    js "- 不要写成测评报告";
    js "- 不要写成种草/导购文";
    js "- 不要自称“整理”“总结”“查资料”";
    js "- 不出现 AI、模型、数据来源、公开信息 等字样";
    js "";
    js "目标：让回答在知乎看起来像真人原创内容。"
  ].

(** *** [parseStructureFrameworks] *)

Module Framework.
Record t : Type := { title : jsstring; content : jsstring }.
End Framework.

(** The separator of [content.split(/\n## /)]. *)
Definition heading : jsstring := nl ++ js "## ".

(** The callback of [.map]: [None] stands for [null], which
    [.filter(Boolean)] drops. *)
Definition parseSection (section : jsstring) : option Framework.t :=
  match split nl section with
  | title :: rest =>
      if negb (truthy title) then None
      else Some {| Framework.title := title; Framework.content := join nl rest |}
  | [] => None
  end.

Definition parseStructureFrameworks (content : jsstring) : list Framework.t :=
  if negb (truthy content) then []
  else omap parseSection (drop 1 (split heading content)).

(** *** The completion call and the handler *)

Record Message : Type := { content : option jsstring }.
Record Choice : Type := { message : option Message }.
Record CompletionData : Type := { choices : option (list Choice) }.

(** The arguments of the one [fetch] of the handler. *)
Record FetchCall : Type := {
  url : jsstring;
  method : jsstring;
  contentTypeHeader : jsstring;
  authorization : jsstring;
  model : jsstring;
  systemContent : jsstring;
  userContent : jsstring;
  temperature : Q;
  max_tokens : N
}.

(** How the network answers a call: when the promise of [fetch] settles, in
    milliseconds after the call ([None]: never), and to what. *)
Record Settlement : Type := {
  settledAfter : option N;
  outcome : JsResult (FetchResponse CompletionData)
}.

Module Metadata.
Record t : Type := {
  title : jsstring;
  models : list jsstring;
  contentType : jsstring;
  stylePreference : jsstring;
  generatedAt : jsstring
}.
End Metadata.

(** The two JSON bodies of the handler: [{ error }] and
    [{ success: true, article, metadata }]. *)
Inductive Payload : Type :=
  | ErrorPayload (error : jsstring)
  | ArticlePayload (article : jsstring) (metadata : Metadata.t).

(** The rejection of a [fetch] whose signal was aborted. *)
Definition abortError : JsThrown :=
  ThrownError (js "AbortError") (js "This operation was aborted").

(** [data.choices?.[0]?.message?.content] *)
Definition firstContent (data : CompletionData) : option jsstring :=
  match choices data with
  | Some (c :: _) =>
      match message c with
      | Some m => content m
      | None => None
      end
  | _ => None
  end.

Definition timeoutMs : N := 120000.

Definition timeoutMessage : jsstring :=
  js "API 请求超时（120秒），请检查网络连接或稍后重试".

Definition unreachableMessage (aiApiUrl : jsstring) : jsstring :=
  js "无法连接到 API 服务器 (" ++ aiApiUrl ++ js ")，请检查网络连接或 API 地址配置".

Definition upstreamMessage (status : N) (errorText : jsstring) : jsstring :=
  js "API 调用失败 (" ++ toString status ++ js "): " ++ substring0 200 errorText.

Definition emptyMessage : jsstring := js "生成内容为空".

Definition credentialMessage : jsstring := js "AI_API_KEY 未配置".

Section Handler.

(** [fs.readFileSync(path, "utf-8")] and [process.cwd()] at start-up. *)
Variable readFileSync : jsstring -> JsResult jsstring.
Variable cwd : jsstring.
(** [process.env] *)
Variable env : jsstring -> option jsstring.
(** [new Date().toISOString()] at the time of the answer. *)
Variable now : jsstring.
(** The completion endpoint as seen from the handler. *)
Variable network : FetchCall -> Settlement.

Definition safeRead (filePath : jsstring) : jsstring :=
  match readFileSync filePath with
  | Returned data => trim data
  | Threw _ => []
  end.

(** [path.join] of a directory and a name without separators. *)
Definition path_join (dir name : jsstring) : jsstring := dir ++ js "/" ++ name.

Definition promptsDir : jsstring := path_join cwd (js "prompts").
Definition appliancePrompt : jsstring := safeRead (path_join promptsDir (js "appliance.md")).
Definition beautyPrompt : jsstring := safeRead (path_join promptsDir (js "beauty.md")).
Definition giftPrompt : jsstring := safeRead (path_join promptsDir (js "gift.md")).
Definition discussionPrompt : jsstring := safeRead (path_join promptsDir (js "discussion.md")).

Definition structureRules : jsstring :=
  safeRead (path_join promptsDir (js "structureRules.md")).
Definition structureFrameworks : list Framework.t :=
  parseStructureFrameworks structureRules.

(** [a || b] on two strings. *)
Definition or_str (a b : jsstring) : jsstring := if truthy a then a else b.

Definition selectContentPrompt (contentType : jsstring) : jsstring :=
  if decide (contentType = js "appliance") then or_str appliancePrompt discussionPrompt
  else if decide (contentType = js "beauty") then or_str beautyPrompt discussionPrompt
  else if decide (contentType = js "gift") then or_str giftPrompt discussionPrompt
  else discussionPrompt.

(** [fetch(url, { ..., signal })] under [setTimeout(() => controller.abort(),
    ms)]: the call is logged; it settles as the network says when that is
    before the timer fires, and rejects with the abort otherwise.  The timer
    is cleared as soon as the call settles, so reading the body afterwards
    ([text], [json]) is not under it. *)
Definition fetch (call : FetchCall) (ms : N)
  : Eff FetchCall (FetchResponse CompletionData) :=
  fun log =>
    let s := network call in
    (match settledAfter s with
     | Some t => if t <? ms then outcome s else Threw abortError
     | None => Threw abortError
     end, log ++ [call]).

(** The [catch (fetchError)] clause around the call. *)
Definition onFetchError (aiApiUrl : jsstring) (fetchError : JsThrown)
  : Eff FetchCall (FetchResponse CompletionData) :=
  match fetchError with
  | ThrownError name message =>
      if bool_decide (name = js "AbortError") || includes message (js "timeout")
      then throw (newError timeoutMessage)
      else if includes message (js "Failed to fetch") || includes message (js "fetch failed")
      then throw (newError (unreachableMessage aiApiUrl))
      else throw (newError (js "网络请求失败: " ++ message))
  | ThrownOther => throw (newError (js "网络请求失败，请稍后重试"))
  end.

(** [request_json] is the body as the first statements of the [try] read
    it, or what they throw before the title is checked: [request.json()] on a
    text that is not JSON, [body.title] on the body [null], [trim] on a title
    or on an entry of [models] that is not a string. *)
Definition POST (request_json : JsResult GenerateRequest.t)
  : Eff FetchCall (HttpResponse Payload) :=
  (tryCatch
    (let* body := await request_json in
     let title := option_map trim (GenerateRequest.title body) in
     let models :=
       slice0 3 (List.filter truthy
                   (map trim (default [] (GenerateRequest.models body)))) in
     let contentType := or_else (GenerateRequest.contentType body) (js "discussion") in
     let stylePreference := or_else (GenerateRequest.stylePreference body) (js "random") in
     if negb (truthy_opt title)
     then ret (Response_json (ErrorPayload (js "标题不能为空")) 400)
     else
     let title := default [] title in
     let hasModels := (0 <? length models)%nat in
     if hasModels &&
        match GenerateRequest.searchData body with
        | None => true
        | Some searchData => (length (map_to_list searchData).*1 =? 0)%nat
        end
     then ret (Response_json (ErrorPayload (js "缺少搜索数据 searchData")) 400)
     else
     let* searchDigest :=
       await (if hasModels
              then formatSearchData models
                     (default ∅ (GenerateRequest.searchData body))
              else Returned []) in
     let userPrompt :=
       buildPrompt title models searchDigest hasModels stylePreference contentType in
     let contentPrompt := selectContentPrompt contentType in
     let styleHint := selectStyleHint stylePreference in
     let systemPrompt :=
       join (nl ++ nl) (List.filter truthy [zhihuPersona; contentPrompt; styleHint]) in
     let aiApiUrl :=
       or_else (env (js "AI_API_URL")) (js "https://api.openai.com/v1/chat/completions") in
     let aiApiKey :=
       if truthy_opt (env (js "AI_API_KEY")) then env (js "AI_API_KEY")
       else env (js "OPENAI_API_KEY") in
     if negb (truthy_opt aiApiKey)
     then ret (Response_json (ErrorPayload credentialMessage) 500)
     else
     let* response :=
       tryCatch
         (fetch {| url := aiApiUrl;
                   method := js "POST";
                   contentTypeHeader := js "application/json";
                   authorization := js "Bearer " ++ default [] aiApiKey;
                   model := js "gpt-4.1";
                   systemContent := systemPrompt;
                   userContent := userPrompt;
                   temperature := 85 # 100;
                   max_tokens := 4000 |} timeoutMs)
         (onFetchError aiApiUrl) in
     if negb (ok response)
     then
       let* errorText :=
         tryCatch (await (text response)) (fun _ => ret (statusText response)) in
       throw (newError (upstreamMessage (status response) errorText))
     else
     let* data := await (json response) in
     let article := or_else (firstContent data) [] in
     if negb (truthy article)
     then throw (newError emptyMessage)
     else
     ret (Response_json
            (ArticlePayload article
               {| Metadata.title := title;
                  Metadata.models := models;
                  Metadata.contentType := contentType;
                  Metadata.stylePreference := stylePreference;
                  Metadata.generatedAt := now |}) 200))
    (fun error =>
       ret (Response_json
              (ErrorPayload
                 match error with
                 | ThrownError _ message => message
                 | ThrownOther => js "生成失败"
                 end) 500)))%eff.

(** One request, from an empty log: the answer and the calls made. *)
Definition handle (request_json : JsResult GenerateRequest.t)
  : JsResult (HttpResponse Payload) * list FetchCall :=
  POST request_json [].

End Handler.

End Generate.

(** ** The search endpoint: [src/app/api/search/route.ts] *)

Module Search.

Record SearchResultItem : Type := {
  title : jsstring;
  snippet : jsstring;
  link : jsstring;
  source : jsstring
}.

Record SearchRequestBody : Type := { model : option jsstring }.

(** One entry of [organic_results] as the provider sends it. *)
Module Raw.
Record t : Type := {
  title : option jsstring;
  snippet : option jsstring;
  url : option jsstring
}.
End Raw.

(** A truthy [error] field of the provider's answer; [stringified] is its
    [JSON.stringify]. *)
Record ProviderError : Type := {
  info : option jsstring;
  type : option jsstring;
  stringified : jsstring
}.

Record SerpData : Type := {
  error : option ProviderError;
  organic_results : option (list Raw.t)
}.

Inductive Payload : Type :=
  | ErrorPayload (error : jsstring)
  | ResultsPayload (model : jsstring) (results : list SearchResultItem).

(** *** [encodeURIComponent] *)

Definition hexDigit (n : N) : N := if n <? 10 then 48 + n else 55 + n.

Definition percent (byte : N) : jsstring :=
  [37; hexDigit (N.shiftr byte 4); hexDigit (N.land byte 15)].

Definition utf8_bytes (cp : N) : list N :=
  if cp <? 128 then [cp]
  else if cp <? 2048 then
    [N.lor 192 (N.shiftr cp 6); N.lor 128 (N.land cp 63)]
  else if cp <? 65536 then
    [N.lor 224 (N.shiftr cp 12); N.lor 128 (N.land (N.shiftr cp 6) 63);
     N.lor 128 (N.land cp 63)]
  else
    [N.lor 240 (N.shiftr cp 18); N.lor 128 (N.land (N.shiftr cp 12) 63);
     N.lor 128 (N.land (N.shiftr cp 6) 63); N.lor 128 (N.land cp 63)].

Definition escaped (cp : N) : jsstring := concat (map percent (utf8_bytes cp)).

(** The characters [encodeURIComponent] leaves alone:
    letters, digits and [- _ . ! ~ * ' ( )]. *)
Definition unreserved (c : N) : bool :=
  ((65 <=? c) && (c <=? 90)) || ((97 <=? c) && (c <=? 122))
  || ((48 <=? c) && (c <=? 57))
  || (c =? 45) || (c =? 95) || (c =? 46) || (c =? 33) || (c =? 126)
  || (c =? 42) || (c =? 39) || (c =? 40) || (c =? 41).

Definition isHighSurrogate (c : N) : bool := (55296 <=? c) && (c <=? 56319).
Definition isLowSurrogate (c : N) : bool := (56320 <=? c) && (c <=? 57343).

(** [None] on a lone surrogate. *)
Fixpoint encodeUnits (s : jsstring) : option jsstring :=
  match s with
  | [] => Some []
  | c :: r =>
      if unreserved c then option_map (cons c) (encodeUnits r)
      else if isHighSurrogate c then
        match r with
        | d :: r' =>
            if isLowSurrogate d
            then option_map
                   (app (escaped (65536 + (c - 55296) * 1024 + (d - 56320))))
                   (encodeUnits r')
            else None
        | [] => None
        end
      else if isLowSurrogate c then None
      else option_map (app (escaped c)) (encodeUnits r)
  end.

Definition encodeURIComponent (s : jsstring) : JsResult jsstring :=
  match encodeUnits s with
  | Some e => Returned e
  | None => Threw (ThrownError (js "URIError") (js "URI malformed"))
  end.

(** *** [querySerpstack] *)

(** The callback of [organic.filter]: all three fields truthy. *)
Definition complete (item : Raw.t) : bool :=
  truthy_opt (Raw.title item) && truthy_opt (Raw.snippet item)
  && truthy_opt (Raw.url item).

(** The callback of [.map]; the [!] assertions read the fields as they are. *)
Definition normalize (item : Raw.t) : SearchResultItem :=
  {| title := default [] (Raw.title item);
     snippet := default [] (Raw.snippet item);
     link := default [] (Raw.url item);
     source := js "serpstack" |}.

(** [data.error.info || data.error.type || JSON.stringify(data.error)] *)
Definition errorMsg (e : ProviderError) : jsstring :=
  or_else (info e) (or_else (type e) (stringified e)).

(** The number of results asked of the provider ([&num=10]). *)
Definition num : nat := 10.

(** [organic.filter(...).map(...)] *)
Definition normalized (organic : list Raw.t) : list SearchResultItem :=
  map normalize (List.filter complete organic).

Section Handler.

(** [process.env.SERPSTACK_API_KEY] when the module is loaded. *)
Variable SERPSTACK_API_KEY : option jsstring.
(** The provider as seen from the handler, by requested URL. *)
Variable network : jsstring -> JsResult (FetchResponse SerpData).

(** [`${SERPSTACK_API_KEY}`] *)
Definition keyText : jsstring :=
  match SERPSTACK_API_KEY with
  | Some k => k
  | None => js "undefined"
  end.

(** The [url] constant of [querySerpstack], given the encoded model name. *)
Definition url (query : jsstring) : jsstring :=
  js "https://api.serpstack.com/search?access_key=" ++ keyText
  ++ js "&query=" ++ query ++ js "&num=10".

Definition fetch (url : jsstring) : Eff jsstring (FetchResponse SerpData) :=
  fun log => (network url, log ++ [url]).

Definition querySerpstack (model : jsstring)
  : Eff jsstring (option (list SearchResultItem)) :=
  (tryCatch
    (let* query := await (encodeURIComponent model) in
     let url := url query in
     let* res := fetch url in
     if negb (ok res)
     then
       let* text := await (text res) in
       throw (newError (js "Serpstack API HTTP " ++ toString (status res)
                        ++ js ": " ++ substring0 100 text))
     else
     let* data := await (json res) in
     match error data with
     | Some e => throw (newError (js "Serpstack API 错误: " ++ errorMsg e))
     | None =>
         let organic := default [] (organic_results data) in
         if (length organic =? 0)%nat then ret None
         else ret (Some (normalized organic))
     end)
    (fun _ => ret None))%eff.

Definition POST (request_json : JsResult SearchRequestBody)
  : Eff jsstring (HttpResponse Payload) :=
  (tryCatch
    (let* body := await request_json in
     let model := option_map trim (model body) in
     if negb (truthy_opt model)
     then ret (Response_json (ErrorPayload (js "型号不能为空")) 400)
     else
     let model := default [] model in
     if negb (truthy_opt SERPSTACK_API_KEY)
     then ret (Response_json (ErrorPayload (js "SERPSTACK_API_KEY 未配置")) 500)
     else
     let* results := querySerpstack model in
     match results with
     | None | Some [] =>
         ret (Response_json (ErrorPayload (js "未能获取搜索结果，请稍后再试")) 502)
     | Some results => ret (Response_json (ResultsPayload model results) 200)
     end)
    (fun error =>
       let message :=
         match error with
         | ThrownError _ message => message
         | ThrownOther => js "搜索失败"
         end in
       let status :=
         if includes message (js "invalid_access_key")
            || includes message (js "API Access Key")
         then 401 else 500 in
       ret (Response_json (ErrorPayload message) status)))%eff.

Definition handle (request_json : JsResult SearchRequestBody)
  : JsResult (HttpResponse Payload) * list jsstring :=
  POST request_json [].

End Handler.

End Search.

(** ** The pages: [src/app/page.tsx] and [src/app/result/page.tsx]

    A handler of a page is read as the effects it performs, in order: the
    state setters it calls, the requests it sends, what it stores.  The
    values a handler reads belong to the render it was created in and are
    its arguments; a setter called with a function keeps that function,
    which [settle] applies to the state current at that point.  The body of
    such a function runs when React applies it, not where the handler calls
    the setter: what it throws does not reach a [catch] of the handler, and
    fails the render instead.  What the handlers write to the console, and
    the call of [preventDefault] on the submit event, are left out. *)

Module Pages.

(** A search result as the pages pass it on: what [/api/search] sent is
    what [/api/generate] receives. *)
Definition SearchResultItem : Type := Generate.SearchResultItem.t.

(** [Product] of the result page; the handlers read its name only. *)
Record Product : Type := { name : option jsstring }.

(** [ArticleMetadata] of the result page; a field may be missing in what
    was stored. *)
Module ArticleMetadata.
Record t : Type := {
  title : option jsstring;
  models : option (list jsstring);
  searchData : option (gmap jsstring (list SearchResultItem));
  contentType : option jsstring;
  stylePreference : option jsstring;
  generatedAt : option jsstring;
  question : option jsstring;
  products : option (list Product)
}.
End ArticleMetadata.

(** The parsed answers of the two endpoints, as far as the pages read them. *)
Module SearchReply.
Record t : Type := {
  error : option jsstring;
  results : option (list SearchResultItem)
}.
End SearchReply.

Module GenerateReply.
Record t : Type := {
  error : option jsstring;
  article : option jsstring;
  metadata : option ArticleMetadata.t
}.
End GenerateReply.

(** A request of a page, with the value its JSON body stands for. *)
Inductive Request : Type :=
  | postSearch (body : Search.SearchRequestBody)
  | postGenerate (body : Generate.GenerateRequest.t).

(** [obj[key] = value] on an object literal used as a map, for a [value] that
    is an array: the key [__proto__] names the prototype of the object and
    gives it no property of its own. *)
Definition assign {V} (obj : gmap jsstring V) (key : jsstring) (value : V)
  : gmap jsstring V :=
  if decide (key = js "__proto__") then obj else <[key := value]> obj.

(** [err instanceof Error ? err.message : fallback] *)
Definition messageOr (err : JsThrown) (fallback : jsstring) : jsstring :=
  match err with
  | ThrownError _ message => message
  | ThrownOther => fallback
  end.

(** [try { m } finally { f }] *)
Definition tryFinally {L A} (m : Eff L A) (f : Eff L unit) : Eff L A :=
  fun log =>
    match m log with
    | (r, log') =>
        match f log' with
        | (Returned _, log'') => (r, log'')
        | (Threw e, log'') => (Threw e, log'')
        end
    end.

(** One effect, appended to the log. *)
Definition perform {L} (e : L) : Eff L unit := fun log => (Returned tt, log ++ [e]).

(** A call that leaves the page, as [await fetch(...)]: it is logged as
    [sent] and ends as the other side [answer]s. *)
Definition request {L A} (sent : L) (answer : JsResult A) : Eff L A :=
  fun log => (answer, log ++ [sent]).

(** The [try] around a [fetch] whose [catch] rethrows a network error. *)
Definition orNetworkError {L A} (m : Eff L A) : Eff L A :=
  tryCatch m
    (fun networkError =>
       throw (newError (js "网络请求失败: "
                        ++ messageOr networkError (js "无法连接到服务器")))).

(** [`HTTP ${response.status}: ${response.statusText}`] *)
Definition httpMessage {D} (response : FetchResponse D) : jsstring :=
  js "HTTP " ++ toString (status response) ++ js ": " ++ statusText response.

Section Engine.

(** The message of the [TypeError] the engine throws when a property of
    [null] is read. *)
Variable nullRead : jsstring -> jsstring.

Definition nullError (property : jsstring) : JsThrown :=
  ThrownError (js "TypeError") (nullRead property).

(** The block both pages run on an answer that is not [ok]: the message is
    the [error] of the JSON body, the [fallback] when that is missing or
    empty, and the status line when the body is not JSON or is [null]
    ([None]). *)
Definition errorMessageOf {L D} (response : FetchResponse (option D))
    (error : D -> option jsstring) (fallback : jsstring) : Eff L jsstring :=
  (tryCatch
     (let* errorData := await (json response) in
      match errorData with
      | Some errorData => ret (or_else (error errorData) fallback)
      | None => throw (nullError (js "error"))
      end)
     (fun _ => ret (httpMessage response)))%eff.

End Engine.

End Pages.

(** *** The form: [src/app/page.tsx] *)

Module Home.

Import Pages.

Module ModelEntry.
Record t : Type := {
  id : jsstring;
  name : jsstring;
  results : list SearchResultItem;
  isLoading : bool;
  error : option jsstring
}.
End ModelEntry.

Definition MAX_MODELS : N := 3.

(** The state of the component: the seven values of [useState], and in
    [crashed] what failed its render, if anything did. *)
Record State : Type := {
  title : jsstring;
  manualPrompt : jsstring;
  contentType : jsstring;
  stylePreference : jsstring;
  models : list ModelEntry.t;
  isLoading : bool;
  error : jsstring;
  crashed : option JsThrown
}.

(** [setModels] is always called with a function of the previous list,
    which may throw when React runs it. *)
Inductive Effect : Type :=
  | setTitle (value : jsstring)
  | setManualPrompt (value : jsstring)
  | setModels (update : list ModelEntry.t -> JsResult (list ModelEntry.t))
  | setIsLoading (value : bool)
  | setError (value : jsstring)
  | fetch (request : Request)
  | sessionStorage_setItem (key : jsstring) (value : GenerateReply.t)
  | location_href (value : jsstring).

(** An update that cannot throw. *)
Definition total (update : list ModelEntry.t -> list ModelEntry.t)
  : list ModelEntry.t -> JsResult (list ModelEntry.t) :=
  fun prev => Returned (update prev).

(** The state after one effect, and after a log of effects.  An update
    that throws leaves the list as it was and fails the render of the
    component; the state of the form is given as it was kept up to then, also
    for what a handler that is still running sets afterwards. *)
Definition apply (st : State) (e : Effect) : State :=
  match e with
  | setTitle v =>
      {| title := v; manualPrompt := manualPrompt st;
         contentType := contentType st; stylePreference := stylePreference st;
         models := models st; isLoading := isLoading st; error := error st;
         crashed := crashed st |}
  | setManualPrompt v =>
      {| title := title st; manualPrompt := v;
         contentType := contentType st; stylePreference := stylePreference st;
         models := models st; isLoading := isLoading st; error := error st;
         crashed := crashed st |}
  | setModels update =>
      match update (models st) with
      | Returned models' =>
          {| title := title st; manualPrompt := manualPrompt st;
             contentType := contentType st; stylePreference := stylePreference st;
             models := models'; isLoading := isLoading st;
             error := error st; crashed := crashed st |}
      | Threw e =>
          {| title := title st; manualPrompt := manualPrompt st;
             contentType := contentType st; stylePreference := stylePreference st;
             models := models st; isLoading := isLoading st;
             error := error st; crashed := Some e |}
      end
  | setIsLoading v =>
      {| title := title st; manualPrompt := manualPrompt st;
         contentType := contentType st; stylePreference := stylePreference st;
         models := models st; isLoading := v; error := error st;
         crashed := crashed st |}
  | setError v =>
      {| title := title st; manualPrompt := manualPrompt st;
         contentType := contentType st; stylePreference := stylePreference st;
         models := models st; isLoading := isLoading st; error := v;
         crashed := crashed st |}
  | fetch _ | sessionStorage_setItem _ _ | location_href _ => st
  end.

Definition settle (st : State) (log : list Effect) : State := foldl apply st log.

(** [{ id, name: "", results: [], isLoading: false }] *)
Definition blank (id : jsstring) : ModelEntry.t :=
  {| ModelEntry.id := id; ModelEntry.name := []; ModelEntry.results := [];
     ModelEntry.isLoading := false; ModelEntry.error := None |}.

(** [models.filter((m) => m.name.trim())] *)
Definition activeModels (models : list ModelEntry.t) : list ModelEntry.t :=
  List.filter (fun m => truthy (trim (ModelEntry.name m))) models.

(** The three updates that [handleFetchSearch] makes to the entry [modelId].
    The first and the last read nothing that can fail. *)
Definition loading (modelId : jsstring) (prev : list ModelEntry.t)
  : list ModelEntry.t :=
  map (fun m =>
         if decide (ModelEntry.id m = modelId)
         then {| ModelEntry.id := ModelEntry.id m;
                 ModelEntry.name := ModelEntry.name m;
                 ModelEntry.results := ModelEntry.results m;
                 ModelEntry.isLoading := true;
                 ModelEntry.error := None |}
         else m) prev.

(** The update after an answer that was parsed, with [data] the parsed
    value ([None]: [null]).  [data.results] is read in the body of the
    function, once for each entry with the id: on [null] that read throws
    the [TypeError] of the engine, when React runs the function. *)
Definition loaded (nullRead : jsstring -> jsstring) (modelId : jsstring)
    (data : option SearchReply.t) (prev : list ModelEntry.t)
  : JsResult (list ModelEntry.t) :=
  mapThrowing
    (fun m =>
       if decide (ModelEntry.id m = modelId)
       then
         match data with
         | Some data =>
             Returned {| ModelEntry.id := ModelEntry.id m;
                         ModelEntry.name := ModelEntry.name m;
                         ModelEntry.results := default [] (SearchReply.results data);
                         ModelEntry.isLoading := false;
                         ModelEntry.error := ModelEntry.error m |}
         | None => Threw (nullError nullRead (js "results"))
         end
       else Returned m) prev.

Definition failed (modelId : jsstring) (message : jsstring)
    (prev : list ModelEntry.t) : list ModelEntry.t :=
  map (fun m =>
         if decide (ModelEntry.id m = modelId)
         then {| ModelEntry.id := ModelEntry.id m;
                 ModelEntry.name := ModelEntry.name m;
                 ModelEntry.results := [];
                 ModelEntry.isLoading := false;
                 ModelEntry.error := Some message |}
         else m) prev.

(** The [payload] of [handleSubmit], as the value its JSON text stands for:
    a property that is [undefined] is left out of the text. *)
Definition payload (st : State) : Generate.GenerateRequest.t :=
  let activeModels := activeModels (models st) in
  {| Generate.GenerateRequest.title := Some (trim (title st));
     Generate.GenerateRequest.models :=
       Some (map (fun model => trim (ModelEntry.name model)) activeModels);
     Generate.GenerateRequest.searchData :=
       Some (if (0 <? length activeModels)%nat
             then foldl (fun acc model =>
                           assign acc (trim (ModelEntry.name model))
                             (ModelEntry.results model))
                    ∅ activeModels
             else ∅);
     Generate.GenerateRequest.manualPrompt :=
       (let p := trim (manualPrompt st) in if truthy p then Some p else None);
     Generate.GenerateRequest.contentType := Some (contentType st);
     Generate.GenerateRequest.stylePreference := Some (stylePreference st) |}.

(** [{ ...data, metadata: { ...data.metadata, searchData } }] *)
Definition dataToSave (data : GenerateReply.t)
    (searchData : option (gmap jsstring (list SearchResultItem)))
  : GenerateReply.t :=
  {| GenerateReply.error := GenerateReply.error data;
     GenerateReply.article := GenerateReply.article data;
     GenerateReply.metadata :=
       Some
         match GenerateReply.metadata data with
         | Some m =>
             {| ArticleMetadata.title := ArticleMetadata.title m;
                ArticleMetadata.models := ArticleMetadata.models m;
                ArticleMetadata.searchData := searchData;
                ArticleMetadata.contentType := ArticleMetadata.contentType m;
                ArticleMetadata.stylePreference := ArticleMetadata.stylePreference m;
                ArticleMetadata.generatedAt := ArticleMetadata.generatedAt m;
                ArticleMetadata.question := ArticleMetadata.question m;
                ArticleMetadata.products := ArticleMetadata.products m |}
         | None =>
             {| ArticleMetadata.title := None;
                ArticleMetadata.models := None;
                ArticleMetadata.searchData := searchData;
                ArticleMetadata.contentType := None;
                ArticleMetadata.stylePreference := None;
                ArticleMetadata.generatedAt := None;
                ArticleMetadata.question := None;
                ArticleMetadata.products := None |}
         end |}.

Section Handlers.

(** [useId()] *)
Variable baseId : jsstring.
(** The two endpoints as seen from the page, by request body.  The text
    and the JSON of an answer are read as [text] and [json]: [JSON.parse]
    of the text of a response is the response's JSON. *)
Variable searchApi
  : Search.SearchRequestBody -> JsResult (FetchResponse (option SearchReply.t)).
Variable generateApi
  : Generate.GenerateRequest.t -> JsResult (FetchResponse (option GenerateReply.t)).
Variable nullRead : jsstring -> jsstring.
(** How [sessionStorage.setItem] ends: it may throw when the storage is
    full. *)
Variable setItem : jsstring -> GenerateReply.t -> JsResult unit.

(** The initial value of [models]. *)
Definition initialModels : list ModelEntry.t := [blank (baseId ++ js "-0")].

Definition addModel (st : State) : Eff Effect unit :=
  if MAX_MODELS <=? N.of_nat (length (models st))
  then perform (setError (js "最多支持 " ++ toString MAX_MODELS ++ js " 个型号"))
  else perform (setModels (total (fun prev =>
         prev ++ [blank (baseId ++ js "-" ++ toString (N.of_nat (length prev)))]))).

Definition removeModel (id : jsstring) : Eff Effect unit :=
  perform (setModels (total (fun prev =>
    List.filter (fun model => negb (bool_decide (ModelEntry.id model = id))) prev))).

Definition updateModelName (id value : jsstring) : Eff Effect unit :=
  perform (setModels (total (fun prev =>
    map (fun model =>
           if decide (ModelEntry.id model = id)
           then {| ModelEntry.id := ModelEntry.id model;
                   ModelEntry.name := value;
                   ModelEntry.results := ModelEntry.results model;
                   ModelEntry.isLoading := ModelEntry.isLoading model;
                   ModelEntry.error := ModelEntry.error model |}
           else model) prev))).

Definition handleFetchSearch (st : State) (modelId : jsstring)
  : Eff Effect unit :=
  match List.find (fun m => bool_decide (ModelEntry.id m = modelId)) (models st) with
  | None => ret tt
  | Some target =>
      let modelName := trim (ModelEntry.name target) in
      if negb (truthy modelName) then perform (setError (js "请先输入商品型号"))
      else
      (let* _ := perform (setError []) in
       let* _ := perform (setModels (total (loading modelId))) in
       tryCatch
         (let body := {| Search.model := Some modelName |} in
          let* response :=
            orNetworkError (request (fetch (postSearch body)) (searchApi body)) in
          let* _ :=
            if negb (ok response)
            then
              let* errorMessage :=
                errorMessageOf nullRead response SearchReply.error (js "搜索失败") in
              throw (newError errorMessage)
            else ret tt in
          let* text := await (text response) in
          if negb (truthy text) then throw (newError (js "服务器返回空响应"))
          else
          let* data :=
            tryCatch (await (json response))
              (fun _ => throw (newError (js "服务器返回的数据格式错误"))) in
          perform (setModels (loaded nullRead modelId data)))
         (fun err =>
            let message := messageOr err (js "搜索失败，请重试") in
            let* _ := perform (setModels (total (failed modelId message))) in
            perform (setError message)))%eff
  end.

Definition handleReset : Eff Effect unit :=
  (let* _ := perform (setTitle []) in
   let* _ := perform (setManualPrompt []) in
   let* _ := perform (setModels (total (fun _ => initialModels))) in
   perform (setError []))%eff.

Definition handleSubmit (st : State) : Eff Effect unit :=
  if negb (truthy (trim (title st)))
  then perform (setError (js "请输入知乎问题或标题"))
  else
  let activeModels := activeModels (models st) in
  let missingSearch :=
    existsb (fun model => (length (ModelEntry.results model) =? 0)%nat)
      activeModels in
  if (0 <? length activeModels)%nat && missingSearch
  then perform (setError (js "请先为每个型号获取搜索信息"))
  else
  let payload := payload st in
  (let* _ := perform (setError []) in
   let* _ := perform (setIsLoading true) in
   tryFinally
     (tryCatch
        (let* response :=
           orNetworkError
             (request (fetch (postGenerate payload)) (generateApi payload)) in
         let* _ :=
           if negb (ok response)
           then
             let* errorMessage :=
               errorMessageOf nullRead response GenerateReply.error (js "生成失败") in
             throw (newError errorMessage)
           else ret tt in
         let* text := await (text response) in
         if negb (truthy text) then throw (newError (js "服务器返回空响应"))
         else
         let* data :=
           tryCatch (await (json response))
             (fun _ => throw (newError (js "服务器返回的数据格式错误"))) in
         match data with
         | Some data =>
             if negb (truthy_opt (GenerateReply.article data))
             then throw (newError (js "生成的文章内容为空"))
             else
             let dataToSave :=
               dataToSave data (Generate.GenerateRequest.searchData payload) in
             let* _ :=
               request (sessionStorage_setItem (js "generatedArticle") dataToSave)
                 (setItem (js "generatedArticle") dataToSave) in
             perform (location_href (js "/result"))
         | None => throw (nullError nullRead (js "article"))
         end)
        (fun err =>
           let message := messageOr err (js "生成出错，请重试") in
           perform (setError message)))
     (perform (setIsLoading false)))%eff.

End Handlers.

End Home.

(** *** The result page: [src/app/result/page.tsx] *)

Module ResultPage.

Import Pages.

(** The state of the component that [handleRegenerate] reads or sets. *)
Record State : Type := {
  article : jsstring;
  metadata : option ArticleMetadata.t;
  isEditing : bool;
  editedContent : jsstring;
  isRegenerating : bool;
  regenerateError : jsstring
}.

Inductive Effect : Type :=
  | setArticle (value : jsstring)
  | setEditedContent (value : jsstring)
  | setIsEditing (value : bool)
  | setMetadata (value : option ArticleMetadata.t)
  | setIsRegenerating (value : bool)
  | setRegenerateError (value : jsstring)
  | fetch (request : Request)
  | sessionStorage_setItem (key : jsstring) (value : GenerateReply.t).

Definition apply (st : State) (e : Effect) : State :=
  match e with
  | setArticle v =>
      {| article := v; metadata := metadata st; isEditing := isEditing st;
         editedContent := editedContent st;
         isRegenerating := isRegenerating st;
         regenerateError := regenerateError st |}
  | setEditedContent v =>
      {| article := article st; metadata := metadata st;
         isEditing := isEditing st; editedContent := v;
         isRegenerating := isRegenerating st;
         regenerateError := regenerateError st |}
  | setIsEditing v =>
      {| article := article st; metadata := metadata st; isEditing := v;
         editedContent := editedContent st;
         isRegenerating := isRegenerating st;
         regenerateError := regenerateError st |}
  | setMetadata v =>
      {| article := article st; metadata := v; isEditing := isEditing st;
         editedContent := editedContent st;
         isRegenerating := isRegenerating st;
         regenerateError := regenerateError st |}
  | setIsRegenerating v =>
      {| article := article st; metadata := metadata st;
         isEditing := isEditing st; editedContent := editedContent st;
         isRegenerating := v; regenerateError := regenerateError st |}
  | setRegenerateError v =>
      {| article := article st; metadata := metadata st;
         isEditing := isEditing st; editedContent := editedContent st;
         isRegenerating := isRegenerating st; regenerateError := v |}
  | fetch _ | sessionStorage_setItem _ _ => st
  end.

Definition settle (st : State) (log : list Effect) : State := foldl apply st log.

(** [metadata.title || metadata.question || ""] *)
Definition titleOf (metadata : ArticleMetadata.t) : jsstring :=
  or_else (ArticleMetadata.title metadata)
    (or_else (ArticleMetadata.question metadata) []).

(** [metadata.models || metadata.products?.map((p) => p.name || "")
    .filter(Boolean) || []]: an array is truthy, also when empty. *)
Definition modelsOf (metadata : ArticleMetadata.t) : list jsstring :=
  match ArticleMetadata.models metadata with
  | Some models => models
  | None =>
      match ArticleMetadata.products metadata with
      | Some products =>
          List.filter truthy (map (fun p => or_else (name p) []) products)
      | None => []
      end
  end.

(** The body of the request to [/api/generate]. *)
Definition regenerateBody (metadata : ArticleMetadata.t) (title : jsstring)
    (models : list jsstring)
    (searchData : gmap jsstring (list SearchResultItem))
  : Generate.GenerateRequest.t :=
  {| Generate.GenerateRequest.title := Some title;
     Generate.GenerateRequest.models := Some models;
     Generate.GenerateRequest.searchData := Some searchData;
     Generate.GenerateRequest.manualPrompt := None;
     Generate.GenerateRequest.contentType :=
       Some (or_else (ArticleMetadata.contentType metadata) (js "discussion"));
     Generate.GenerateRequest.stylePreference :=
       Some (or_else (ArticleMetadata.stylePreference metadata) (js "random")) |}.

Section Handlers.

Variable searchApi
  : Search.SearchRequestBody -> JsResult (FetchResponse (option SearchReply.t)).
Variable generateApi
  : Generate.GenerateRequest.t -> JsResult (FetchResponse (option GenerateReply.t)).
Variable nullRead : jsstring -> jsstring.
Variable setItem : jsstring -> GenerateReply.t -> JsResult unit.

(** The loop [for (const model of models)] that searches again. *)
Fixpoint searchAgain (models : list jsstring)
    (newSearchData : gmap jsstring (list SearchResultItem))
  : Eff Effect (gmap jsstring (list SearchResultItem)) :=
  match models with
  | [] => ret newSearchData
  | model :: rest =>
      (let* newSearchData :=
         tryCatch
           (let body := {| Search.model := Some model |} in
            let* searchResponse :=
              request (fetch (postSearch body)) (searchApi body) in
            if ok searchResponse
            then
              let* searchResult := await (json searchResponse) in
              match searchResult with
              | Some searchResult =>
                  ret (assign newSearchData model
                         (default [] (SearchReply.results searchResult)))
              | None => throw (nullError nullRead (js "results"))
              end
            else ret (assign newSearchData model []))
           (fun _ => ret (assign newSearchData model [])) in
       searchAgain rest newSearchData)%eff
  end.

(** The rest of the [try] block of [handleRegenerate], from the request to
    [/api/generate] on. *)
Definition generateAgain (body : Generate.GenerateRequest.t) : Eff Effect unit :=
  (let* response :=
     orNetworkError (request (fetch (postGenerate body)) (generateApi body)) in
   let* _ :=
     if negb (ok response)
     then
       let* errorMessage :=
         errorMessageOf nullRead response GenerateReply.error (js "重新生成失败") in
       throw (newError errorMessage)
     else ret tt in
   let* text := await (text response) in
   if negb (truthy text) then throw (newError (js "服务器返回空响应"))
   else
   let* data :=
     tryCatch (await (json response))
       (fun _ => throw (newError (js "服务器返回的数据格式错误"))) in
   match data with
   | Some data =>
       match GenerateReply.article data with
       | Some ((_ :: _) as article) =>
           let* _ := perform (setArticle article) in
           let* _ := perform (setEditedContent article) in
           let* _ := perform (setIsEditing false) in
           let* _ :=
             request (sessionStorage_setItem (js "generatedArticle") data)
               (setItem (js "generatedArticle") data) in
           perform (setMetadata (GenerateReply.metadata data))
       | _ => throw (newError (js "生成的文章内容为空"))
       end
   | None => throw (nullError nullRead (js "article"))
   end)%eff.

Definition handleRegenerate (metadata : option ArticleMetadata.t)
  : Eff Effect unit :=
  match metadata with
  | None => ret tt
  | Some metadata =>
      (let* _ := perform (setIsRegenerating true) in
       let* _ := perform (setRegenerateError []) in
       tryFinally
         (tryCatch
            (let title := titleOf metadata in
             let models := modelsOf metadata in
             let searchData := default ∅ (ArticleMetadata.searchData metadata) in
             if negb (truthy title)
             then throw (newError (js "缺少文章标题，无法重新生成"))
             else
             if (length models =? 0)%nat
             then throw (newError (js "缺少商品型号信息，无法重新生成"))
             else
             let* searchData :=
               if (length (map_to_list searchData).*1 =? 0)%nat
               then
                 let* _ := perform (setRegenerateError (js "正在重新获取搜索数据...")) in
                 let* newSearchData := searchAgain models ∅ in
                 let hasResults :=
                   existsb (fun results => (0 <? length results)%nat)
                     (map_to_list newSearchData).*2 in
                 if negb hasResults
                 then throw (newError
                        (js "无法获取搜索数据，请检查网络连接或返回首页重新生成"))
                 else ret newSearchData
               else ret searchData in
             generateAgain (regenerateBody metadata title models searchData))
            (fun err =>
               let message := messageOr err (js "重新生成失败，请重试") in
               perform (setRegenerateError message)))
         (perform (setIsRegenerating false)))%eff
  end.

End Handlers.

End ResultPage.

(** ** Notions used to state the properties *)

Import Generate.

(** [contains s pat]: [pat] occurs in [s] as a contiguous run of code units. *)
Definition contains (s pat : jsstring) : Prop :=
  exists pre post, s = pre ++ pat ++ post.

(** A string that does not start with white space. *)
Definition startsClean (s : jsstring) : Prop :=
  match s with [] => True | c :: _ => isWhiteSpace c = false end.

(** The model name the search handler works with. *)
Definition requestedModel (body : Search.SearchRequestBody) : option jsstring :=
  option_map trim (Search.model body).

(** The status of an answer, when there is one. *)
Definition statusOf {B} (answer : JsResult (HttpResponse B)) : option N :=
  match answer with
  | Returned r => Some (responseStatus r)
  | Threw _ => None
  end.

(** *** Templates as literal pieces and interpolated arguments *)

(** [s.endsWith(pat)] *)
Definition endsWith (s pat : jsstring) : bool := startsWith (rev s) (rev pat).

Inductive seg : Type :=
  | Lit (s : jsstring)
  | Arg (a : jsstring).

Definition text_of (x : seg) : jsstring :=
  match x with Lit s => s | Arg a => a end.

Definition flatten (segs : list seg) : jsstring := concat (map text_of segs).

(** No non-empty end of [P] begins [F], and no non-empty beginning of [P]
    ends [F]: an occurrence of [F] cannot start inside [P] and run past its
    end, nor start before [P] and stop inside it. *)
Definition overlap_free_after (P F : jsstring) : bool :=
  forallb (fun k => negb (startsWith F (drop k P))) (seq 0 (length P)).

Definition overlap_free_before (P F : jsstring) : bool :=
  forallb (fun k => negb (endsWith F (take k P))) (seq 1 (length P)).

Definition lit_ok (F P : jsstring) : bool :=
  negb (includes P F) && negb (includes F P)
  && overlap_free_after P F && overlap_free_before P F.

(** Every literal piece keeps [F] out, and no two arguments are adjacent. *)
Fixpoint separated (F : jsstring) (segs : list seg) : bool :=
  match segs with
  | [] => true
  | Lit P :: rest => lit_ok F P && separated F rest
  | Arg _ :: rest =>
      match rest with
      | Arg _ :: _ => false
      | _ => separated F rest
      end
  end.

(** The pieces of a string around the occurrences of a marker. *)
Fixpoint splitOn (m : N) (s : jsstring) : list jsstring :=
  match s with
  | [] => [[]]
  | c :: s' =>
      if c =? m then [] :: splitOn m s'
      else match splitOn m s' with
           | [] => [[c]]
           | p :: ps => (c :: p) :: ps
           end
  end.

(** A code unit that occurs in no template. *)
Definition marker : N := 0.

(** The literal pieces of the two templates, for a style and a content type:
    what is left of the prompt around a marked title, model list and digest. *)
Definition pieces (hasModels : bool) (writingStyle contentType : jsstring)
  : list jsstring :=
  splitOn marker
    (buildPrompt [marker] [[marker]] [marker] hasModels writingStyle contentType).

Definition piece (hasModels : bool) (writingStyle contentType : jsstring)
    (i : nat) : jsstring :=
  nth i (pieces hasModels writingStyle contentType) [].

(** The product template as pieces and arguments. *)
Definition productSegs (writingStyle contentType : jsstring)
    (title modelsText searchDigest : jsstring) : list seg :=
  let p := piece true writingStyle contentType in
  [Lit (p 0%nat); Arg title; Lit (p 1%nat); Arg modelsText; Lit (p 2%nat);
   Arg searchDigest; Lit (p 3%nat)].

(** The template without products as pieces and arguments. *)
Definition plainSegs (writingStyle contentType : jsstring)
    (title : jsstring) : list seg :=
  let p := piece false writingStyle contentType in
  [Lit (p 0%nat); Arg title; Lit (p 1%nat)].

(** *** The generate handler's view of a request

    The constants [POST] computes from the body and the environment, named
    so that the properties can mention them. *)

Section GenerateNotions.

Variable readFileSync : jsstring -> JsResult jsstring.
Variable cwd : jsstring.
Variable env : jsstring -> option jsstring.
Variable body : GenerateRequest.t.

Definition requestTitle : option jsstring :=
  option_map trim (GenerateRequest.title body).

Definition requestModels : list jsstring :=
  slice0 3 (List.filter truthy
              (map trim (default [] (GenerateRequest.models body)))).

Definition requestContentType : jsstring :=
  or_else (GenerateRequest.contentType body) (js "discussion").

Definition requestStyle : jsstring :=
  or_else (GenerateRequest.stylePreference body) (js "random").

Definition hasModels : bool := (0 <? length requestModels)%nat.

(** [!body.searchData || Object.keys(body.searchData).length === 0] *)
Definition lacksSearchData : bool :=
  match GenerateRequest.searchData body with
  | None => true
  | Some searchData => (length (map_to_list searchData).*1 =? 0)%nat
  end.

(** The request passes both checks of the handler. *)
Definition validated : bool :=
  truthy_opt requestTitle && negb (hasModels && lacksSearchData).

(** [searchDigest] of the handler: the digest of the search data, the
    empty string for a request without products, or what [formatSearchData]
    throws. *)
Definition searchDigest : JsResult jsstring :=
  if hasModels
  then formatSearchData requestModels (default ∅ (GenerateRequest.searchData body))
  else Returned [].

(** The product names under which [searchData[model]] finds a function with
    parameters when the search data has no key of that name. *)
Definition methodsWithParameters : list jsstring :=
  map fst (List.filter (fun m => negb (m.2 =? 0)) prototypeMethods).

(** [userPrompt] of the handler, which builds it once the digest is there;
    where [formatSearchData] throws there is no prompt, and this is the
    prompt of an empty digest. *)
Definition userPrompt : jsstring :=
  buildPrompt (default [] requestTitle) requestModels
    (match searchDigest with
     | Returned digest => digest
     | Threw _ => []
     end)
    hasModels requestStyle requestContentType.

Definition systemPrompt : jsstring :=
  join (nl ++ nl)
    (List.filter truthy
       [zhihuPersona; selectContentPrompt readFileSync cwd requestContentType;
        selectStyleHint requestStyle]).

Definition apiUrl : jsstring :=
  or_else (env (js "AI_API_URL")) (js "https://api.openai.com/v1/chat/completions").

Definition apiKey : option jsstring :=
  if truthy_opt (env (js "AI_API_KEY")) then env (js "AI_API_KEY")
  else env (js "OPENAI_API_KEY").

(** The one call the handler makes for a validated request, once the
    digest is there and a credential is configured. *)
Definition completionCall : FetchCall :=
  {| url := apiUrl;
     method := js "POST";
     contentTypeHeader := js "application/json";
     authorization := js "Bearer " ++ default [] apiKey;
     model := js "gpt-4.1";
     systemContent := systemPrompt;
     userContent := userPrompt;
     temperature := 85 # 100;
     max_tokens := 4000 |}.

End GenerateNotions.

(** The call did not settle before the timer fired. *)
Definition timesOut (s : Settlement) : Prop :=
  settledAfter s = None \/ exists t, settledAfter s = Some t /\ timeoutMs <= t.

(** The call settled in time, with this outcome. *)
Definition settlesWith (s : Settlement)
    (o : JsResult (FetchResponse CompletionData)) : Prop :=
  (exists t, settledAfter s = Some t /\ t < timeoutMs) /\ outcome s = o.

(** [errorText] of the handler: the body of the answer, or its status text
    when the body cannot be read. *)
Definition errorTextOf (r : FetchResponse CompletionData) : jsstring :=
  match text r with
  | Returned t => t
  | Threw _ => statusText r
  end.

(** What may follow a piece of a split without making an occurrence of the
    separator that starts in the piece: the separator less its last code
    unit. *)
Definition almost (sep : jsstring) : jsstring := take (length sep - 1) sep.

(** A framework as it stands in the rules text: a heading line with the
    title, then the content. *)
Definition renderFramework (f : Framework.t) : jsstring :=
  heading ++ Framework.title f ++ nl ++ Framework.content f.

(** [s.isWellFormed()]: no surrogate stands alone. *)
Fixpoint isWellFormed (s : jsstring) : bool :=
  match s with
  | [] => true
  | c :: r =>
      if Search.isHighSurrogate c then
        match r with
        | d :: r' => Search.isLowSurrogate d && isWellFormed r'
        | [] => false
        end
      else if Search.isLowSurrogate c then false
      else isWellFormed r
  end.

(** The code units [encodeURIComponent] can produce: the unreserved ones and
    the percent sign. *)
Definition urlSafe (c : N) : bool := Search.unreserved c || (c =? 37).

(** *** The pages *)

(** The requests among the effects of a handler, in the order sent. *)
Definition homeRequests (log : list Home.Effect) : list Pages.Request :=
  omap (fun e => match e with Home.fetch r => Some r | _ => None end) log.

Definition resultRequests (log : list ResultPage.Effect) : list Pages.Request :=
  omap (fun e => match e with ResultPage.fetch r => Some r | _ => None end) log.

(** What the form lets its user do: the handlers with their arguments. *)
Inductive Action : Type :=
  | addModel
  | removeModel (id : jsstring)
  | updateModelName (id value : jsstring)
  | handleFetchSearch (modelId : jsstring)
  | handleReset
  | handleSubmit.

Section Form.

Variable baseId : jsstring.
Variable searchApi
  : Search.SearchRequestBody
    -> JsResult (FetchResponse (option Pages.SearchReply.t)).
Variable generateApi
  : GenerateRequest.t -> JsResult (FetchResponse (option Pages.GenerateReply.t)).
Variable nullRead : jsstring -> jsstring.
Variable setItem : jsstring -> Pages.GenerateReply.t -> JsResult unit.

Definition homeHandler (st : Home.State) (a : Action) : Eff Home.Effect unit :=
  match a with
  | addModel => Home.addModel baseId st
  | removeModel id => Home.removeModel id
  | updateModelName id value => Home.updateModelName id value
  | handleFetchSearch modelId => Home.handleFetchSearch searchApi nullRead st modelId
  | handleReset => Home.handleReset baseId
  | handleSubmit => Home.handleSubmit generateApi nullRead setItem st
  end.

(** The state after a handler has run to its end from the state [st] it
    was created in. *)
Definition after (st : Home.State) (a : Action) : Home.State :=
  Home.settle st (snd (homeHandler st a [])).

(** The form as it is first rendered. *)
Definition initialState : Home.State :=
  {| Home.title := []; Home.manualPrompt := [];
     Home.contentType := js "discussion"; Home.stylePreference := js "random";
     Home.models := Home.initialModels baseId;
     Home.isLoading := false; Home.error := []; Home.crashed := None |}.

End Form.

(** An answer of the generate endpoint as a page parses it. *)
Definition parsedMetadata (m : Metadata.t) : Pages.ArticleMetadata.t :=
  {| Pages.ArticleMetadata.title := Some (Metadata.title m);
     Pages.ArticleMetadata.models := Some (Metadata.models m);
     Pages.ArticleMetadata.searchData := None;
     Pages.ArticleMetadata.contentType := Some (Metadata.contentType m);
     Pages.ArticleMetadata.stylePreference := Some (Metadata.stylePreference m);
     Pages.ArticleMetadata.generatedAt := Some (Metadata.generatedAt m);
     Pages.ArticleMetadata.question := None;
     Pages.ArticleMetadata.products := None |}.

Definition parsed (p : Payload) : Pages.GenerateReply.t :=
  match p with
  | ErrorPayload e =>
      {| Pages.GenerateReply.error := Some e;
         Pages.GenerateReply.article := None;
         Pages.GenerateReply.metadata := None |}
  | ArticlePayload article metadata =>
      {| Pages.GenerateReply.error := None;
         Pages.GenerateReply.article := Some article;
         Pages.GenerateReply.metadata := Some (parsedMetadata metadata) |}
  end.

(** An answer a page accepts: it is [ok], its text is not empty and parses
    to [data], a value that is not [null]. *)
Definition accepted {D} (answer : JsResult (FetchResponse (option D))) (data : D)
  : Prop :=
  exists response t,
    answer = Returned response /\ ok response = true
    /\ text response = Returned t /\ t <> []
    /\ json response = Returned (Some data).

(** An answer whose text a page parses to [null]: it is [ok] and its text
    is not empty. *)
Definition answersNull {D} (answer : JsResult (FetchResponse (option D))) : Prop :=
  exists response t,
    answer = Returned response /\ ok response = true
    /\ text response = Returned t /\ t <> []
    /\ json response = Returned None.

(** What searching again finds for a model: the results of an [ok] answer
    whose body parses to a value that is not [null], and nothing otherwise. *)
Definition foundAgain
    (searchApi : Search.SearchRequestBody
                 -> JsResult (FetchResponse (option Pages.SearchReply.t)))
    (model : jsstring) : list Pages.SearchResultItem :=
  match searchApi {| Search.model := Some model |} with
  | Returned response =>
      if ok response
      then match json response with
           | Returned (Some searchResult) =>
               default [] (Pages.SearchReply.results searchResult)
           | _ => []
           end
      else []
  | Threw _ => []
  end.

(** The pieces of the log of [handleRegenerate]: the request of the loop for
    one model, what the handler does first, and what its [catch] and
    [finally] clauses add to the outcome of the [try] block. *)
Definition searchFor (model : jsstring) : ResultPage.Effect :=
  ResultPage.fetch (Pages.postSearch {| Search.model := Some model |}).

Definition regenerateStart : list ResultPage.Effect :=
  [ResultPage.setIsRegenerating true; ResultPage.setRegenerateError []].

Definition regenerateEnd (r : JsResult unit * list ResultPage.Effect)
  : JsResult unit * list ResultPage.Effect :=
  match r with
  | (Returned _, log) => (Returned tt, log ++ [ResultPage.setIsRegenerating false])
  | (Threw e, log) =>
      (Returned tt,
       log ++ [ResultPage.setRegenerateError
                 (Pages.messageOr e (js "重新生成失败，请重试"));
               ResultPage.setIsRegenerating false])
  end.

(** Effects that leave the article and its metadata alone and reach at
    most the search endpoint. *)
Definition quiet (e : ResultPage.Effect) : Prop :=
  match e with
  | ResultPage.setIsRegenerating _ | ResultPage.setRegenerateError _
  | ResultPage.fetch (Pages.postSearch _) => True
  | _ => False
  end.

(** The article, its edited copy, the editing flag and the metadata are the
    same in both states. *)
Definition sameArticle (a b : ResultPage.State) : Prop :=
  ResultPage.article a = ResultPage.article b
  /\ ResultPage.editedContent a = ResultPage.editedContent b
  /\ ResultPage.isEditing a = ResultPage.isEditing b
  /\ ResultPage.metadata a = ResultPage.metadata b.

(** A result of the search endpoint as a page receives it, and an answer
    of the search endpoint as a page parses it. *)
Definition received (item : Search.SearchResultItem) : Pages.SearchResultItem :=
  {| SearchResultItem.title := Search.title item;
     SearchResultItem.snippet := Search.snippet item;
     SearchResultItem.link := Some (Search.link item);
     SearchResultItem.source := Some (Search.source item) |}.

Definition parsedSearch (p : Search.Payload) : Pages.SearchReply.t :=
  match p with
  | Search.ErrorPayload e =>
      {| Pages.SearchReply.error := Some e; Pages.SearchReply.results := None |}
  | Search.ResultsPayload _ results =>
      {| Pages.SearchReply.error := None;
         Pages.SearchReply.results := Some (map received results) |}
  end.

(** [response] is the answer [r] of a handler as a page receives it: its
    status, a text that is not empty, and its body parsed. *)
Definition delivered {B D} (parse : B -> D) (r : HttpResponse B)
    (response : FetchResponse (option D)) : Prop :=
  status response = responseStatus r
  /\ (exists t, text response = Returned t /\ t <> [])
  /\ json response = Returned (Some (parse (responseBody r))).

(** The handlers of the form other than [removeModel]. *)
Definition keepsEntries (a : Action) : Prop :=
  match a with
  | removeModel _ => False
  | _ => True
  end.

(** [`${baseId}-${k}`] *)
Definition entryId (baseId : jsstring) (k : nat) : jsstring :=
  baseId ++ js "-" ++ toString (N.of_nat k).

(** ** Concrete inputs *)

Module Examples.

(** A prompt directory in which only [discussion.md] can be read. *)
Definition onlyDiscussion (path : jsstring) : JsResult jsstring :=
  if decide (path = js "/app/prompts/discussion.md")
  then Returned (js "  像普通网友一样回答。 ")
  else Threw (ThrownError (js "Error") (js "ENOENT: no such file or directory")).

(** A provider that answers every query with eleven complete results. *)
Definition rawHit : Search.Raw.t :=
  {| Search.Raw.title := Some (js "AirPods 4 review");
     Search.Raw.snippet := Some (js "Lighter case, better fit.");
     Search.Raw.url := Some (js "https://example.com/airpods-4") |}.

Definition elevenHits : jsstring -> JsResult (FetchResponse Search.SerpData) :=
  fun _ =>
    Returned {| status := 200;
                statusText := js "OK";
                text := Returned [];
                json := Returned {| Search.error := None;
                                    Search.organic_results := Some (replicate 11 rawHit) |} |}.

(** The number of results in an answer of the search endpoint. *)
Definition resultCount (answer : JsResult (HttpResponse Search.Payload)) : nat :=
  match answer with
  | Returned {| responseBody := Search.ResultsPayload _ results |} => length results
  | _ => 0
  end.

(** What [request.json()] throws on the body [API Access Key], which is
    not JSON: the engine's message quotes the text it could not parse. *)
Definition notJson : JsThrown :=
  ThrownError (js "SyntaxError")
    (js "Unexpected token 'A', " ++ quoted (js "API Access Key")
     ++ js " is not valid JSON").

(** A provider that is never reached. *)
Definition offline : jsstring -> JsResult (FetchResponse Search.SerpData) :=
  fun _ => Threw (ThrownError (js "TypeError") (js "fetch failed")).

(** No environment variable is set. *)
Definition noEnv : jsstring -> option jsstring := fun _ => None.

(** Only [AI_API_KEY] is set. *)
Definition keyOnly : jsstring -> option jsstring :=
  fun name => if decide (name = js "AI_API_KEY") then Some (js "sk-test") else None.

(** A completion endpoint that never answers. *)
Definition silent : FetchCall -> Settlement :=
  fun _ => {| settledAfter := None; outcome := Threw ThrownOther |}.

(** A completion endpoint that answers after two seconds with one choice. *)
Definition answering : FetchCall -> Settlement :=
  fun _ =>
    {| settledAfter := Some 2000;
       outcome :=
         Returned
           {| status := 200;
              statusText := js "OK";
              text := Returned [];
              json :=
                Returned
                  {| choices :=
                       Some [ {| message := Some {| content := Some (js "先说结论。") |} |} ]
                  |} |} |}.

(** Completion endpoints that fail: unreachable, overloaded, and answering
    with no choice. *)
Definition unreachable : FetchCall -> Settlement :=
  fun _ =>
    {| settledAfter := Some 30;
       outcome := Threw (ThrownError (js "TypeError") (js "fetch failed")) |}.

Definition overloaded : FetchCall -> Settlement :=
  fun _ =>
    {| settledAfter := Some 800;
       outcome :=
         Returned {| status := 503;
                     statusText := js "Service Unavailable";
                     text := Returned (js "upstream overloaded");
                     json := Threw (ThrownError (js "SyntaxError") (js "not JSON")) |} |}.

Definition speechless : FetchCall -> Settlement :=
  fun _ =>
    {| settledAfter := Some 800;
       outcome :=
         Returned {| status := 200;
                     statusText := js "OK";
                     text := Returned [];
                     json := Returned {| choices := Some [] |} |} |}.

Definition timestamp : jsstring := js "2025-01-01T00:00:00.000Z".

(** A request with a title only, one with a blank title, and one whose
    models are all white space. *)
Definition titleOnly : GenerateRequest.t :=
  {| GenerateRequest.title := Some (js " X ");
     GenerateRequest.models := None;
     GenerateRequest.searchData := None;
     GenerateRequest.manualPrompt := None;
     GenerateRequest.contentType := None;
     GenerateRequest.stylePreference := None |}.

Definition blankTitle : GenerateRequest.t :=
  {| GenerateRequest.title := Some (js "   ");
     GenerateRequest.models := None;
     GenerateRequest.searchData := None;
     GenerateRequest.manualPrompt := None;
     GenerateRequest.contentType := None;
     GenerateRequest.stylePreference := None |}.

Definition blankModels : GenerateRequest.t :=
  {| GenerateRequest.title := Some (js "X");
     GenerateRequest.models := Some [js "  "; js ""; [9; 12288]];
     GenerateRequest.searchData := None;
     GenerateRequest.manualPrompt := None;
     GenerateRequest.contentType := None;
     GenerateRequest.stylePreference := None |}.

(** Five names, padded, two of them blank. *)
Definition fiveModels : GenerateRequest.t :=
  {| GenerateRequest.title := Some (js "X");
     GenerateRequest.models :=
       Some [js " A "; js "  "; js "B"; js ""; js "C "; js "D"; js "E"];
     GenerateRequest.searchData := Some {[ js "A" := [] ]};
     GenerateRequest.manualPrompt := None;
     GenerateRequest.contentType := None;
     GenerateRequest.stylePreference := None |}.

(** The models echoed by an answer of the generate endpoint. *)
Definition echoedModels (answer : JsResult (HttpResponse Payload))
  : option (list jsstring) :=
  match answer with
  | Returned {| responseBody := ArticlePayload _ metadata |} =>
      Some (Metadata.models metadata)
  | _ => None
  end.

(** A product with five snippets. *)
Definition snip (t sn : string) : SearchResultItem.t :=
  {| SearchResultItem.title := js t;
     SearchResultItem.snippet := js sn;
     SearchResultItem.link := None;
     SearchResultItem.source := Some (js "serpstack") |}.

Definition fiveSnippets : gmap jsstring (list SearchResultItem.t) :=
  {[ js "A" := [snip "t1" "s1"; snip "t2" "s2"; snip "t3" "s3";
                snip "t4" "s4"; snip "t5" "s5"] ]}.

(** What reading the body [{"models":[1]}] throws: its entry has no
    [trim]. *)
Definition notAString : JsThrown :=
  ThrownError (js "TypeError") (js "m.trim is not a function").

(** What reading the body [null] throws. *)
Definition nullBody : JsThrown :=
  ThrownError (js "TypeError")
    (js "Cannot read properties of null (reading 'title')").

(** A request for a product named like a method of every object, with
    search data for another product only. *)
Definition inheritedName : GenerateRequest.t :=
  {| GenerateRequest.title := Some (js "t");
     GenerateRequest.models := Some [js "constructor"];
     GenerateRequest.searchData := Some {[ js "A" := [] ]};
     GenerateRequest.manualPrompt := None;
     GenerateRequest.contentType := None;
     GenerateRequest.stylePreference := None |}.

(** A completion endpoint whose connection is reset. *)
Definition resetting : FetchCall -> Settlement :=
  fun _ =>
    {| settledAfter := Some 10;
       outcome := Threw (ThrownError (js "Error") (js "socket hang up")) |}.

(** Both keys and an endpoint are set. *)
Definition fullEnv : jsstring -> option jsstring :=
  fun name =>
    if decide (name = js "AI_API_KEY") then Some (js "sk-own")
    else if decide (name = js "OPENAI_API_KEY") then Some (js "sk-openai")
    else if decide (name = js "AI_API_URL") then Some (js "https://llm.example/v1/chat")
    else None.

(** A request with one product and five snippets for it. *)
Definition oneProduct : GenerateRequest.t :=
  {| GenerateRequest.title := Some (js " 吹风机怎么选 ");
     GenerateRequest.models := Some [js " A "];
     GenerateRequest.searchData := Some fiveSnippets;
     GenerateRequest.manualPrompt := None;
     GenerateRequest.contentType := Some (js "appliance");
     GenerateRequest.stylePreference := Some (js "rational") |}.

(** Two frameworks of a rules text. *)
Definition twoFrameworks : list Framework.t :=
  [ {| Framework.title := js "总分总";
       Framework.content := js "先给结论" ++ nl ++ js "再展开" |};
    {| Framework.title := js "故事线"; Framework.content := [] |} ].


(** A provider whose results all lack a snippet. *)
Definition bareHit : Search.Raw.t :=
  {| Search.Raw.title := Some (js "AirPods 4");
     Search.Raw.snippet := None;
     Search.Raw.url := Some (js "https://example.com/airpods-4") |}.

Definition bareAnswer : FetchResponse Search.SerpData :=
  {| status := 200;
     statusText := js "OK";
     text := Returned [];
     json := Returned {| Search.error := None;
                         Search.organic_results := Some [bareHit; bareHit] |} |}.

Definition bareHits : jsstring -> JsResult (FetchResponse Search.SerpData) :=
  fun _ => Returned bareAnswer.

(** The form with a title, a manual prompt and no model; and with one model
    that has a search result. *)
Definition plainForm : Home.State :=
  {| Home.title := js " 为什么要读书 ";
     Home.manualPrompt := js " 口语一点 ";
     Home.contentType := js "discussion";
     Home.stylePreference := js "random";
     Home.models := Home.initialModels (js ":r0:");
     Home.isLoading := false;
     Home.error := [];
     Home.crashed := None |}.

Definition productForm : Home.State :=
  {| Home.title := js " 吹风机怎么选 ";
     Home.manualPrompt := [];
     Home.contentType := js "appliance";
     Home.stylePreference := js "rational";
     Home.models :=
       [ {| Home.ModelEntry.id := js ":r0:-0";
            Home.ModelEntry.name := js " A ";
            Home.ModelEntry.results := [snip "t1" "s1"];
            Home.ModelEntry.isLoading := false;
            Home.ModelEntry.error := None |};
         Home.blank (js ":r0:-1") ];
     Home.isLoading := false;
     Home.error := [];
     Home.crashed := None |}.

(** The metadata of the answers to these two forms. *)
Definition plainMetadata : Metadata.t :=
  {| Metadata.title := js "为什么要读书";
     Metadata.models := [];
     Metadata.contentType := js "discussion";
     Metadata.stylePreference := js "random";
     Metadata.generatedAt := timestamp |}.

Definition productMetadata : Metadata.t :=
  {| Metadata.title := js "吹风机怎么选";
     Metadata.models := [js "A"];
     Metadata.contentType := js "appliance";
     Metadata.stylePreference := js "rational";
     Metadata.generatedAt := timestamp |}.

(** The endpoints as a page may see them: out of reach; and answering, the
    search endpoint with one result for the model [A] and 502 otherwise, the
    generate endpoint with an article. *)
Definition noSearchApi
  : Search.SearchRequestBody
    -> JsResult (FetchResponse (option Pages.SearchReply.t)) :=
  fun _ => Threw (ThrownError (js "TypeError") (js "Failed to fetch")).

Definition noGenerateApi
  : GenerateRequest.t -> JsResult (FetchResponse (option Pages.GenerateReply.t)) :=
  fun _ => Threw (ThrownError (js "TypeError") (js "Failed to fetch")).

Definition searchApi
  : Search.SearchRequestBody
    -> JsResult (FetchResponse (option Pages.SearchReply.t)) :=
  fun body =>
    if decide (Search.model body = Some (js "A"))
    then Returned
           {| status := 200; statusText := js "OK";
              text := Returned (js "{...}");
              json := Returned (Some {| Pages.SearchReply.error := None;
                                        Pages.SearchReply.results :=
                                          Some [snip "t1" "s1"] |}) |}
    else Returned
           {| status := 502; statusText := js "Bad Gateway";
              text := Returned (js "{...}");
              json := Returned (Some {| Pages.SearchReply.error :=
                                          Some (js "未能获取搜索结果，请稍后再试");
                                        Pages.SearchReply.results := None |}) |}.

Definition generated : FetchResponse (option Pages.GenerateReply.t) :=
  {| status := 200; statusText := js "OK";
     text := Returned (js "{...}");
     json := Returned (Some (parsed (ArticlePayload (js "先说结论。")
                                       productMetadata))) |}.

Definition generateApi
  : GenerateRequest.t -> JsResult (FetchResponse (option Pages.GenerateReply.t)) :=
  fun _ => Returned generated.

(** The answer of the search handler to the request of the form for [A]
    when the provider is [elevenHits], and that answer as the page receives
    it. *)
Definition elevenAnswer : HttpResponse Search.Payload :=
  Response_json
    (Search.ResultsPayload (js "A") (replicate 11 (Search.normalize rawHit))) 200.

Definition elevenReceived : FetchResponse (option Pages.SearchReply.t) :=
  {| status := 200; statusText := js "OK";
     text := Returned (js "{...}");
     json := Returned (Some (parsedSearch (responseBody elevenAnswer))) |}.

Definition elevenApi
  : Search.SearchRequestBody
    -> JsResult (FetchResponse (option Pages.SearchReply.t)) :=
  fun _ => Returned elevenReceived.

(** A search endpoint that answers 200 with the text "null". *)
Definition nullApi
  : Search.SearchRequestBody
    -> JsResult (FetchResponse (option Pages.SearchReply.t)) :=
  fun _ =>
    Returned {| status := 200; statusText := js "OK";
                text := Returned (js "null"); json := Returned None |}.

(** The message of V8 for a property read on [null]. *)
Definition nullRead (property : jsstring) : jsstring :=
  js "Cannot read properties of null (reading '" ++ property ++ js "')".

(** A session storage with room, and one that is full. *)
Definition storing : jsstring -> Pages.GenerateReply.t -> JsResult unit :=
  fun _ _ => Returned tt.

Definition full : jsstring -> Pages.GenerateReply.t -> JsResult unit :=
  fun _ _ => Threw (ThrownError (js "QuotaExceededError")
                      (js "The quota has been exceeded.")).

(** A result page showing an article. *)
Definition shown : ResultPage.State :=
  {| ResultPage.article := js "旧文章";
     ResultPage.metadata := Some (parsedMetadata productMetadata);
     ResultPage.isEditing := true;
     ResultPage.editedContent := js "旧文章（改）";
     ResultPage.isRegenerating := false;
     ResultPage.regenerateError := [] |}.

End Examples.

(** * Properties *)

(** ** The embedding on concrete values *)

Example js_code_units : js "a、：" = [97; 12289; 65306].
Proof. reflexivity. Qed.

Example trim_strips_both_ends :
  trim ([12288; 32] ++ js "戴森 V12" ++ [9; 10; 160]) = js "戴森 V12".
Proof. reflexivity. Qed.

Example toString_status : toString 503 = js "503" /\ toString 0 = js "0".
Proof. split; reflexivity. Qed.

Example encodeURIComponent_query :
  Search.encodeURIComponent (js "戴森 V12 吹风机/a&b")
  = Returned (js "%E6%88%B4%E6%A3%AE%20V12%20%E5%90%B9%E9%A3%8E%E6%9C%BA%2Fa%26b").
Proof. vm_compute. reflexivity. Qed.

Example encodeURIComponent_lone_surrogate :
  Search.encodeURIComponent [55357]
  = Threw (ThrownError (js "URIError") (js "URI malformed")).
Proof. vm_compute. reflexivity. Qed.

Example formatSearchData_five_snippets :
  formatSearchData [js "A"; js "B"] Examples.fiveSnippets
  = Returned
      (lines [js "A："; js "- t1：s1"; js "- t2：s2"; js "- t3：s3"; js "- t4：s4";
              js ""; js "B：暂无摘要"]).
Proof. vm_compute. reflexivity. Qed.

Example formatSearchData_inherited_names :
  formatSearchData [js "toString"; js "__proto__"; js "A"] Examples.fiveSnippets
  = Returned
      (lines [js "toString：暂无摘要"; js ""; js "__proto__：暂无摘要"; js "";
              js "A："; js "- t1：s1"; js "- t2：s2"; js "- t3：s3"; js "- t4：s4"])
  /\ formatSearchData [js "A"; js "hasOwnProperty"; js "B"] Examples.fiveSnippets
     = Threw (ThrownError (js "TypeError") (js "items.slice is not a function"))
  /\ formatSearchData [js "constructor"] {[ js "constructor" := [] ]}
     = Returned (js "constructor：暂无摘要").
Proof. repeat split; vm_compute; reflexivity. Qed.

Example methodsWithParameters_names :
  methodsWithParameters
  = [js "constructor"; js "hasOwnProperty"; js "isPrototypeOf";
     js "propertyIsEnumerable"; js "__defineGetter__"; js "__defineSetter__";
     js "__lookupGetter__"; js "__lookupSetter__"].
Proof. reflexivity. Qed.

Example generate_unreachable :
  fst (Generate.handle Examples.onlyDiscussion (js "/app") Examples.keyOnly
         Examples.timestamp Examples.unreachable (Returned Examples.titleOnly))
  = Returned
      (Response_json
         (ErrorPayload
            (js "无法连接到 API 服务器 (https://api.openai.com/v1/chat/completions)，请检查网络连接或 API 地址配置"))
         500).
Proof. vm_compute. reflexivity. Qed.

Example generate_overloaded :
  fst (Generate.handle Examples.onlyDiscussion (js "/app") Examples.keyOnly
         Examples.timestamp Examples.overloaded (Returned Examples.titleOnly))
  = Returned
      (Response_json (ErrorPayload (js "API 调用失败 (503): upstream overloaded")) 500).
Proof. vm_compute. reflexivity. Qed.

Example generate_speechless :
  fst (Generate.handle Examples.onlyDiscussion (js "/app") Examples.keyOnly
         Examples.timestamp Examples.speechless (Returned Examples.titleOnly))
  = Returned (Response_json (ErrorPayload (js "生成内容为空")) 500).
Proof. vm_compute. reflexivity. Qed.

Example generate_not_configured :
  Generate.handle Examples.onlyDiscussion (js "/app") Examples.noEnv
    Examples.timestamp Examples.answering (Returned Examples.titleOnly)
  = (Returned (Response_json (ErrorPayload (js "AI_API_KEY 未配置")) 500), []).
Proof. vm_compute. reflexivity. Qed.

Example generate_title_only_answer :
  Generate.handle Examples.onlyDiscussion (js "/app") Examples.keyOnly
    Examples.timestamp Examples.answering (Returned Examples.titleOnly)
  = (Returned
       (Response_json
          (ArticlePayload (js "先说结论。")
             {| Metadata.title := js "X";
                Metadata.models := [];
                Metadata.contentType := js "discussion";
                Metadata.stylePreference := js "random";
                Metadata.generatedAt := Examples.timestamp |}) 200),
     [completionCall Examples.onlyDiscussion (js "/app") Examples.keyOnly
        Examples.titleOnly]).
Proof. vm_compute. reflexivity. Qed.

(** ** Strings *)

Section StringFacts.

Implicit Types s t pat : jsstring.

Lemma startsWith_spec s pat :
  startsWith s pat = true <-> exists post, s = pat ++ post.
Proof.
  revert s. induction pat as [|p pat IH]; intros s; simpl.
  - split; [intros _; now exists s | reflexivity].
  - destruct s as [|c s]; simpl.
    + split; [discriminate | intros [post H]; discriminate].
    + rewrite andb_true_iff, N.eqb_eq, IH. split.
      * intros [-> [post ->]]. now exists post.
      * intros [post H]. injection H as -> ->. split; [reflexivity | now exists post].
Qed.

Lemma includes_spec s pat : includes s pat = true <-> contains s pat.
Proof.
  unfold contains. induction s as [|c s IH]; simpl.
  - rewrite orb_false_r, startsWith_spec. split.
    + intros [post H]. now exists [], post.
    + intros [pre [post H]]. destruct pre; [now exists post | discriminate].
  - rewrite orb_true_iff, IH, startsWith_spec. split.
    + intros [[post H] | [pre [post H]]].
      * now exists [], post.
      * exists (c :: pre), post. simpl. now rewrite H.
    + intros [pre [post H]]. destruct pre as [|c' pre]; simpl in H.
      * left. now exists post.
      * right. injection H as _ ->. now exists pre, post.
Qed.

Lemma includes_false s pat : includes s pat = false <-> ~ contains s pat.
Proof.
  rewrite <- includes_spec. destruct (includes s pat); split; intros H;
    congruence.
Qed.

Lemma contains_refl s : contains s s.
Proof. exists [], []. now rewrite app_nil_r. Qed.

Lemma contains_trans s t pat : contains s t -> contains t pat -> contains s pat.
Proof.
  intros [a [b ->]] [c [d ->]]. exists (a ++ c), (d ++ b).
  now rewrite <- !app_assoc.
Qed.

Lemma contains_app_l s t pat : contains s pat -> contains (s ++ t) pat.
Proof. intros [a [b ->]]. exists a, (b ++ t). now rewrite <- !app_assoc. Qed.

Lemma contains_app_r s t pat : contains t pat -> contains (s ++ t) pat.
Proof. intros [a [b ->]]. exists (s ++ a), b. now rewrite <- !app_assoc. Qed.

Lemma contains_join sep (a : list jsstring) x :
  x ∈ a -> contains (join sep a) x.
Proof.
  induction a as [|y a IH]; intros Hx.
  - now apply elem_of_nil in Hx.
  - apply elem_of_cons in Hx. destruct a as [|z a].
    + destruct Hx as [-> | Hx]; [apply contains_refl | now apply elem_of_nil in Hx].
    + change (join sep (y :: z :: a)) with (y ++ sep ++ join sep (z :: a)).
      destruct Hx as [-> | Hx].
      * apply contains_app_l, contains_refl.
      * now apply contains_app_r, contains_app_r, IH.
Qed.

(** *** [trim] *)

Lemma trimStart_clean s : startsClean (trimStart s).
Proof.
  induction s as [|c s IH]; simpl; [exact I|].
  destruct (isWhiteSpace c) eqn:E; [exact IH | exact E].
Qed.

Lemma trimStart_id s : startsClean s -> trimStart s = s.
Proof. destruct s as [|c s]; simpl; [reflexivity | now intros ->]. Qed.

Lemma trimStart_snoc s c :
  isWhiteSpace c = false -> trimStart (s ++ [c]) = trimStart s ++ [c].
Proof.
  intros Hc. induction s as [|d s IH]; simpl.
  - now rewrite Hc.
  - destruct (isWhiteSpace d); [exact IH | reflexivity].
Qed.

Lemma trimEnd_cons c s :
  isWhiteSpace c = false -> trimEnd (c :: s) = c :: trimEnd s.
Proof.
  intros Hc. unfold trimEnd. simpl rev at 2.
  now rewrite trimStart_snoc, rev_app_distr.
Qed.

Lemma trimEnd_clean s : startsClean s -> startsClean (trimEnd s).
Proof.
  destruct s as [|c s]; simpl; intros H; [exact I|].
  now rewrite trimEnd_cons.
Qed.

Lemma trimEnd_idem s : trimEnd (trimEnd s) = trimEnd s.
Proof.
  unfold trimEnd. rewrite rev_involutive.
  now rewrite (trimStart_id _ (trimStart_clean _)).
Qed.

Lemma trim_idem s : trim (trim s) = trim s.
Proof.
  unfold trim.
  rewrite (trimStart_id (trimEnd (trimStart s))).
  - apply trimEnd_idem.
  - apply trimEnd_clean, trimStart_clean.
Qed.

Lemma truthy_true s : truthy s = true <-> s <> [].
Proof. destruct s; simpl; split; congruence. Qed.

Lemma truthy_false s : truthy s = false <-> s = [].
Proof. destruct s; simpl; split; congruence. Qed.

End StringFacts.

(** ** The prompt builder *)

Section PromptFacts.

Variables (title : jsstring) (models : list jsstring).
Variables (searchDigest writingStyle contentType : jsstring).

(** The product template holds the line that lists the products. *)
Lemma productPrompt_models_line :
  contains (buildPrompt title models searchDigest true writingStyle contentType)
    (js "- 可用来举例的商品有：" ++ join (js "、") models).
Proof.
  unfold buildPrompt, lines. apply contains_join.
  do 10 apply list_elem_of_further. apply list_elem_of_here.
Qed.

Lemma productPrompt_suitsLine :
  contains (buildPrompt title models searchDigest true writingStyle contentType)
    suitsLine.
Proof.
  unfold buildPrompt, lines. apply contains_join.
  do 13 apply list_elem_of_further. apply list_elem_of_here.
Qed.

Lemma productPrompt_fragrance_line :
  contains (buildPrompt title models searchDigest true writingStyle contentType)
    (fragranceGuidance contentType).
Proof.
  unfold buildPrompt, lines. apply contains_join.
  do 20 apply list_elem_of_further. apply list_elem_of_here.
Qed.

Lemma productPrompt_styleHint :
  contains (buildPrompt title models searchDigest true writingStyle contentType)
    (styleHint writingStyle).
Proof.
  unfold buildPrompt, lines. apply contains_join.
  do 27 apply list_elem_of_further. apply list_elem_of_here.
Qed.

Lemma plainPrompt_styleHint :
  contains (buildPrompt title models searchDigest false writingStyle contentType)
    (styleHint writingStyle).
Proof.
  unfold buildPrompt, lines.
  eapply contains_trans.
  - apply contains_join.
    do 28 apply list_elem_of_further. apply list_elem_of_here.
  - apply contains_app_r, contains_refl.
Qed.

End PromptFacts.

(** The text of the line that asks for both audiences. *)
Lemma suitsLine_text :
  suitsLine = js "- 每个被提到的商品，必须同时出现「适合谁」和「不适合谁」".
Proof. reflexivity. Qed.

(** C4. For every non-empty title and every non-empty list of at most three
    model names, the prompt built with [hasModels = true] contains every model
    name and contains the instruction that each mentioned product must say
    both whom it suits and whom it does not suit, the line
    "- 每个被提到的商品，必须同时出现「适合谁」和「不适合谁」". *)
Theorem C4_prompt_mentions_models
    (title : jsstring) (models : list jsstring)
    (searchDigest writingStyle contentType : jsstring) :
  title <> [] -> models <> [] -> (length models <= 3)%nat ->
  (forall m, m ∈ models ->
     includes (buildPrompt title models searchDigest true writingStyle contentType) m
     = true)
  /\ includes (buildPrompt title models searchDigest true writingStyle contentType)
       (js "- 每个被提到的商品，必须同时出现「适合谁」和「不适合谁」") = true.
Proof.
  intros _ _ _. split.
  - intros m Hm. apply includes_spec.
    eapply contains_trans; [apply productPrompt_models_line|].
    apply contains_app_r. now apply contains_join.
  - rewrite <- suitsLine_text. apply includes_spec. apply productPrompt_suitsLine.
Qed.

Lemma C4_prompt_mentions_models_witness :
  includes
    (buildPrompt (js "千元耳机怎么选") [js "AirPods 4"; js "WF-1000XM5"] []
       true (js "random") (js "appliance"))
    (js "WF-1000XM5") = true.
Proof.
  refine (proj1 (C4_prompt_mentions_models (js "千元耳机怎么选")
            [js "AirPods 4"; js "WF-1000XM5"] [] (js "random") (js "appliance")
            _ _ _) (js "WF-1000XM5") _).
  - discriminate.
  - discriminate.
  - simpl. lia.
  - apply list_elem_of_further, list_elem_of_here.
Defined.

(** ** The style hints *)

Lemma styleHint_other (s : jsstring) :
  s <> js "rational" -> s <> js "experience" -> styleHint s = [].
Proof.
  intros H1 H2. unfold styleHint.
  destruct (decide (s = js "rational")) as [E|_]; [contradiction|].
  destruct (decide (s = js "experience")) as [E|_]; [contradiction|].
  reflexivity.
Qed.

Lemma selectStyleHint_other (s : jsstring) :
  s <> js "rational" -> s <> js "experience" -> selectStyleHint s = [].
Proof.
  intros H1 H2. unfold selectStyleHint.
  destruct (decide (s = js "rational")) as [E|_]; [contradiction|].
  destruct (decide (s = js "experience")) as [E|_]; [contradiction|].
  reflexivity.
Qed.

(** The prompt depends on the style preference through its hint only. *)
Lemma buildPrompt_style_only title models digest hasModels contentType s s' :
  styleHint s = styleHint s' ->
  buildPrompt title models digest hasModels s contentType
  = buildPrompt title models digest hasModels s' contentType.
Proof. intros H. unfold buildPrompt. now rewrite H. Qed.

(** C6. The style hint is a function of the style preference alone:
    "rational" gives the decision-oriented sentence, "experience" the
    experience-oriented one, and "random" or any other value the empty string.
    This holds for the hint [buildPrompt] appends (in both templates, and the
    prompt depends on the preference through that hint only) and for
    [selectStyleHint]; the four sentences are non-empty. *)
Theorem C6_style_hint_by_preference :
  (styleHint (js "rational")
     = nl ++ js "写作倾向：偏理性，多给决策思路，少情绪化描述。"
   /\ styleHint (js "experience")
     = nl ++ js "写作倾向：偏体验，多讲真实感受和细节，允许不完全严谨。"
   /\ styleHint (js "random") = []
   /\ forall s, s <> js "rational" -> s <> js "experience" -> styleHint s = [])
  /\ (selectStyleHint (js "rational")
        = js "写作倾向：偏理性，多给决策思路，少感性描述。"
      /\ selectStyleHint (js "experience")
        = js "写作倾向：偏体验，多说真实感受、使用场景、情绪。"
      /\ selectStyleHint (js "random") = []
      /\ forall s, s <> js "rational" -> s <> js "experience" ->
           selectStyleHint s = [])
  /\ (styleHint (js "rational") <> [] /\ styleHint (js "experience") <> []
      /\ selectStyleHint (js "rational") <> []
      /\ selectStyleHint (js "experience") <> [])
  /\ (forall title models digest hasModels contentType s,
        includes (buildPrompt title models digest hasModels s contentType)
          (styleHint s) = true)
  /\ (forall title models digest hasModels contentType s s',
        styleHint s = styleHint s' ->
        buildPrompt title models digest hasModels s contentType
        = buildPrompt title models digest hasModels s' contentType).
Proof.
  split; [|split; [|split; [|split]]].
  - repeat split; try reflexivity. apply styleHint_other.
  - repeat split; try reflexivity. apply selectStyleHint_other.
  - repeat split; discriminate.
  - intros title models digest hasModels contentType s.
    apply includes_spec. destruct hasModels.
    + apply productPrompt_styleHint.
    + apply plainPrompt_styleHint.
  - apply buildPrompt_style_only.
Qed.

(** ** The search digest *)

Lemma join_cons sep x (a : list jsstring) :
  a <> [] -> join sep (x :: a) = x ++ sep ++ join sep a.
Proof. destruct a; [congruence | reflexivity]. Qed.

Lemma join_app sep (a b : list jsstring) :
  a <> [] -> b <> [] -> join sep (a ++ b) = join sep a ++ sep ++ join sep b.
Proof.
  intros Ha Hb. induction a as [|x a IH]; [congruence|].
  destruct a as [|y a].
  - simpl app. now rewrite join_cons.
  - rewrite <- app_comm_cons, !join_cons, IH by (try discriminate; now destruct a).
    now rewrite <- !app_assoc.
Qed.

Lemma take_nil_length {A} (n : nat) (l : list A) :
  take (S n) l = [] <-> length l = 0%nat.
Proof. destruct l; simpl; split; congruence. Qed.

(** *** [mapThrowing] *)

Lemma mapThrowing_returned {A B} (f : A -> JsResult B) (a : list A) (bs : list B) :
  mapThrowing f a = Returned bs <-> Forall2 (fun x y => f x = Returned y) a bs.
Proof.
  revert bs. induction a as [|x a IH]; intros bs; simpl.
  - split.
    + intros H. injection H as <-. constructor.
    + intros H. now inversion H.
  - destruct (f x) as [y|e] eqn:Ex.
    + destruct (mapThrowing f a) as [ys|e] eqn:Ea.
      * split.
        -- intros H. injection H as <-. constructor; [exact Ex | now apply IH].
        -- intros H. inversion H as [|x' y' a' bs' Hy Hbs]; subst.
           apply IH in Hbs. congruence.
      * split; [discriminate|].
        intros H. inversion H as [|x' y' a' bs' Hy Hbs]; subst.
        apply IH in Hbs. discriminate Hbs.
    + split; [discriminate|].
      intros H. inversion H as [|x' y' a' bs' Hy Hbs]; subst. congruence.
Qed.

Lemma Forall2_elem_l {A B} (P : A -> B -> Prop) (l : list A) (k : list B) (x : A) :
  Forall2 P l k -> x ∈ l -> exists y, y ∈ k /\ P x y.
Proof.
  induction 1 as [|x' y' l k Hxy _ IH]; intros Hin.
  - now apply elem_of_nil in Hin.
  - apply elem_of_cons in Hin as [-> | Hin].
    + exists y'. split; [apply list_elem_of_here | exact Hxy].
    + destruct (IH Hin) as (y & Hy & Hp). exists y.
      split; [now apply list_elem_of_further | exact Hp].
Qed.

(** The exception of the whole is that of a call that throws. *)
Lemma mapThrowing_threw {A B} (f : A -> JsResult B) (a : list A) (e : JsThrown) :
  mapThrowing f a = Threw e -> exists x, x ∈ a /\ f x = Threw e.
Proof.
  induction a as [|x a IH]; simpl; [discriminate|].
  destruct (f x) as [y|e'] eqn:Ex.
  - destruct (mapThrowing f a) as [ys|e'] eqn:Ea; [discriminate|].
    intros H. injection H as ->. destruct (IH eq_refl) as (x' & Hin & Hx).
    exists x'. split; [now apply list_elem_of_further | exact Hx].
  - intros H. injection H as ->. exists x. split; [apply list_elem_of_here | exact Ex].
Qed.

(** *** The block of one product *)

Lemma formatModel_own (sd : gmap jsstring (list SearchResultItem.t))
    (model : jsstring) (items : list SearchResultItem.t) :
  sd !! model = Some items ->
  formatModel sd model
  = Returned (if (length items =? 0)%nat then model ++ js "：暂无摘要"
              else model ++ js "：" ++ nl
                   ++ join nl (map formatItem (take 4 items))).
Proof.
  intros H. unfold formatModel, getProperty, slice0. rewrite H.
  now destruct (length items =? 0)%nat.
Qed.

Lemma formatModel_absent (sd : gmap jsstring (list SearchResultItem.t))
    (model : jsstring) :
  sd !! model = None ->
  formatModel sd model
  = if bool_decide (model ∈ methodsWithParameters) then Threw noSliceError
    else Returned (model ++ js "：暂无摘要").
Proof.
  intros H. unfold formatModel, getProperty. rewrite H.
  case_bool_decide as Hin; rewrite methodsWithParameters_names in Hin.
  - repeat (apply elem_of_cons in Hin as [-> | Hin]; [vm_compute; reflexivity|]).
    now apply elem_of_nil in Hin.
  - destruct (decide (model = js "__proto__")) as [-> | _]; [vm_compute; reflexivity|].
    unfold prototypeMethods. cbn [List.find fst snd].
    repeat match goal with
           | |- context [bool_decide (?n = model)] =>
               destruct (bool_decide_reflect (n = model)) as [E|E];
               [ first [ reflexivity
                       | exfalso; apply Hin; rewrite <- E;
                         repeat first [ apply list_elem_of_here
                                      | apply list_elem_of_further ] ]
               | clear E ]
           end.
    reflexivity.
Qed.

(** A block is returned, or the [TypeError] is thrown. *)
Lemma formatModel_cases (sd : gmap jsstring (list SearchResultItem.t))
    (model : jsstring) :
  (exists block, formatModel sd model = Returned block)
  \/ (formatModel sd model = Threw noSliceError
      /\ sd !! model = None /\ model ∈ methodsWithParameters).
Proof.
  destruct (sd !! model) as [items|] eqn:H.
  - left. rewrite (formatModel_own _ _ _ H). eexists. reflexivity.
  - rewrite (formatModel_absent _ _ H). case_bool_decide as E.
    + right. now repeat split.
    + left. eexists. reflexivity.
Qed.

(** The block of a product reads the first four of its items only. *)
Lemma formatModel_first_four
    (sd sd' : gmap jsstring (list SearchResultItem.t)) (model : jsstring) :
  option_map (take 4) (sd !! model) = option_map (take 4) (sd' !! model) ->
  formatModel sd model = formatModel sd' model.
Proof.
  intros H.
  destruct (sd !! model) as [items|] eqn:E1;
    destruct (sd' !! model) as [items'|] eqn:E2; simpl in H; try discriminate H.
  - rewrite (formatModel_own _ _ _ E1), (formatModel_own _ _ _ E2).
    injection H as H. rewrite H.
    destruct items, items'; try reflexivity; simpl in H; discriminate.
  - now rewrite (formatModel_absent _ _ E1), (formatModel_absent _ _ E2).
Qed.

(** *** The digest *)

Lemma formatSearchData_returned (models : list jsstring)
    (sd : gmap jsstring (list SearchResultItem.t)) (digest : jsstring) :
  formatSearchData models sd = Returned digest <->
  exists blocks,
    Forall2 (fun m block => formatModel sd m = Returned block) models blocks
    /\ digest = join (nl ++ nl) blocks.
Proof.
  unfold formatSearchData. split.
  - destruct (mapThrowing _ models) as [blocks|e] eqn:E; [|discriminate].
    intros H. injection H as <-. exists blocks.
    split; [now apply mapThrowing_returned | reflexivity].
  - intros (blocks & H & ->). apply mapThrowing_returned in H. now rewrite H.
Qed.

Lemma formatSearchData_threw (models : list jsstring)
    (sd : gmap jsstring (list SearchResultItem.t)) (e : JsThrown) :
  formatSearchData models sd = Threw e <->
  e = noSliceError
  /\ exists m, m ∈ models /\ sd !! m = None /\ m ∈ methodsWithParameters.
Proof.
  unfold formatSearchData. split.
  - destruct (mapThrowing _ models) as [blocks|e'] eqn:E; [discriminate|].
    intros H. injection H as ->.
    apply mapThrowing_threw in E as (m & Hm & Ht).
    destruct (formatModel_cases sd m) as [[block Hb] | (Ht' & Hn & Hin)];
      [congruence|].
    split; [congruence|]. now exists m.
  - intros (-> & m & Hm & Hn & Hin).
    destruct (mapThrowing (formatModel sd) models) as [blocks|e'] eqn:E.
    + apply mapThrowing_returned in E.
      destruct (Forall2_elem_l _ _ _ _ E Hm) as (block & _ & Hb).
      rewrite (formatModel_absent _ _ Hn), bool_decide_eq_true_2 in Hb by exact Hin.
      discriminate Hb.
    + apply mapThrowing_threw in E as (m' & _ & Hm').
      destruct (formatModel_cases sd m') as [[block Hb] | (Ht & _)]; congruence.
Qed.

(** The digest of a request can be formatted when every product either has
    a list of its own or is not named like a method with parameters. *)
Lemma formatSearchData_formats (models : list jsstring)
    (sd : gmap jsstring (list SearchResultItem.t)) :
  (forall m, m ∈ models -> sd !! m = None -> m ∉ methodsWithParameters) ->
  exists digest, formatSearchData models sd = Returned digest.
Proof.
  intros H. destruct (formatSearchData models sd) as [digest|e] eqn:E.
  - now exists digest.
  - apply formatSearchData_threw in E as (_ & m & Hm & Hn & Hin).
    now destruct (H m Hm Hn).
Qed.

(** X24. The search digest.  Where it is formatted, the digest lists the
    products in the order of [models], one block each, the blocks separated
    by an empty line.  A product whose snippet list is empty is rendered as
    its name followed by the fixed "no summary" text, and so is a product
    without a list of its own, unless it is named like a method with
    parameters of every object.  A product with items has as its block its
    name and one line "- title：snippet" for each of its first four items at
    most, and items past the fourth do not change the digest.  Formatting
    throws, with the [TypeError] of a missing [slice], exactly when a
    product without a list of its own has one of those eight names. *)
Theorem formatSearchData_digest
    (searchData : gmap jsstring (list SearchResultItem.t)) :
  let named :=
    [js "constructor"; js "hasOwnProperty"; js "isPrototypeOf";
     js "propertyIsEnumerable"; js "__defineGetter__"; js "__defineSetter__";
     js "__lookupGetter__"; js "__lookupSetter__"] in
  (forall models digest,
     formatSearchData models searchData = Returned digest <->
     exists blocks,
       Forall2 (fun m block => formatModel searchData m = Returned block)
         models blocks
       /\ digest = join (nl ++ nl) blocks)
  /\ (forall models e,
        formatSearchData models searchData = Threw e <->
        e = ThrownError (js "TypeError") (js "items.slice is not a function")
        /\ exists m, m ∈ models /\ searchData !! m = None /\ m ∈ named)
  /\ (forall model,
        searchData !! model = Some []
        \/ (searchData !! model = None /\ model ∉ named) ->
        formatModel searchData model = Returned (model ++ js "：暂无摘要"))
  /\ (forall model items,
        searchData !! model = Some items -> items <> [] ->
        (length (take 4 items) <= 4)%nat
        /\ formatModel searchData model
           = Returned
               (model ++ js "：" ++ nl
                ++ join nl
                     (map (fun i => js "- " ++ SearchResultItem.title i ++ js "："
                                    ++ SearchResultItem.snippet i)
                        (take 4 items))))
  /\ (forall models searchData',
        (forall m, m ∈ models ->
           option_map (take 4) (searchData !! m)
           = option_map (take 4) (searchData' !! m)) ->
        formatSearchData models searchData
        = formatSearchData models searchData').
Proof.
  cbv zeta. rewrite <- methodsWithParameters_names.
  split; [intros models digest; apply formatSearchData_returned|].
  split; [intros models e; apply formatSearchData_threw|].
  split; [|split].
  - intros model [H | [H Hn]].
    + now rewrite (formatModel_own _ _ _ H).
    + now rewrite (formatModel_absent _ _ H), bool_decide_eq_false_2.
  - intros model items H Hne. split.
    + rewrite length_take. lia.
    + rewrite (formatModel_own _ _ _ H).
      destruct items as [|i items]; [congruence|]. reflexivity.
  - intros models sd' H. unfold formatSearchData.
    assert (E : mapThrowing (formatModel searchData) models
                = mapThrowing (formatModel sd') models).
    { induction models as [|m models IH]; [reflexivity|]. simpl.
      rewrite (formatModel_first_four searchData sd' m)
        by apply H, list_elem_of_here.
      rewrite IH; [reflexivity|].
      intros m' Hm'. apply H. now apply list_elem_of_further. }
    now rewrite E.
Qed.

(** C8.  The digest is written to render a product without a snippet list
    as the fixed "no summary" line: [searchData[model] || []] puts the empty
    list in its place.  It does so for every name but the eight of
    [methodsWithParameters].  Under a name such as "constructor", for which
    the search data has no key, the lookup finds the method that every
    object inherits; the method passes the length test and has no [slice].
    For the models ["constructor"] and search data for another product,
    [formatSearchData] throws instead of giving "constructor：暂无摘要", and
    the handler answers the request, which passed validation, with 500 and
    the message of the [TypeError], without calling the completion
    endpoint. *)
Theorem C8_digest_inherited_name :
  let searchData : gmap jsstring (list SearchResultItem.t) := {[ js "A" := [] ]} in
  searchData !! js "constructor" = None
  /\ formatSearchData [js "constructor"] searchData
     = Threw (ThrownError (js "TypeError") (js "items.slice is not a function"))
  /\ validated Examples.inheritedName = true
  /\ Generate.handle Examples.onlyDiscussion (js "/app") Examples.keyOnly
       Examples.timestamp Examples.answering (Returned Examples.inheritedName)
     = (Returned
          (Response_json (ErrorPayload (js "items.slice is not a function")) 500),
        []).
Proof. cbv zeta. repeat split; vm_compute; reflexivity. Qed.

(** ** The content guidance *)

Section ContentPrompt.

Variable readFileSync : jsstring -> JsResult jsstring.
Variable cwd : jsstring.







End ContentPrompt.



(** ** Search normalisation *)

Section Normalisation.

Import Search.

Lemma complete_fields (raw : Raw.t) :
  complete raw = true ->
  exists t s u,
    Raw.title raw = Some t /\ Raw.snippet raw = Some s /\ Raw.url raw = Some u
    /\ t <> [] /\ s <> [] /\ u <> [].
Proof.
  unfold complete. rewrite !andb_true_iff. intros [[Ht Hs] Hu].
  destruct (Raw.title raw) as [t|]; [|discriminate].
  destruct (Raw.snippet raw) as [sn|]; [|discriminate].
  destruct (Raw.url raw) as [u|]; [|discriminate].
  exists t, sn, u. simpl in *.
  repeat split; try reflexivity; now apply truthy_true.
Qed.

Lemma elem_of_normalized (item : SearchResultItem) (organic : list Raw.t) :
  item ∈ normalized organic <->
  exists raw, raw ∈ organic /\ complete raw = true /\ item = normalize raw.
Proof.
  unfold normalized. rewrite list_elem_of_In, in_map_iff. split.
  - intros [raw [<- H]]. apply filter_In in H as [H1 H2].
    exists raw. rewrite list_elem_of_In. auto.
  - intros [raw [H1 [H2 ->]]]. exists raw. split; [reflexivity|].
    apply filter_In. rewrite <- list_elem_of_In. auto.
Qed.

Lemma normalized_app (a b : list Raw.t) :
  normalized (a ++ b) = normalized a ++ normalized b.
Proof. unfold normalized. now rewrite List.filter_app, map_app. Qed.

Lemma normalized_sublist (organic : list Raw.t) :
  normalized organic `sublist_of` map normalize organic.
Proof.
  unfold normalized. induction organic as [|raw organic IH]; simpl.
  - constructor.
  - destruct (complete raw); simpl; now constructor.
Qed.

Lemma normalized_length (organic : list Raw.t) :
  (length (normalized organic) <= length organic)%nat.
Proof.
  unfold normalized. rewrite length_map.
  induction organic as [|raw organic IH]; simpl; [lia|].
  destruct (complete raw); simpl; lia.
Qed.

End Normalisation.

(** C7, as the code has it.  Normalisation keeps exactly the raw results
    whose title, snippet and link are all present and non-empty, so a result
    missing one of them is excluded; the retained results keep the order of
    the input.  The code asks the provider for ten results but applies no cap
    of its own: the output is never longer than the raw list, hence at most
    ten long when the provider returns at most ten. *)
Theorem C7_search_normalization (organic : list Search.Raw.t) :
  (forall item, item ∈ Search.normalized organic ->
     Search.title item <> [] /\ Search.snippet item <> []
     /\ Search.link item <> [] /\ Search.source item = js "serpstack"
     /\ exists raw, raw ∈ organic /\ item = Search.normalize raw
          /\ Search.Raw.title raw = Some (Search.title item)
          /\ Search.Raw.snippet raw = Some (Search.snippet item)
          /\ Search.Raw.url raw = Some (Search.link item))
  /\ (forall raw, raw ∈ organic ->
        (truthy_opt (Search.Raw.title raw) = false
         \/ truthy_opt (Search.Raw.snippet raw) = false
         \/ truthy_opt (Search.Raw.url raw) = false) ->
        Search.normalize raw ∉ Search.normalized organic)
  /\ (forall raw, raw ∈ organic -> Search.complete raw = true ->
        Search.normalize raw ∈ Search.normalized organic)
  /\ Search.normalized organic `sublist_of` map Search.normalize organic
  /\ (forall a b, Search.normalized (a ++ b)
                  = Search.normalized a ++ Search.normalized b)
  /\ (length (Search.normalized organic) <= length organic)%nat
  /\ (length organic <= Search.num ->
      length (Search.normalized organic) <= Search.num)%nat.
Proof.
  repeat apply conj.
  - intros item Hitem. apply elem_of_normalized in Hitem as [raw [Hin [Hc ->]]].
    destruct (complete_fields raw Hc) as [t [s [u [Ht [Hs [Hu [Nt [Ns Nu]]]]]]]].
    unfold Search.normalize. simpl. rewrite Ht, Hs, Hu. simpl.
    repeat split; try assumption.
    exists raw. repeat split; try assumption.
    now rewrite Ht, Hs, Hu.
  - intros raw _ Hmiss Hin.
    apply elem_of_normalized in Hin as [raw' [_ [Hc E]]].
    destruct (complete_fields raw' Hc) as [t [s [u [Ht [Hs [Hu [Nt [Ns Nu]]]]]]]].
    unfold Search.normalize in E. rewrite Ht, Hs, Hu in E. simpl in E.
    injection E as E1 E2 E3.
    destruct Hmiss as [H|[H|H]].
    + destruct (Search.Raw.title raw) as [[|]|]; simpl in *; congruence.
    + destruct (Search.Raw.snippet raw) as [[|]|]; simpl in *; congruence.
    + destruct (Search.Raw.url raw) as [[|]|]; simpl in *; congruence.
  - intros raw Hin Hc. apply elem_of_normalized. now exists raw.
  - apply normalized_sublist.
  - apply normalized_app.
  - apply normalized_length.
  - intros H. pose proof (normalized_length organic). lia.
Qed.

(** C7 as stated fails: eleven complete results from the provider give an
    answer with eleven results, one more than the ten asked for. *)
Lemma C7_cap_counterexample :
  Examples.resultCount
    (fst (Search.handle (Some (js "key")) Examples.elevenHits
            (Returned {| Search.model := Some (js "AirPods 4") |})))
  = 11%nat
  /\ Search.num = 10%nat.
Proof. split; vm_compute; reflexivity. Qed.

(** ** The search endpoint *)

Ltac run_effects :=
  unfold tryCatch, bind, await, ret, throw; cbv beta.

Section SearchEndpoint.

Import Search.

Variable SERPSTACK_API_KEY : option jsstring.
Variable network : jsstring -> JsResult (FetchResponse SerpData).

Let query := querySerpstack SERPSTACK_API_KEY network.
Let respond := Search.handle SERPSTACK_API_KEY network.
Let url := Search.url SERPSTACK_API_KEY.

(** Whatever the provider does, the search client returns. *)
Lemma querySerpstack_returns (model : jsstring) (log : list jsstring) :
  exists results, fst (query model log) = Returned results.
Proof.
  unfold query, querySerpstack, Search.fetch. run_effects.
  repeat case_match; simplify_eq; eauto.
Qed.

(** A model name that cannot be encoded gives no results, and no request. *)
Lemma querySerpstack_malformed (model : jsstring) (log : list jsstring) e :
  encodeURIComponent model = Threw e ->
  query model log = (Returned None, log).
Proof.
  intros H. unfold query, querySerpstack. run_effects. now rewrite H.
Qed.

Section Encoded.

Variables (model q : jsstring) (log : list jsstring).
Hypothesis encoded : encodeURIComponent model = Returned q.

Lemma querySerpstack_transport e :
  network (url q) = Threw e ->
  query model log = (Returned None, log ++ [url q]).
Proof.
  intros H. unfold query, querySerpstack, Search.fetch. run_effects.
  rewrite encoded. unfold url in H. now rewrite H.
Qed.

Lemma querySerpstack_not_ok res :
  network (url q) = Returned res -> ok res = false ->
  query model log = (Returned None, log ++ [url q]).
Proof.
  intros H Hok. unfold query, querySerpstack, Search.fetch. run_effects.
  rewrite encoded. unfold url in H. rewrite H, Hok. simpl.
  now destruct (text res).
Qed.

Lemma querySerpstack_unreadable res e :
  network (url q) = Returned res -> ok res = true -> json res = Threw e ->
  query model log = (Returned None, log ++ [url q]).
Proof.
  intros H Hok Hj. unfold query, querySerpstack, Search.fetch. run_effects.
  rewrite encoded. unfold url in H. now rewrite H, Hok, Hj.
Qed.

Lemma querySerpstack_error_field res data e :
  network (url q) = Returned res -> ok res = true ->
  json res = Returned data -> error data = Some e ->
  query model log = (Returned None, log ++ [url q]).
Proof.
  intros H Hok Hj He. unfold query, querySerpstack, Search.fetch. run_effects.
  rewrite encoded. unfold url in H. now rewrite H, Hok, Hj, He.
Qed.

Lemma querySerpstack_no_results res data :
  network (url q) = Returned res -> ok res = true ->
  json res = Returned data -> error data = None ->
  organic_results data = None \/ organic_results data = Some [] ->
  query model log = (Returned None, log ++ [url q]).
Proof.
  intros H Hok Hj He Ho. unfold query, querySerpstack, Search.fetch. run_effects.
  rewrite encoded. unfold url in H. rewrite H, Hok, Hj, He.
  now destruct Ho as [-> | ->].
Qed.

Lemma querySerpstack_results res data organic :
  network (url q) = Returned res -> ok res = true ->
  json res = Returned data -> error data = None ->
  organic_results data = Some organic -> organic <> [] ->
  query model log = (Returned (Some (normalized organic)), log ++ [url q]).
Proof.
  intros H Hok Hj He Ho Hne. unfold query, querySerpstack, Search.fetch.
  run_effects. rewrite encoded. unfold url in H. rewrite H, Hok, Hj, He, Ho.
  simpl. now destruct organic.
Qed.

End Encoded.

(** The handler on a request whose body was read. *)

Lemma search_empty_model (body : SearchRequestBody) :
  truthy_opt (requestedModel body) = false ->
  respond (Returned body)
  = (Returned (Response_json (ErrorPayload (js "型号不能为空")) 400), []).
Proof.
  intros H. unfold respond, Search.handle, Search.POST. run_effects.
  fold (requestedModel body). now rewrite H.
Qed.

Lemma search_no_credential (body : SearchRequestBody) :
  truthy_opt (requestedModel body) = true ->
  truthy_opt SERPSTACK_API_KEY = false ->
  respond (Returned body)
  = (Returned (Response_json (ErrorPayload (js "SERPSTACK_API_KEY 未配置")) 500), []).
Proof.
  intros H Hk. unfold respond, Search.handle, Search.POST. run_effects.
  fold (requestedModel body). now rewrite H, Hk.
Qed.

Lemma search_no_results (body : SearchRequestBody) :
  truthy_opt (requestedModel body) = true ->
  truthy_opt SERPSTACK_API_KEY = true ->
  (fst (query (default [] (requestedModel body)) []) = Returned None
   \/ fst (query (default [] (requestedModel body)) []) = Returned (Some [])) ->
  fst (respond (Returned body))
  = Returned (Response_json (ErrorPayload (js "未能获取搜索结果，请稍后再试")) 502).
Proof.
  intros H Hk Hq. unfold respond, Search.handle, Search.POST. run_effects.
  fold (requestedModel body). rewrite H, Hk. cbn [negb]. cbv beta iota.
  fold query.
  destruct (query (default [] (requestedModel body)) []) as [r log'].
  simpl in Hq. destruct Hq as [-> | ->]; reflexivity.
Qed.

Lemma search_results (body : SearchRequestBody) results :
  truthy_opt (requestedModel body) = true ->
  truthy_opt SERPSTACK_API_KEY = true ->
  fst (query (default [] (requestedModel body)) []) = Returned (Some results) ->
  results <> [] ->
  fst (respond (Returned body))
  = Returned (Response_json
                (ResultsPayload (default [] (requestedModel body)) results) 200).
Proof.
  intros H Hk Hq Hne. unfold respond, Search.handle, Search.POST. run_effects.
  fold (requestedModel body). rewrite H, Hk. cbn [negb]. cbv beta iota.
  fold query.
  destruct (query (default [] (requestedModel body)) []) as [r log'].
  simpl in Hq. subst r. destruct results; [congruence | reflexivity].
Qed.

(** The handler on a request whose body could not be read. *)
Lemma search_unreadable_body (e : JsThrown) :
  let message :=
    match e with ThrownError _ m => m | ThrownOther => js "搜索失败" end in
  respond (Threw e)
  = (Returned
       (Response_json (ErrorPayload message)
          (if includes message (js "invalid_access_key")
              || includes message (js "API Access Key")
           then 401 else 500)), []).
Proof. reflexivity. Qed.

End SearchEndpoint.

(** C3, as the code has it.  The search client never throws: a transport
    failure, a non-2xx answer, an [error] field and an absent or empty result
    list all give the null outcome.  For a request whose body was read, the
    handler answers 400 exactly when the model name is missing or trims to
    the empty string, else 500 exactly when the credential is not configured,
    else 502 exactly when the client gives null or no retained result, and 200
    otherwise.  A request whose body cannot be read is answered by the
    handler's own [catch]: 401 when the error message mentions
    "invalid_access_key" or "API Access Key", 500 otherwise. *)
Theorem C3_search_failure_statuses
    (SERPSTACK_API_KEY : option jsstring)
    (network : jsstring -> JsResult (FetchResponse Search.SerpData)) :
  let query := Search.querySerpstack SERPSTACK_API_KEY network in
  let respond := Search.handle SERPSTACK_API_KEY network in
  let url := Search.url SERPSTACK_API_KEY in
  (forall model log, exists results, fst (query model log) = Returned results)
  /\ (forall model q, Search.encodeURIComponent model = Returned q ->
        (forall e, network (url q) = Threw e ->
           query model [] = (Returned None, [url q]))
        /\ (forall res, network (url q) = Returned res -> ok res = false ->
           query model [] = (Returned None, [url q]))
        /\ (forall res data e, network (url q) = Returned res -> ok res = true ->
           json res = Returned data -> Search.error data = Some e ->
           query model [] = (Returned None, [url q]))
        /\ (forall res data, network (url q) = Returned res -> ok res = true ->
           json res = Returned data -> Search.error data = None ->
           Search.organic_results data = None
           \/ Search.organic_results data = Some [] ->
           query model [] = (Returned None, [url q])))
  /\ (forall body,
        let model := requestedModel body in
        let found := fst (query (default [] model) []) in
        let status := statusOf (fst (respond (Returned body))) in
        (status = Some 400 <-> truthy_opt model = false)
        /\ (status = Some 500 <->
            truthy_opt model = true /\ truthy_opt SERPSTACK_API_KEY = false)
        /\ (status = Some 502 <->
            truthy_opt model = true /\ truthy_opt SERPSTACK_API_KEY = true
            /\ (found = Returned None \/ found = Returned (Some [])))
        /\ (status = Some 200 <->
            truthy_opt model = true /\ truthy_opt SERPSTACK_API_KEY = true
            /\ exists results, results <> [] /\ found = Returned (Some results))
        /\ (status = Some 400 \/ status = Some 500 \/ status = Some 502
            \/ status = Some 200))
  /\ (forall e,
        let message :=
          match e with ThrownError _ m => m | ThrownOther => js "搜索失败" end in
        statusOf (fst (respond (Threw e)))
        = Some (if includes message (js "invalid_access_key")
                   || includes message (js "API Access Key")
                then 401 else 500)).
Proof.
  cbv zeta. split; [|split; [|split]].
  - apply querySerpstack_returns.
  - intros model q Hq. repeat apply conj.
    + intros e. now apply (querySerpstack_transport _ _ model q []).
    + intros res. now apply (querySerpstack_not_ok _ _ model q []).
    + intros res data e. now apply (querySerpstack_error_field _ _ model q []).
    + intros res data. now apply (querySerpstack_no_results _ _ model q []).
  - intros body.
    destruct (truthy_opt (requestedModel body)) eqn:Hm.
    2: { rewrite (search_empty_model _ _ body Hm). simpl.
         repeat split; try tauto; try discriminate; intros; intuition congruence. }
    destruct (truthy_opt SERPSTACK_API_KEY) eqn:Hk.
    2: { rewrite (search_no_credential _ _ body Hm Hk). simpl.
         repeat split; try tauto; try discriminate; intros; intuition congruence. }
    destruct (querySerpstack_returns SERPSTACK_API_KEY network
                (default [] (requestedModel body)) []) as [[[|r results]|] Hq].
    + rewrite (search_no_results _ _ body Hm Hk (or_intror Hq)), Hq. simpl.
      repeat split; try tauto; try discriminate; try (intros; intuition congruence).
      intros [_ [_ [rs [Hne E]]]]. congruence.
    + rewrite (search_results _ _ body (r :: results) Hm Hk Hq), Hq by discriminate.
      simpl. repeat split; try tauto; try discriminate;
        try (intros; intuition congruence).
      now exists (r :: results).
    + rewrite (search_no_results _ _ body Hm Hk (or_introl Hq)), Hq. simpl.
      repeat split; try tauto; try discriminate; try (intros; intuition congruence).
      intros [_ [_ [rs [Hne E]]]]. congruence.
  - intros e. now rewrite search_unreadable_body.
Qed.

(** C3 as stated fails: a request whose body is not JSON, and whose parse
    error quotes the words "API Access Key", is answered with 401, a failure
    status outside 400, 500 and 502; with any other parse error it is
    answered with 500 although the credential is configured. *)
Lemma C3_status_counterexample :
  statusOf (fst (Search.handle (Some (js "key")) Examples.offline
                   (Threw Examples.notJson)))
  = Some 401
  /\ statusOf (fst (Search.handle (Some (js "key")) Examples.offline
                      (Threw (ThrownError (js "SyntaxError")
                                (js "Unexpected end of JSON input")))))
     = Some 500
  /\ truthy_opt (Some (js "key")) = true.
Proof. repeat split; vm_compute; reflexivity. Qed.

(** ** The generate endpoint *)

(** Unfolds the handler and names the constants it computes. *)
Ltac open_handler body env readFileSync cwd :=
  unfold Generate.handle, Generate.POST; run_effects; cbv zeta;
  fold (requestTitle body) (requestModels body);
  fold (hasModels body); fold (lacksSearchData body);
  fold (searchDigest body); fold (apiKey env);
  fold (requestContentType body) (requestStyle body) (apiUrl env);
  fold (systemPrompt readFileSync cwd body).

Section GenerateEndpoint.

Variable readFileSync : jsstring -> JsResult jsstring.
Variable cwd : jsstring.
Variable env : jsstring -> option jsstring.
Variable now : jsstring.
Variable network : FetchCall -> Settlement.
Variable body : GenerateRequest.t.

Let respond := Generate.handle readFileSync cwd env now network.
Let call := completionCall readFileSync cwd env body.

Lemma generate_no_title :
  truthy_opt (requestTitle body) = false ->
  respond (Returned body)
  = (Returned (Response_json (ErrorPayload (js "标题不能为空")) 400), []).
Proof.
  intros H. unfold respond. open_handler body env readFileSync cwd.
  now rewrite H.
Qed.

Lemma generate_no_searchData :
  truthy_opt (requestTitle body) = true ->
  hasModels body = true -> lacksSearchData body = true ->
  respond (Returned body)
  = (Returned (Response_json (ErrorPayload (js "缺少搜索数据 searchData")) 400), []).
Proof.
  intros H Hm Hl. unfold respond. open_handler body env readFileSync cwd.
  now rewrite H, Hm, Hl.
Qed.

(** A request without products has the empty digest. *)
Lemma searchDigest_no_models : requestModels body = [] -> searchDigest body = Returned [].
Proof. intros H. unfold searchDigest, hasModels. now rewrite H. Qed.

Section Validated.

Hypothesis valid : validated body = true.

Lemma validated_title : truthy_opt (requestTitle body) = true.
Proof. unfold validated in valid. now apply andb_true_iff in valid. Qed.

Lemma validated_searchData : hasModels body && lacksSearchData body = false.
Proof.
  unfold validated in valid. apply andb_true_iff in valid as [_ H].
  now apply negb_true_iff.
Qed.

(** What [formatSearchData] throws is caught by the handler, before the
    credential is looked at. *)
Lemma generate_no_digest (e : JsThrown) :
  searchDigest body = Threw e ->
  respond (Returned body)
  = (Returned
       (Response_json
          (ErrorPayload
             match e with
             | ThrownError _ message => message
             | ThrownOther => js "生成失败"
             end) 500), []).
Proof.
  intros Hd. unfold respond. open_handler body env readFileSync cwd.
  now rewrite validated_title, validated_searchData, Hd.
Qed.

Section Formatted.

Variable digest : jsstring.
Hypothesis formatted : searchDigest body = Returned digest.

Lemma userPrompt_formatted :
  userPrompt body
  = buildPrompt (default [] (requestTitle body)) (requestModels body) digest
      (hasModels body) (requestStyle body) (requestContentType body).
Proof. unfold userPrompt. now rewrite formatted. Qed.

(** Brings the goal to the credential check. *)
Ltac to_credential :=
  unfold respond; open_handler body env readFileSync cwd;
  rewrite validated_title, validated_searchData, formatted;
  cbn [negb]; cbv beta iota; rewrite <- userPrompt_formatted.

Lemma generate_no_credential :
  truthy_opt (apiKey env) = false ->
  respond (Returned body)
  = (Returned (Response_json (ErrorPayload credentialMessage) 500), []).
Proof. intros Hk. to_credential. now rewrite Hk. Qed.

Section Configured.

Hypothesis configured : truthy_opt (apiKey env) = true.

(** Brings the goal to the outcome of the call. *)
Ltac to_fetch :=
  to_credential; rewrite configured; cbn [negb]; cbv iota;
  fold (completionCall readFileSync cwd env body); fold call;
  unfold Generate.fetch; cbv zeta.

Lemma generate_timed_out :
  timesOut (network call) ->
  respond (Returned body)
  = (Returned (Response_json (ErrorPayload timeoutMessage) 500), [call]).
Proof.
  intros Ht. to_fetch.
  assert (match settledAfter (network call) with
          | Some t => if t <? timeoutMs then outcome (network call)
                      else Threw abortError
          | None => Threw abortError
          end = Threw abortError) as ->.
  { destruct Ht as [-> | [t [-> Ht]]]; [reflexivity|].
    apply N.ltb_ge in Ht. now rewrite Ht. }
  unfold abortError, onFetchError, throw.
  rewrite bool_decide_eq_true_2 by reflexivity. reflexivity.
Qed.

Lemma settled_in_time o :
  settlesWith (network call) o ->
  match settledAfter (network call) with
  | Some t => if t <? timeoutMs then outcome (network call) else Threw abortError
  | None => Threw abortError
  end = o.
Proof.
  intros [[t [-> Ht]] <-]. apply N.ltb_lt in Ht. now rewrite Ht.
Qed.

Lemma generate_rejected (e : JsThrown) :
  settlesWith (network call) (Threw e) ->
  respond (Returned body)
  = (Returned
       (Response_json
          (ErrorPayload
             match e with
             | ThrownError name message =>
                 if bool_decide (name = js "AbortError")
                    || includes message (js "timeout")
                 then timeoutMessage
                 else if includes message (js "Failed to fetch")
                         || includes message (js "fetch failed")
                 then unreachableMessage (apiUrl env)
                 else js "网络请求失败: " ++ message
             | ThrownOther => js "网络请求失败，请稍后重试"
             end) 500), [call]).
Proof.
  intros Hs. to_fetch. rewrite (settled_in_time _ Hs).
  unfold onFetchError, throw. destruct e as [name message|]; [|reflexivity].
  destruct (bool_decide (name = js "AbortError") || includes message (js "timeout"));
    [reflexivity|].
  destruct (includes message (js "Failed to fetch")
            || includes message (js "fetch failed")); reflexivity.
Qed.

Lemma generate_upstream_error (r : FetchResponse CompletionData) :
  settlesWith (network call) (Returned r) -> ok r = false ->
  respond (Returned body)
  = (Returned
       (Response_json
          (ErrorPayload (upstreamMessage (status r) (errorTextOf r))) 500),
     [call]).
Proof.
  intros Hs Hok. to_fetch. rewrite (settled_in_time _ Hs), Hok.
  unfold errorTextOf. now destruct (text r).
Qed.

Lemma generate_unreadable (r : FetchResponse CompletionData) (e : JsThrown) :
  settlesWith (network call) (Returned r) -> ok r = true ->
  json r = Threw e ->
  respond (Returned body)
  = (Returned
       (Response_json
          (ErrorPayload
             match e with
             | ThrownError _ message => message
             | ThrownOther => js "生成失败"
             end) 500), [call]).
Proof.
  intros Hs Hok Hj. to_fetch. now rewrite (settled_in_time _ Hs), Hok, Hj.
Qed.

Lemma generate_empty (r : FetchResponse CompletionData) (data : CompletionData) :
  settlesWith (network call) (Returned r) -> ok r = true ->
  json r = Returned data -> or_else (firstContent data) [] = [] ->
  respond (Returned body)
  = (Returned (Response_json (ErrorPayload emptyMessage) 500), [call]).
Proof.
  intros Hs Hok Hj He. to_fetch.
  now rewrite (settled_in_time _ Hs), Hok, Hj, He.
Qed.

Lemma generate_success (r : FetchResponse CompletionData) (data : CompletionData) :
  settlesWith (network call) (Returned r) -> ok r = true ->
  json r = Returned data -> or_else (firstContent data) [] <> [] ->
  respond (Returned body)
  = (Returned
       (Response_json
          (ArticlePayload (or_else (firstContent data) [])
             {| Metadata.title := default [] (requestTitle body);
                Metadata.models := requestModels body;
                Metadata.contentType := requestContentType body;
                Metadata.stylePreference := requestStyle body;
                Metadata.generatedAt := now |}) 200), [call]).
Proof.
  intros Hs Hok Hj He. to_fetch.
  rewrite (settled_in_time _ Hs), Hok, Hj. cbn [negb]. cbv iota.
  apply truthy_true in He. now rewrite He.
Qed.

(** With a validated request, a digest and a credential, exactly one call
    is made. *)
Lemma generate_one_call : snd (respond (Returned body)) = [call].
Proof.
  to_fetch. unfold onFetchError, throw.
  destruct (match settledAfter (network call) with
            | Some t => if t <? timeoutMs then outcome (network call)
                        else Threw abortError
            | None => Threw abortError
            end) as [r|[name message|]]; cbv beta iota.
  - destruct (ok r); cbn [negb]; cbv beta iota.
    + destruct (json r) as [data|e]; [|reflexivity].
      destruct (truthy (or_else (firstContent data) [])); reflexivity.
    + destruct (text r); reflexivity.
  - destruct (bool_decide (name = js "AbortError") || includes message (js "timeout"));
      [reflexivity|].
    destruct (includes message (js "Failed to fetch")
              || includes message (js "fetch failed")); reflexivity.
  - reflexivity.
Qed.

(** The answer is 500, or 200 with an article and the metadata computed
    from the request. *)
Lemma generate_configured_answer :
  exists r, fst (respond (Returned body)) = Returned r
    /\ ((responseStatus r = 500 /\ exists msg, responseBody r = ErrorPayload msg)
        \/ (responseStatus r = 200
            /\ exists article, article <> [] /\
                 responseBody r
                 = ArticlePayload article
                     {| Metadata.title := default [] (requestTitle body);
                        Metadata.models := requestModels body;
                        Metadata.contentType := requestContentType body;
                        Metadata.stylePreference := requestStyle body;
                        Metadata.generatedAt := now |})).
Proof.
  to_fetch. unfold onFetchError, throw.
  destruct (match settledAfter (network call) with
            | Some t => if t <? timeoutMs then outcome (network call)
                        else Threw abortError
            | None => Threw abortError
            end) as [r|[name message|]]; cbv beta iota.
  - destruct (ok r); cbn [negb]; cbv beta iota.
    + destruct (json r) as [data|e].
      * destruct (truthy (or_else (firstContent data) [])) eqn:Ha;
          cbn [negb]; cbv beta iota.
        -- eexists. split; [reflexivity|]. right. split; [reflexivity|].
           eexists. split; [|reflexivity]. now apply truthy_true.
        -- eexists. split; [reflexivity|]. left. split; [reflexivity|].
           eexists. reflexivity.
      * eexists. split; [reflexivity|]. left. split; [reflexivity|].
        eexists. reflexivity.
    + destruct (text r); eexists; (split; [reflexivity|]); left;
        (split; [reflexivity|]); eexists; reflexivity.
  - destruct (bool_decide (name = js "AbortError") || includes message (js "timeout")).
    + eexists. split; [reflexivity|]. left. split; [reflexivity|].
      eexists. reflexivity.
    + destruct (includes message (js "Failed to fetch")
                || includes message (js "fetch failed"));
        eexists; (split; [reflexivity|]); left; (split; [reflexivity|]);
        eexists; reflexivity.
  - eexists. split; [reflexivity|]. left. split; [reflexivity|].
    eexists. reflexivity.
Qed.

End Configured.

End Formatted.

(** A validated request is answered with 200 or 500; a 200 answer carries an
    article and the metadata computed from the request. *)
Lemma generate_validated_answer :
  exists r, fst (respond (Returned body)) = Returned r
    /\ ((responseStatus r = 500 /\ exists msg, responseBody r = ErrorPayload msg)
        \/ (responseStatus r = 200
            /\ exists article, article <> [] /\
                 responseBody r
                 = ArticlePayload article
                     {| Metadata.title := default [] (requestTitle body);
                        Metadata.models := requestModels body;
                        Metadata.contentType := requestContentType body;
                        Metadata.stylePreference := requestStyle body;
                        Metadata.generatedAt := now |})).
Proof.
  destruct (searchDigest body) as [digest|e] eqn:Hd.
  2: { rewrite (generate_no_digest e Hd). eexists. split; [reflexivity|].
       left. split; [reflexivity|]. eexists. reflexivity. }
  destruct (truthy_opt (apiKey env)) eqn:Hk.
  - now apply (generate_configured_answer digest).
  - rewrite (generate_no_credential digest Hd Hk). eexists.
    split; [reflexivity|]. left. split; [reflexivity|]. eexists. reflexivity.
Qed.

(** The calls made for a validated request. *)
Lemma generate_log_validated :
  snd (respond (Returned body))
  = match searchDigest body with
    | Returned _ =>
        if truthy_opt (apiKey env) then [call] else []
    | Threw _ => []
    end.
Proof.
  destruct (searchDigest body) as [digest|e] eqn:Hd.
  - destruct (truthy_opt (apiKey env)) eqn:Hk.
    + now apply (generate_one_call digest).
    + now rewrite (generate_no_credential digest Hd Hk).
  - now rewrite (generate_no_digest e Hd).
Qed.

End Validated.

End GenerateEndpoint.

(** The handler answers every request; whatever happens inside is caught. *)
Lemma generate_returns readFileSync cwd env now network
    (request_json : JsResult GenerateRequest.t) :
  exists r,
    fst (Generate.handle readFileSync cwd env now network request_json)
    = Returned r.
Proof.
  destruct request_json as [body|e]; [|eexists; reflexivity].
  destruct (truthy_opt (requestTitle body)) eqn:Ht.
  2: { rewrite (generate_no_title _ _ _ _ _ body Ht). eexists. reflexivity. }
  destruct (hasModels body && lacksSearchData body) eqn:Hv.
  - apply andb_true_iff in Hv as [Hm Hl].
    rewrite (generate_no_searchData _ _ _ _ _ body Ht Hm Hl).
    eexists. reflexivity.
  - destruct (generate_validated_answer readFileSync cwd env now network body)
      as [r [Hr _]].
    + unfold validated. now rewrite Ht, Hv.
    + now exists r.
Qed.

(** *** The normalised model list *)

Lemma lacksSearchData_spec (body : GenerateRequest.t) :
  lacksSearchData body = true <->
  GenerateRequest.searchData body = None
  \/ GenerateRequest.searchData body = Some ∅.
Proof.
  unfold lacksSearchData. destruct (GenerateRequest.searchData body) as [sd|].
  - rewrite Nat.eqb_eq, length_fmap. split.
    + intros H. right. f_equal. apply map_to_list_empty_iff.
      now apply length_zero_iff_nil.
    + intros [H|H]; [discriminate|]. injection H as ->.
      now rewrite map_to_list_empty.
  - split; [now left | reflexivity].
Qed.

Lemma hasModels_spec (body : GenerateRequest.t) :
  hasModels body = true <-> requestModels body <> [].
Proof.
  unfold hasModels. rewrite Nat.ltb_lt.
  destruct (requestModels body); simpl; split; intros; try congruence; lia.
Qed.

Lemma trimmed_nonempty (raws : list jsstring) (m : jsstring) :
  In m (List.filter truthy (map trim raws)) ->
  m <> [] /\ trim m = m /\ exists raw, raw ∈ raws /\ m = trim raw.
Proof.
  intros H. apply filter_In in H as [H Ht]. apply in_map_iff in H as [raw [<- H]].
  split; [now apply truthy_true|]. split; [apply trim_idem|].
  exists raw. split; [now apply list_elem_of_In | reflexivity].
Qed.

Lemma blank_models_dropped (raws : list jsstring) :
  (forall raw, raw ∈ raws -> trim raw = []) ->
  List.filter truthy (map trim raws) = [].
Proof.
  induction raws as [|raw raws IH]; intros H; [reflexivity|]. simpl.
  rewrite (H raw) by apply list_elem_of_here. simpl.
  apply IH. intros r Hr. apply H. now apply list_elem_of_further.
Qed.

Lemma requestModels_spec (body : GenerateRequest.t) :
  (length (requestModels body) <= 3)%nat
  /\ forall m, m ∈ requestModels body ->
       m <> [] /\ trim m = m
       /\ exists raw, raw ∈ default [] (GenerateRequest.models body) /\ m = trim raw.
Proof.
  unfold requestModels, slice0. split.
  - rewrite length_take. lia.
  - intros m Hm. apply trimmed_nonempty.
    apply list_elem_of_In. eapply subseteq_take, Hm.
Qed.

(** *** The messages *)

Lemma unreachableMessage_names_url (aiApiUrl : jsstring) :
  includes (unreachableMessage aiApiUrl) aiApiUrl = true.
Proof.
  apply includes_spec. unfold unreachableMessage.
  exists (js "无法连接到 API 服务器 ("), (js ")，请检查网络连接或 API 地址配置").
  reflexivity.
Qed.

Lemma upstreamMessage_body (status : N) (errorText : jsstring) :
  upstreamMessage status errorText
  = (js "API 调用失败 (" ++ toString status ++ js "): ") ++ take 200 errorText
  /\ (length (take 200 errorText) <= 200)%nat.
Proof.
  split.
  - unfold upstreamMessage, substring0. now rewrite <- !app_assoc.
  - rewrite length_take. lia.
Qed.

(** The texts of the messages. *)
Lemma message_texts :
  timeoutMessage = js "API 请求超时（120秒），请检查网络连接或稍后重试"
  /\ emptyMessage = js "生成内容为空"
  /\ credentialMessage = js "AI_API_KEY 未配置"
  /\ (forall aiApiUrl,
        unreachableMessage aiApiUrl
        = js "无法连接到 API 服务器 (" ++ aiApiUrl
          ++ js ")，请检查网络连接或 API 地址配置")
  /\ (forall status errorText,
        upstreamMessage status errorText
        = js "API 调用失败 (" ++ toString status ++ js "): " ++ take 200 errorText).
Proof. repeat split. Qed.

Ltac differ_within n :=
  let H := fresh in
  intros H; apply (f_equal (take n)) in H; vm_compute in H; discriminate H.

Lemma failure_messages_distinct (aiApiUrl : jsstring) (status : N) (errorText : jsstring) :
  timeoutMessage <> unreachableMessage aiApiUrl
  /\ timeoutMessage <> upstreamMessage status errorText
  /\ timeoutMessage <> emptyMessage
  /\ timeoutMessage <> credentialMessage
  /\ unreachableMessage aiApiUrl <> upstreamMessage status errorText
  /\ unreachableMessage aiApiUrl <> emptyMessage
  /\ unreachableMessage aiApiUrl <> credentialMessage
  /\ upstreamMessage status errorText <> emptyMessage
  /\ upstreamMessage status errorText <> credentialMessage
  /\ emptyMessage <> credentialMessage.
Proof.
  unfold unreachableMessage, upstreamMessage.
  repeat apply conj; differ_within 5%nat.
Qed.

(** C1, as the code has it.  For a request whose body is read at its
    declared type, the generate handler answers 400 when the title is
    missing or trims to the empty string, and 400 when the trimmed and
    filtered model list is non-empty while [searchData] is absent or has no
    keys; a request with a non-empty title and no models is never answered
    400, whether or not it carries [searchData]: it is answered 200 or 500.
    A request for which reading the body throws (the text is not JSON, the
    body is [null], the title or an entry of [models] is not a string) never
    reaches the check of the title: it is answered 500 by the [catch] of the
    handler, with the message of the exception, whatever its title. *)
Theorem C1_generate_validation
    readFileSync cwd env now network (body : GenerateRequest.t) :
  let respond := Generate.handle readFileSync cwd env now network in
  ((GenerateRequest.title body = None
    \/ exists t, GenerateRequest.title body = Some t /\ trim t = []) ->
   respond (Returned body)
   = (Returned (Response_json (ErrorPayload (js "标题不能为空")) 400), []))
  /\ (requestModels body <> [] ->
      GenerateRequest.searchData body = None
      \/ GenerateRequest.searchData body = Some ∅ ->
      statusOf (fst (respond (Returned body))) = Some 400
      /\ snd (respond (Returned body)) = []
      /\ ((exists t, GenerateRequest.title body = Some t /\ trim t <> []) ->
          respond (Returned body)
          = (Returned
               (Response_json (ErrorPayload (js "缺少搜索数据 searchData")) 400),
             [])))
  /\ ((exists t, GenerateRequest.title body = Some t /\ trim t <> []) ->
      requestModels body = [] ->
      exists status,
        statusOf (fst (respond (Returned body))) = Some status
        /\ (status = 200 \/ status = 500) /\ status <> 400)
  /\ (forall e,
        respond (Threw e)
        = (Returned
             (Response_json
                (ErrorPayload
                   match e with
                   | ThrownError _ message => message
                   | ThrownOther => js "生成失败"
                   end) 500), [])).
Proof.
  cbv zeta.
  assert (Hbad : (GenerateRequest.title body = None
                  \/ exists t, GenerateRequest.title body = Some t /\ trim t = []) ->
                 truthy_opt (requestTitle body) = false).
  { unfold requestTitle. intros [-> | [t [-> Ht]]]; simpl; [reflexivity|].
    now rewrite Ht. }
  assert (Hgood : (exists t, GenerateRequest.title body = Some t /\ trim t <> []) ->
                  truthy_opt (requestTitle body) = true).
  { unfold requestTitle. intros [t [-> Ht]]. simpl. now apply truthy_true. }
  split; [|split; [|split]].
  - intros H. now apply generate_no_title, Hbad.
  - intros Hm Hs. apply hasModels_spec in Hm. apply lacksSearchData_spec in Hs.
    destruct (truthy_opt (requestTitle body)) eqn:Ht.
    + rewrite (generate_no_searchData _ _ _ _ _ body Ht Hm Hs).
      repeat split; reflexivity.
    + rewrite (generate_no_title _ _ _ _ _ body Ht).
      repeat split; try reflexivity.
      intros Hg. apply Hgood in Hg. congruence.
  - intros Hg Hm. apply Hgood in Hg.
    assert (Hv : validated body = true).
    { unfold validated, hasModels. now rewrite Hg, Hm. }
    destruct (generate_validated_answer readFileSync cwd env now network body Hv)
      as [r [Hr [[Hst _] | [Hst _]]]]; rewrite Hr; simpl; rewrite Hst.
    + exists 500. repeat split; [now right | discriminate].
    + exists 200. repeat split; [now left | discriminate].
  - intros e. reflexivity.
Qed.

Lemma C1_generate_validation_witness :
  Generate.handle Examples.onlyDiscussion (js "/app") Examples.keyOnly
    Examples.timestamp Examples.answering (Returned Examples.blankTitle)
  = (Returned (Response_json (ErrorPayload (js "标题不能为空")) 400), []).
Proof.
  apply (proj1 (C1_generate_validation Examples.onlyDiscussion (js "/app")
                  Examples.keyOnly Examples.timestamp Examples.answering
                  Examples.blankTitle)).
  right. exists (js "   "). split; reflexivity.
Defined.

(** C1 as stated fails: it speaks of every request, and a request without
    a title is answered 500, not 400, when reading its body throws.  The
    body [{"models":[1]}] has no title, and [m.trim] on its entry throws
    before the title is checked; the body [null] has no title either, and
    reading [title] from it throws. *)
Lemma C1_unreadable_counterexample :
  Generate.handle Examples.onlyDiscussion (js "/app") Examples.keyOnly
    Examples.timestamp Examples.answering (Threw Examples.notAString)
  = (Returned (Response_json (ErrorPayload (js "m.trim is not a function")) 500),
     [])
  /\ statusOf
       (fst (Generate.handle Examples.onlyDiscussion (js "/app") Examples.keyOnly
               Examples.timestamp Examples.answering (Threw Examples.nullBody)))
     = Some 500.
Proof. split; vm_compute; reflexivity. Qed.

(** C2. For a request that passes validation.  The digest of the search
    data is formatted first; what that throws is answered 500 without any
    call.  With a digest, a missing credential is answered 500 with
    "AI_API_KEY 未配置", again without any call to the network, so that no
    validated request without a credential leads to a call.  The completion
    call is made exactly when there are a digest and a credential; it is the
    only call, it is made under a timer of 120 seconds, and each of its
    failures is answered 500 with its own message: a call that has not
    settled when the timer fires, or that rejects with an abort or with a
    message mentioning "timeout", gives the timeout message; a rejection
    whose message says "Failed to fetch" or "fetch failed" gives the
    cannot-reach message, which names the endpoint; an answer outside
    200-299 gives the upstream message, which ends with the first 200 code
    units of the answer's body (or of its status text when the body cannot
    be read); a 2xx answer with no text gives the empty-generation message.
    The five messages are pairwise distinct. *)
Theorem C2_completion_failures
    readFileSync cwd env now network (body : GenerateRequest.t) :
  validated body = true ->
  let respond := Generate.handle readFileSync cwd env now network in
  let call := completionCall readFileSync cwd env body in
  let failure message :=
    (Returned (Response_json (ErrorPayload message) 500), [call]) in
  let timeoutText := js "API 请求超时（120秒），请检查网络连接或稍后重试" in
  let unreachableText aiApiUrl :=
    js "无法连接到 API 服务器 (" ++ aiApiUrl
    ++ js ")，请检查网络连接或 API 地址配置" in
  let upstreamText status errorText :=
    js "API 调用失败 (" ++ toString status ++ js "): " ++ take 200 errorText in
  let emptyText := js "生成内容为空" in
  let credentialText := js "AI_API_KEY 未配置" in
  (truthy_opt (apiKey env) = false ->
   statusOf (fst (respond (Returned body))) = Some 500
   /\ snd (respond (Returned body)) = [])
  /\ (forall e,
        searchDigest body = Threw e ->
        statusOf (fst (respond (Returned body))) = Some 500
        /\ snd (respond (Returned body)) = [])
  /\ (snd (respond (Returned body)) = [call] <->
      truthy_opt (apiKey env) = true
      /\ exists digest, searchDigest body = Returned digest)
  /\ (forall digest,
        searchDigest body = Returned digest ->
        (truthy_opt (apiKey env) = false ->
         respond (Returned body)
         = (Returned (Response_json (ErrorPayload credentialText) 500), []))
        /\ (truthy_opt (apiKey env) = true ->
            snd (respond (Returned body)) = [call]
            /\ (timesOut (network call) ->
                respond (Returned body) = failure timeoutText)
            /\ (forall name message,
                  settlesWith (network call) (Threw (ThrownError name message)) ->
                  name = js "AbortError" \/ includes message (js "timeout") = true ->
                  respond (Returned body) = failure timeoutText)
            /\ (forall name message,
                  settlesWith (network call) (Threw (ThrownError name message)) ->
                  name <> js "AbortError" ->
                  includes message (js "timeout") = false ->
                  includes message (js "Failed to fetch") = true
                  \/ includes message (js "fetch failed") = true ->
                  respond (Returned body) = failure (unreachableText (apiUrl env)))
            /\ (forall r,
                  settlesWith (network call) (Returned r) -> ok r = false ->
                  respond (Returned body)
                  = failure (upstreamText (status r) (errorTextOf r)))
            /\ (forall r data,
                  settlesWith (network call) (Returned r) -> ok r = true ->
                  json r = Returned data ->
                  firstContent data = None \/ firstContent data = Some [] ->
                  respond (Returned body) = failure emptyText)))
  /\ timeoutMs = 120000
  /\ (forall aiApiUrl, includes (unreachableText aiApiUrl) aiApiUrl = true)
  /\ (forall status errorText,
        includes (upstreamText status errorText) (take 200 errorText) = true
        /\ (length (take 200 errorText) <= 200)%nat)
  /\ (forall aiApiUrl status errorText,
        timeoutText <> unreachableText aiApiUrl
        /\ timeoutText <> upstreamText status errorText
        /\ timeoutText <> emptyText
        /\ timeoutText <> credentialText
        /\ unreachableText aiApiUrl <> upstreamText status errorText
        /\ unreachableText aiApiUrl <> emptyText
        /\ unreachableText aiApiUrl <> credentialText
        /\ upstreamText status errorText <> emptyText
        /\ upstreamText status errorText <> credentialText
        /\ emptyText <> credentialText).
Proof.
  intros Hv. cbv zeta.
  destruct message_texts as (Htimeout & Hempty & Hcredential & Hunreachable & Hupstream).
  split; [|split; [|split; [|split; [|split; [reflexivity|split; [|split]]]]]].
  - intros Hk. destruct (searchDigest body) as [digest|e] eqn:Hd.
    + now rewrite (generate_no_credential _ _ _ _ _ body Hv digest Hd Hk).
    + now rewrite (generate_no_digest _ _ _ _ _ body Hv e Hd).
  - intros e Hd. now rewrite (generate_no_digest _ _ _ _ _ body Hv e Hd).
  - rewrite (generate_log_validated _ _ _ _ _ body Hv). split.
    + destruct (searchDigest body) as [digest|e]; [|discriminate].
      destruct (truthy_opt (apiKey env)); [|discriminate].
      intros _. split; [reflexivity | now exists digest].
    + intros [-> [digest ->]]. reflexivity.
  - intros digest Hd. split.
    + intros Hk. rewrite <- Hcredential.
      exact (generate_no_credential _ _ _ _ _ body Hv digest Hd Hk).
    + intros Hk.
      split; [exact (generate_one_call _ _ _ _ _ body Hv digest Hd Hk)|].
      repeat apply conj.
      * intros Ht. rewrite <- Htimeout.
        exact (generate_timed_out _ _ _ _ _ body Hv digest Hd Hk Ht).
      * intros name message Hs Hab.
        rewrite (generate_rejected _ _ _ _ _ body Hv digest Hd Hk _ Hs), <- Htimeout.
        destruct Hab as [-> | ->].
        -- now rewrite bool_decide_eq_true_2.
        -- now rewrite orb_true_r.
      * intros name message Hs Hn Ht Hf.
        rewrite (generate_rejected _ _ _ _ _ body Hv digest Hd Hk _ Hs).
        rewrite bool_decide_eq_false_2, Ht, <- Hunreachable by assumption.
        cbn [orb]. destruct Hf as [-> | ->]; [reflexivity|]. now rewrite orb_true_r.
      * intros r Hs Hok. rewrite <- Hupstream.
        exact (generate_upstream_error _ _ _ _ _ body Hv digest Hd Hk r Hs Hok).
      * intros r data Hs Hok Hj He. rewrite <- Hempty.
        apply (generate_empty _ _ _ _ _ body Hv digest Hd Hk r data);
          try assumption.
        now destruct He as [-> | ->].
  - intros aiApiUrl. rewrite <- Hunreachable. apply unreachableMessage_names_url.
  - intros status errorText. rewrite <- Hupstream.
    destruct (upstreamMessage_body status errorText) as [-> Hlen].
    split; [|exact Hlen]. apply includes_spec.
    exists (js "API 调用失败 (" ++ toString status ++ js "): "), [].
    now rewrite app_nil_r.
  - intros aiApiUrl status errorText.
    rewrite <- Htimeout, <- Hempty, <- Hcredential, <- Hunreachable, <- Hupstream.
    apply failure_messages_distinct.
Qed.

Lemma C2_completion_failures_witness :
  Generate.handle Examples.onlyDiscussion (js "/app") Examples.keyOnly
    Examples.timestamp Examples.silent (Returned Examples.titleOnly)
  = (Returned
       (Response_json
          (ErrorPayload (js "API 请求超时（120秒），请检查网络连接或稍后重试")) 500),
     [completionCall Examples.onlyDiscussion (js "/app") Examples.keyOnly
        Examples.titleOnly]).
Proof.
  refine (proj1 (proj2 (proj2 (proj1 (proj2 (proj2 (proj2
            (C2_completion_failures Examples.onlyDiscussion (js "/app")
               Examples.keyOnly Examples.timestamp Examples.silent
               Examples.titleOnly _)))) [] _) _)) _).
  - vm_compute. reflexivity.
  - reflexivity.
  - vm_compute. reflexivity.
  - left. reflexivity.
Defined.

(** C10. The handler works with the model list obtained by trimming every
    entry, dropping the entries that become empty and keeping the first three
    of the rest.  That list has at most three names, each non-empty and
    already trimmed; it is the list echoed as [metadata.models] in every 200
    answer.  Validation reads it too: when every entry is white space the list
    is empty, so with a non-empty title the request is never answered 400
    ([searchData] is not required) and the prompt sent is the one of the
    template without products. *)
Theorem C10_models_normalised
    readFileSync cwd env now network (body : GenerateRequest.t) :
  let respond := Generate.handle readFileSync cwd env now network in
  let models := requestModels body in
  models
  = take 3 (List.filter truthy
              (map trim (default [] (GenerateRequest.models body))))
  /\ (length models <= 3)%nat
  /\ (forall m, m ∈ models ->
        m <> [] /\ trim m = m
        /\ exists raw, raw ∈ default [] (GenerateRequest.models body)
                       /\ m = trim raw)
  /\ (forall r, fst (respond (Returned body)) = Returned r ->
        responseStatus r = 200 ->
        exists article metadata,
          responseBody r = ArticlePayload article metadata
          /\ Metadata.models metadata = models)
  /\ ((forall raw, raw ∈ default [] (GenerateRequest.models body) ->
         trim raw = []) ->
      models = []
      /\ userPrompt body
         = buildPrompt (default [] (requestTitle body)) [] [] false
             (requestStyle body) (requestContentType body)
      /\ (truthy_opt (requestTitle body) = true ->
          (exists status,
             statusOf (fst (respond (Returned body))) = Some status
             /\ status <> 400)
          /\ (truthy_opt (apiKey env) = true ->
              exists call,
                snd (respond (Returned body)) = [call]
                /\ userContent call
                   = buildPrompt (default [] (requestTitle body)) [] [] false
                       (requestStyle body) (requestContentType body)))).
Proof.
  cbv zeta. split; [reflexivity|].
  split; [apply requestModels_spec|]. split; [apply requestModels_spec|].
  split.
  - intros r Hr Hst.
    destruct (truthy_opt (requestTitle body)) eqn:Ht.
    2: { rewrite (generate_no_title _ _ _ _ _ body Ht) in Hr.
         injection Hr as <-. discriminate Hst. }
    destruct (hasModels body && lacksSearchData body) eqn:Hv.
    { apply andb_true_iff in Hv as [Hm Hl].
      rewrite (generate_no_searchData _ _ _ _ _ body Ht Hm Hl) in Hr.
      injection Hr as <-. discriminate Hst. }
    destruct (generate_validated_answer readFileSync cwd env now network body)
      as [r' [Hr' [[Hst' _] | [_ [article [_ Hb]]]]]].
    + unfold validated. now rewrite Ht, Hv.
    + rewrite Hr' in Hr. injection Hr as <-. rewrite Hst' in Hst. discriminate Hst.
    + rewrite Hr' in Hr. injection Hr as <-.
      eexists _, _. split; [exact Hb | reflexivity].
  - intros Hblank.
    assert (Hm : requestModels body = []).
    { unfold requestModels, slice0. now rewrite blank_models_dropped. }
    assert (Hp : userPrompt body
                 = buildPrompt (default [] (requestTitle body)) [] [] false
                     (requestStyle body) (requestContentType body)).
    { unfold userPrompt, searchDigest, hasModels. now rewrite Hm. }
    split; [exact Hm|]. split; [exact Hp|].
    intros Ht.
    assert (Hv : validated body = true).
    { unfold validated, hasModels. now rewrite Ht, Hm. }
    split.
    + destruct (generate_validated_answer readFileSync cwd env now network body Hv)
        as [r [Hr [[Hst _] | [Hst _]]]]; rewrite Hr; simpl; rewrite Hst;
        eexists; (split; [reflexivity | discriminate]).
    + intros Hk. exists (completionCall readFileSync cwd env body).
      split; [|exact Hp].
      exact (generate_one_call _ _ _ _ _ body Hv [] (searchDigest_no_models body Hm) Hk).
Qed.

Lemma C10_models_normalised_witness :
  Examples.echoedModels
    (fst (Generate.handle Examples.onlyDiscussion (js "/app") Examples.keyOnly
            Examples.timestamp Examples.answering (Returned Examples.fiveModels)))
  = Some [js "A"; js "B"; js "C"]
  /\ (exists status,
        statusOf
          (fst (Generate.handle Examples.onlyDiscussion (js "/app")
                  Examples.keyOnly Examples.timestamp Examples.answering
                  (Returned Examples.blankModels)))
        = Some status /\ status <> 400).
Proof.
  split.
  - vm_compute. reflexivity.
  - refine (proj1 (proj2 (proj2 (proj2 (proj2 (proj2 (proj2
      (C10_models_normalised Examples.onlyDiscussion (js "/app")
         Examples.keyOnly Examples.timestamp Examples.answering
         Examples.blankModels)))) _)) _)).
    + intros raw Hraw. vm_compute in Hraw.
      repeat (apply elem_of_cons in Hraw as [-> | Hraw]; [reflexivity|]).
      now apply elem_of_nil in Hraw.
    + vm_compute. reflexivity.
Defined.

(** ** Where a text can occur in a filled template *)

Section Occurrences.

Implicit Types s P F X R : jsstring.

Lemma endsWith_spec s pat : endsWith s pat = true <-> exists pre, s = pre ++ pat.
Proof.
  unfold endsWith. rewrite startsWith_spec. split.
  - intros [post H]. exists (rev post).
    apply (f_equal (@rev N)) in H. now rewrite rev_involutive, rev_app_distr, rev_involutive in H.
  - intros [pre ->]. exists (rev pre). now rewrite rev_app_distr.
Qed.

Lemma overlap_free_after_spec P F a k k' :
  overlap_free_after P F = true -> P = a ++ k -> k <> [] -> F <> k ++ k'.
Proof.
  unfold overlap_free_after. rewrite forallb_forall. intros H -> Hk HF.
  specialize (H (length a)). rewrite drop_app_length in H.
  assert (Hs : startsWith F k = true) by (apply startsWith_spec; now exists k').
  rewrite Hs in H. simpl in H. enough (false = true) by discriminate.
  apply H, in_seq. rewrite length_app. destruct k; [congruence|]. simpl. lia.
Qed.

Lemma overlap_free_before_spec P F k b k' :
  overlap_free_before P F = true -> P = k ++ b -> k <> [] -> F <> k' ++ k.
Proof.
  unfold overlap_free_before. rewrite forallb_forall. intros H -> Hk HF.
  specialize (H (length k)). rewrite take_app_length in H.
  assert (Hs : endsWith F k = true) by (apply endsWith_spec; now exists k').
  rewrite Hs in H. simpl in H. enough (false = true) by discriminate.
  apply H, in_seq. rewrite length_app. destruct k; [congruence|]. simpl. lia.
Qed.

(** An occurrence that starts in a literal piece stays in it. *)
Lemma cut_after_lit P R F :
  overlap_free_after P F = true ->
  contains (P ++ R) F -> contains P F \/ contains R F.
Proof.
  intros Hfree [pre [post H]].
  apply app_eq_inv in H as [[k [HP HR]] | [k [Hpre HR]]].
  - symmetry in HR. apply app_eq_inv in HR as [[k' [Hk Hpost]] | [k' [HF HR]]].
    + left. exists pre, k'. now rewrite HP, Hk.
    + destruct k as [|c k].
      * right. exists [], post. simpl in HF. now rewrite HR, HF.
      * exfalso. now apply (overlap_free_after_spec P F pre (c :: k) k' Hfree).
  - right. now exists k, post.
Qed.

(** An occurrence that starts before a literal piece stops before it. *)
Lemma cut_before_lit X P R F :
  includes F P = false -> overlap_free_before P F = true ->
  contains (X ++ P ++ R) F -> contains X F \/ contains (P ++ R) F.
Proof.
  intros Hin Hfree [pre [post H]].
  apply app_eq_inv in H as [[k [HX HR]] | [k [Hpre HR]]].
  - symmetry in HR. apply app_eq_inv in HR as [[k' [Hk Hpost]] | [k' [HF HR]]].
    + left. exists pre, k'. now rewrite HX, Hk.
    + destruct k' as [|c k'].
      * left. exists pre, []. rewrite app_nil_r in HF.
        now rewrite HX, HF, app_nil_r.
      * exfalso. apply app_eq_inv in HR as [[k'' [HP Hpost]] | [k'' [Hk' HR]]].
        -- now apply (overlap_free_before_spec P F (c :: k') k'' k Hfree).
        -- apply includes_false in Hin. apply Hin.
           exists k, k''. now rewrite HF, Hk'.
  - right. now exists k, post.
Qed.

Lemma contains_nil_inv F : contains [] F -> F = [].
Proof.
  intros [pre [post H]]. symmetry in H.
  apply app_eq_nil in H as [_ H]. now apply app_eq_nil in H as [H _].
Qed.

(** A text that occurs in no argument of a well separated template does not
    occur in the filled template. *)
Theorem separated_absent F (segs : list seg) :
  F <> [] -> separated F segs = true ->
  (forall a, Arg a ∈ segs -> includes a F = false) ->
  includes (flatten segs) F = false.
Proof.
  intros HF. rewrite includes_false.
  induction segs as [|x rest IH]; intros Hsep Hargs Hc.
  - now apply contains_nil_inv in Hc.
  - assert (Hrest : forall a, Arg a ∈ rest -> includes a F = false)
      by (intros a Ha; apply Hargs; now apply list_elem_of_further).
    destruct x as [P|a].
    + simpl in Hsep. unfold lit_ok in Hsep.
      rewrite !andb_true_iff, !negb_true_iff in Hsep.
      destruct Hsep as [[[[HP _] Hafter] _] Hsep].
      change (flatten (Lit P :: rest)) with (P ++ flatten rest) in Hc.
      apply cut_after_lit in Hc as [Hc|Hc]; [|now apply IH|assumption].
      now apply includes_false in HP.
    + change (flatten (Arg a :: rest)) with (a ++ flatten rest) in Hc.
      assert (Ha : ~ contains a F)
        by (apply includes_false, Hargs, list_elem_of_here).
      destruct rest as [|[P|b] rest'].
      * change (flatten []) with (@nil N) in Hc. now rewrite app_nil_r in Hc.
      * change (flatten (Lit P :: rest')) with (P ++ flatten rest') in *.
        assert (Hsep' := Hsep). simpl in Hsep'. unfold lit_ok in Hsep'.
        rewrite !andb_true_iff, !negb_true_iff in Hsep'.
        destruct Hsep' as [[[[_ HFP] _] Hbefore] _].
        apply cut_before_lit in Hc as [Hc|Hc]; try assumption; [contradiction|].
        now apply IH.
      * discriminate Hsep.
Qed.

End Occurrences.

(** ** The fragrance guidance *)

Lemma styleHint_cases (s : jsstring) :
  styleHint s = styleHint (js "rational")
  \/ styleHint s = styleHint (js "experience")
  \/ styleHint s = styleHint (js "random").
Proof.
  destruct (decide (s = js "rational")) as [->|H1]; [now left|].
  destruct (decide (s = js "experience")) as [->|H2]; [right; now left|].
  right. right. now rewrite (styleHint_other s).
Qed.

Lemma fragranceGuidance_other (c : jsstring) :
  c <> js "beauty" -> fragranceGuidance c = [].
Proof.
  intros H. unfold fragranceGuidance.
  now destruct (decide (c = js "beauty")).
Qed.

(** The prompt depends on the content type through the guidance only. *)
Lemma buildPrompt_contentType_only title models digest hasModels s c c' :
  fragranceGuidance c = fragranceGuidance c' ->
  buildPrompt title models digest hasModels s c
  = buildPrompt title models digest hasModels s c'.
Proof. intros H. unfold buildPrompt. now rewrite H. Qed.

Lemma plainPrompt_ignores_contentType title models digest s c c' :
  buildPrompt title models digest false s c
  = buildPrompt title models digest false s c'.
Proof. unfold buildPrompt. cbv beta iota. reflexivity. Qed.

Lemma plainPrompt_ignores_products title models models' digest digest' s c :
  buildPrompt title models digest false s c
  = buildPrompt title models' digest' false s c.
Proof. unfold buildPrompt. cbv beta iota. reflexivity. Qed.

Ltac template_pieces :=
  unfold buildPrompt, lines, productSegs, plainSegs, flatten;
  cbn [join map text_of concat];
  rewrite <- !app_assoc; vm_compute; reflexivity.

Section Decomposition.

Variables (title : jsstring) (models : list jsstring) (digest : jsstring).

Lemma productPrompt_rational :
  buildPrompt title models digest true (js "rational") (js "discussion")
  = flatten (productSegs (js "rational") (js "discussion")
               title (join (js "、") models) digest).
Proof. template_pieces. Qed.

Lemma productPrompt_experience :
  buildPrompt title models digest true (js "experience") (js "discussion")
  = flatten (productSegs (js "experience") (js "discussion")
               title (join (js "、") models) digest).
Proof. template_pieces. Qed.

Lemma productPrompt_random :
  buildPrompt title models digest true (js "random") (js "discussion")
  = flatten (productSegs (js "random") (js "discussion")
               title (join (js "、") models) digest).
Proof. template_pieces. Qed.

Lemma plainPrompt_rational :
  buildPrompt title models digest false (js "rational") (js "discussion")
  = flatten (plainSegs (js "rational") (js "discussion") title).
Proof. template_pieces. Qed.

Lemma plainPrompt_experience :
  buildPrompt title models digest false (js "experience") (js "discussion")
  = flatten (plainSegs (js "experience") (js "discussion") title).
Proof. template_pieces. Qed.

Lemma plainPrompt_random :
  buildPrompt title models digest false (js "random") (js "discussion")
  = flatten (plainSegs (js "random") (js "discussion") title).
Proof. template_pieces. Qed.

End Decomposition.

Lemma fragranceText_nonempty : fragranceText <> [].
Proof. intros H. apply (f_equal length) in H. vm_compute in H. discriminate H. Qed.

Lemma styleHint_without_fragrance (s : jsstring) :
  includes (styleHint s) fragranceText = false.
Proof.
  destruct (styleHint_cases s) as [-> | [-> | ->]]; vm_compute; reflexivity.
Qed.

Section Absence.

Variables (title : jsstring) (models : list jsstring) (digest : jsstring).
Hypothesis title_clean : includes title fragranceText = false.

(** The template without products never holds the fragrance text. *)
Lemma plainPrompt_without_fragrance s c :
  includes (buildPrompt title models digest false s c) fragranceText = false.
Proof.
  rewrite (plainPrompt_ignores_contentType _ _ _ _ c (js "discussion")).
  assert (Hargs : forall sty a, Arg a ∈ plainSegs sty (js "discussion") title ->
                    includes a fragranceText = false).
  { intros sty a Ha. unfold plainSegs in Ha. cbv zeta in Ha.
    apply elem_of_cons in Ha as [Ha|Ha]; [discriminate Ha|].
    apply elem_of_cons in Ha as [Ha|Ha]; [now injection Ha as ->|].
    apply elem_of_cons in Ha as [Ha|Ha]; [discriminate Ha|].
    now apply elem_of_nil in Ha. }
  destruct (styleHint_cases s) as [H | [H | H]];
    rewrite (buildPrompt_style_only _ _ _ _ _ _ _ H).
  - rewrite plainPrompt_rational.
    apply separated_absent; [apply fragranceText_nonempty| |apply Hargs].
    vm_compute. reflexivity.
  - rewrite plainPrompt_experience.
    apply separated_absent; [apply fragranceText_nonempty| |apply Hargs].
    vm_compute. reflexivity.
  - rewrite plainPrompt_random.
    apply separated_absent; [apply fragranceText_nonempty| |apply Hargs].
    vm_compute. reflexivity.
Qed.

Hypothesis models_clean : includes (join (js "、") models) fragranceText = false.
Hypothesis digest_clean : includes digest fragranceText = false.

(** Nor does the product template for a content type other than "beauty". *)
Lemma productPrompt_without_fragrance s c :
  c <> js "beauty" ->
  includes (buildPrompt title models digest true s c) fragranceText = false.
Proof.
  intros Hc.
  rewrite (buildPrompt_contentType_only _ _ _ _ _ c (js "discussion"))
    by (rewrite fragranceGuidance_other by assumption; reflexivity).
  assert (Hargs : forall sty a,
            Arg a ∈ productSegs sty (js "discussion") title
                      (join (js "、") models) digest ->
            includes a fragranceText = false).
  { intros sty a Ha. unfold productSegs in Ha. cbv zeta in Ha.
    apply elem_of_cons in Ha as [Ha|Ha]; [discriminate Ha|].
    apply elem_of_cons in Ha as [Ha|Ha]; [now injection Ha as ->|].
    apply elem_of_cons in Ha as [Ha|Ha]; [discriminate Ha|].
    apply elem_of_cons in Ha as [Ha|Ha]; [now injection Ha as ->|].
    apply elem_of_cons in Ha as [Ha|Ha]; [discriminate Ha|].
    apply elem_of_cons in Ha as [Ha|Ha]; [now injection Ha as ->|].
    apply elem_of_cons in Ha as [Ha|Ha]; [discriminate Ha|].
    now apply elem_of_nil in Ha. }
  destruct (styleHint_cases s) as [H | [H | H]];
    rewrite (buildPrompt_style_only _ _ _ _ _ _ _ H).
  - rewrite productPrompt_rational.
    apply separated_absent; [apply fragranceText_nonempty| |apply Hargs].
    vm_compute. reflexivity.
  - rewrite productPrompt_experience.
    apply separated_absent; [apply fragranceText_nonempty| |apply Hargs].
    vm_compute. reflexivity.
  - rewrite productPrompt_random.
    apply separated_absent; [apply fragranceText_nonempty| |apply Hargs].
    vm_compute. reflexivity.
Qed.

End Absence.

(** With "beauty" and products the guidance is in the prompt. *)
Lemma productPrompt_with_fragrance title models digest s :
  includes (buildPrompt title models digest true s (js "beauty")) fragranceText
  = true.
Proof.
  apply includes_spec.
  eapply contains_trans; [apply productPrompt_fragrance_line|].
  unfold fragranceGuidance. rewrite decide_True by reflexivity.
  apply contains_app_r, contains_refl.
Qed.

(** C5, as the code has it.  With content type "beauty" and
    [hasModels = true] the prompt contains the fragrance guidance
    ([fragranceText]: the heading and the nine lines on top, heart and base
    notes).  The title, the model names and the digest are copied into the
    prompt as they are; when none of them (the names joined by "、") contains
    that text, the prompt contains it if and only if the content type is
    "beauty" and [hasModels] is true. *)
Theorem C5_fragrance_guidance :
  (forall title models digest s,
     includes (buildPrompt title models digest true s (js "beauty")) fragranceText
     = true)
  /\ (forall title models digest hasModels s c,
        includes title fragranceText = false ->
        includes (join (js "、") models) fragranceText = false ->
        includes digest fragranceText = false ->
        (includes (buildPrompt title models digest hasModels s c) fragranceText
         = true
         <-> c = js "beauty" /\ hasModels = true))
  /\ (forall title models digest s c,
        includes title fragranceText = false ->
        includes (buildPrompt title models digest false s c) fragranceText
        = false).
Proof.
  split; [apply productPrompt_with_fragrance|]. split.
  - intros title models digest hasModels s c Ht Hm Hd. split.
    + intros Hin. destruct hasModels.
      * destruct (decide (c = js "beauty")) as [->|Hc]; [now split|].
        rewrite productPrompt_without_fragrance in Hin by assumption.
        discriminate Hin.
      * rewrite plainPrompt_without_fragrance in Hin by assumption.
        discriminate Hin.
    + intros [-> ->]. apply productPrompt_with_fragrance.
  - intros title models digest s c Ht. now apply plainPrompt_without_fragrance.
Qed.

Lemma C5_fragrance_guidance_witness :
  includes
    (buildPrompt (js "送女友什么香水") [js "Chanel No.5"] (js "Chanel No.5：暂无摘要")
       true (js "random") (js "gift"))
    fragranceText = false
  /\ includes
       (buildPrompt (js "送女友什么香水") [js "Chanel No.5"]
          (js "Chanel No.5：暂无摘要") true (js "random") (js "beauty"))
       fragranceText = true.
Proof.
  split.
  - destruct (includes
                (buildPrompt (js "送女友什么香水") [js "Chanel No.5"]
                   (js "Chanel No.5：暂无摘要") true (js "random") (js "gift"))
                fragranceText) eqn:E; [|reflexivity].
    apply (proj1 (proj2 C5_fragrance_guidance)) in E as [E _];
      [vm_compute in E; discriminate E | vm_compute; reflexivity ..].
  - apply (proj1 C5_fragrance_guidance).
Defined.

(** C5 as stated fails: a title that quotes the guidance brings it into the
    prompt of the template without products, for a content type other than
    "beauty". *)
Lemma C5_fragrance_counterexample :
  includes
    (buildPrompt fragranceText [] [] false (js "random") (js "discussion"))
    fragranceText = true
  /\ bool_decide (js "discussion" = js "beauty") = false.
Proof. split; vm_compute; reflexivity. Qed.

(** * Further properties *)

(** ** The generate handler as a whole *)

Section GenerateWhole.

Variable readFileSync : jsstring -> JsResult jsstring.
Variable cwd : jsstring.
Variable env : jsstring -> option jsstring.
Variable now : jsstring.
Variable network : FetchCall -> Settlement.

Let respond := Generate.handle readFileSync cwd env now network.

(** A call either is cut by the timer or settles in time with its outcome. *)
Lemma settlement_cases (s : Settlement) :
  timesOut s \/ settlesWith s (outcome s).
Proof.
  unfold timesOut, settlesWith. destruct (settledAfter s) as [t|]; [|left; now left].
  destruct (N.lt_ge_cases t timeoutMs) as [H|H].
  - right. split; [now exists t | reflexivity].
  - left. right. now exists t.
Qed.

Lemma generate_unreadable_body (e : JsThrown) :
  respond (Threw e)
  = (Returned
       (Response_json
          (ErrorPayload
             match e with
             | ThrownError _ message => message
             | ThrownOther => js "生成失败"
             end) 500), []).
Proof. reflexivity. Qed.

Lemma validated_cases (body : GenerateRequest.t) :
  truthy_opt (requestTitle body) = false
  \/ (truthy_opt (requestTitle body) = true
      /\ hasModels body = true /\ lacksSearchData body = true)
  \/ validated body = true.
Proof.
  unfold validated. destruct (truthy_opt (requestTitle body)); [|now left].
  destruct (hasModels body); [|right; now right].
  destruct (lacksSearchData body); [right; left; now repeat split|].
  right. now right.
Qed.

(** Formatting the digest of a request throws exactly when one of its
    products has no list of its own and is named like a method with
    parameters. *)
Lemma searchDigest_threw (body : GenerateRequest.t) (e : JsThrown) :
  searchDigest body = Threw e <->
  e = noSliceError
  /\ exists m,
       m ∈ requestModels body
       /\ default ∅ (GenerateRequest.searchData body) !! m = None
       /\ m ∈ methodsWithParameters.
Proof.
  unfold searchDigest. destruct (hasModels body) eqn:Hm.
  - apply formatSearchData_threw.
  - split; [discriminate|]. intros (_ & m & Hin & _).
    assert (Hn : requestModels body = []).
    { destruct (requestModels body) eqn:E; [reflexivity|].
      unfold hasModels in Hm. rewrite E in Hm. discriminate Hm. }
    rewrite Hn in Hin. now apply elem_of_nil in Hin.
Qed.

End GenerateWhole.

(** X1. The generate handler never throws: every request, readable or not,
    is answered, with status 200, 400 or 500.  It calls the completion
    endpoint at most once, and not at all when it answers 400 or when the
    body could not be read. *)
Theorem generate_always_answers
    readFileSync cwd env now network
    (request_json : JsResult GenerateRequest.t) :
  let result := Generate.handle readFileSync cwd env now network request_json in
  exists r,
    fst result = Returned r
    /\ (responseStatus r = 200 \/ responseStatus r = 400 \/ responseStatus r = 500)
    /\ (length (snd result) <= 1)%nat
    /\ (responseStatus r = 400 -> snd result = [])
    /\ (forall e, request_json = Threw e -> snd result = []).
Proof.
  cbv zeta. destruct request_json as [body|e].
  2: { rewrite generate_unreadable_body. eexists. split; [reflexivity|].
       simpl. repeat split; auto. }
  destruct (validated_cases body) as [Ht | [[Ht [Hm Hl]] | Hv]].
  - rewrite (generate_no_title _ _ _ _ _ body Ht). eexists.
    split; [reflexivity|]. simpl. repeat split; auto; discriminate.
  - rewrite (generate_no_searchData _ _ _ _ _ body Ht Hm Hl). eexists.
    split; [reflexivity|]. simpl. repeat split; auto; discriminate.
  - destruct (generate_validated_answer readFileSync cwd env now network body Hv)
      as [r [Hr Hst]].
    exists r. split; [exact Hr|].
    rewrite (generate_log_validated _ _ _ _ _ body Hv).
    repeat split.
    + destruct Hst as [[-> _] | [-> _]]; auto.
    + destruct (searchDigest body); [destruct (truthy_opt (apiKey env))|];
        simpl; lia.
    + intros H4. destruct Hst as [[H _] | [H _]]; rewrite H in H4; discriminate.
    + discriminate.
Qed.

(** X2. The handler answers 200 exactly when the request passes validation,
    the digest of its search data is formatted without an exception, a
    credential is configured and the call settles in time with a 2xx answer
    whose body reads as JSON and whose first choice has a non-empty content.
    The article is then that content unchanged, and the metadata are the
    trimmed title, the normalised models, the content type and style
    preference with their defaults, and the time stamp. *)
Theorem generate_success_iff
    readFileSync cwd env now network (body : GenerateRequest.t)
    (article : jsstring) (metadata : Metadata.t) :
  let call := completionCall readFileSync cwd env body in
  fst (Generate.handle readFileSync cwd env now network (Returned body))
  = Returned (Response_json (ArticlePayload article metadata) 200)
  <->
  validated body = true
  /\ (exists digest, searchDigest body = Returned digest)
  /\ truthy_opt (apiKey env) = true
  /\ (exists response data,
        settlesWith (network call) (Returned response) /\ ok response = true
        /\ json response = Returned data
        /\ firstContent data = Some article)
  /\ article <> []
  /\ metadata
     = {| Metadata.title := default [] (requestTitle body);
          Metadata.models := requestModels body;
          Metadata.contentType :=
            or_else (GenerateRequest.contentType body) (js "discussion");
          Metadata.stylePreference :=
            or_else (GenerateRequest.stylePreference body) (js "random");
          Metadata.generatedAt := now |}.
Proof.
  cbv zeta. split.
  - intros H.
    destruct (validated_cases body) as [Ht | [[Ht [Hm Hl]] | Hv]].
    { rewrite (generate_no_title _ _ _ _ _ body Ht) in H. discriminate H. }
    { rewrite (generate_no_searchData _ _ _ _ _ body Ht Hm Hl) in H.
      discriminate H. }
    destruct (searchDigest body) as [digest|e] eqn:Hd.
    2: { rewrite (generate_no_digest _ _ _ _ _ body Hv e Hd) in H. discriminate H. }
    destruct (truthy_opt (apiKey env)) eqn:Hk.
    2: { rewrite (generate_no_credential _ _ _ _ _ body Hv digest Hd Hk) in H.
         discriminate H. }
    split; [exact Hv|]. split; [now exists digest|]. split; [reflexivity|].
    destruct (settlement_cases
                (network (completionCall readFileSync cwd env body)))
      as [Hto | Hs].
    { rewrite (generate_timed_out _ _ _ _ _ body Hv digest Hd Hk Hto) in H.
      discriminate H. }
    destruct (outcome (network (completionCall readFileSync cwd env body)))
      as [response|e].
    2: { rewrite (generate_rejected _ _ _ _ _ body Hv digest Hd Hk e Hs) in H.
         discriminate H. }
    destruct (ok response) eqn:Hok.
    2: { rewrite (generate_upstream_error _ _ _ _ _ body Hv digest Hd Hk
                    response Hs Hok) in H.
         discriminate H. }
    destruct (json response) as [data|e] eqn:Hj.
    2: { rewrite (generate_unreadable _ _ _ _ _ body Hv digest Hd Hk
                    response e Hs Hok Hj) in H.
         discriminate H. }
    destruct (or_else (firstContent data) []) as [|c content] eqn:Hc.
    { rewrite (generate_empty _ _ _ _ _ body Hv digest Hd Hk
                 response data Hs Hok Hj Hc) in H.
      discriminate H. }
    rewrite (generate_success _ _ _ _ _ body Hv digest Hd Hk response data Hs Hok Hj)
      in H by (rewrite Hc; discriminate).
    simpl in H. injection H as Ha Hm. rewrite Hc in Ha.
    assert (Hfc : firstContent data = Some article).
    { unfold or_else in Hc. destruct (firstContent data) as [[|c' t]|];
        simpl in Hc; try discriminate Hc. now rewrite Hc, Ha. }
    split; [now exists response, data|].
    split; [rewrite <- Ha; discriminate|]. now rewrite <- Hm.
  - intros [Hv [[digest Hd] [Hk [[response [data [Hs [Hok [Hj Hfc]]]]] [Hne ->]]]]].
    assert (Hc : or_else (firstContent data) [] = article).
    { rewrite Hfc. unfold or_else. apply truthy_true in Hne. now rewrite Hne. }
    rewrite (generate_success _ _ _ _ _ body Hv digest Hd Hk response data Hs Hok Hj)
      by (now rewrite Hc).
    simpl. now rewrite Hc.
Qed.

(** X3. The failures that have no message of their own.  For a validated
    request with a digest and a credential: a rejection that is neither an
    abort nor mentions "timeout", "Failed to fetch" or "fetch failed" is
    answered 500 with "网络请求失败: " followed by its message; a thrown
    value that is not an [Error] with "网络请求失败，请稍后重试"; a 2xx
    answer whose body is not JSON with the parser's own message.  The timeout
    test comes first: a message that mentions both "timeout" and
    "fetch failed" is reported as a timeout. *)
Theorem generate_other_failures
    readFileSync cwd env now network (body : GenerateRequest.t)
    (digest : jsstring) :
  validated body = true -> searchDigest body = Returned digest ->
  truthy_opt (apiKey env) = true ->
  let respond := Generate.handle readFileSync cwd env now network in
  let call := completionCall readFileSync cwd env body in
  let failure message :=
    (Returned (Response_json (ErrorPayload message) 500), [call]) in
  (forall name message,
     settlesWith (network call) (Threw (ThrownError name message)) ->
     name <> js "AbortError" -> includes message (js "timeout") = false ->
     includes message (js "Failed to fetch") = false ->
     includes message (js "fetch failed") = false ->
     respond (Returned body) = failure (js "网络请求失败: " ++ message))
  /\ (settlesWith (network call) (Threw ThrownOther) ->
      respond (Returned body) = failure (js "网络请求失败，请稍后重试"))
  /\ (forall response name message,
        settlesWith (network call) (Returned response) -> ok response = true ->
        json response = Threw (ThrownError name message) ->
        respond (Returned body) = failure message)
  /\ (forall response,
        settlesWith (network call) (Returned response) -> ok response = true ->
        json response = Threw ThrownOther ->
        respond (Returned body) = failure (js "生成失败"))
  /\ (forall name message,
        settlesWith (network call) (Threw (ThrownError name message)) ->
        includes message (js "timeout") = true ->
        includes message (js "fetch failed") = true ->
        respond (Returned body)
        = failure (js "API 请求超时（120秒），请检查网络连接或稍后重试")).
Proof.
  intros Hv Hd Hk. cbv zeta. repeat apply conj.
  - intros name message Hs Hn Ht Hf1 Hf2.
    rewrite (generate_rejected _ _ _ _ _ body Hv digest Hd Hk _ Hs).
    now rewrite bool_decide_eq_false_2, Ht, Hf1, Hf2.
  - intros Hs. now rewrite (generate_rejected _ _ _ _ _ body Hv digest Hd Hk _ Hs).
  - intros response name message Hs Hok Hj.
    now rewrite (generate_unreadable _ _ _ _ _ body Hv digest Hd Hk response _ Hs Hok Hj).
  - intros response Hs Hok Hj.
    now rewrite (generate_unreadable _ _ _ _ _ body Hv digest Hd Hk response _ Hs Hok Hj).
  - intros name message Hs Ht _.
    rewrite (generate_rejected _ _ _ _ _ body Hv digest Hd Hk _ Hs).
    rewrite Ht, orb_true_r. now rewrite (proj1 message_texts).
Qed.

Lemma generate_other_failures_witness :
  Generate.handle Examples.onlyDiscussion (js "/app") Examples.keyOnly
    Examples.timestamp Examples.resetting (Returned Examples.titleOnly)
  = (Returned
       (Response_json (ErrorPayload (js "网络请求失败: " ++ js "socket hang up")) 500),
     [completionCall Examples.onlyDiscussion (js "/app") Examples.keyOnly
        Examples.titleOnly]).
Proof.
  refine (proj1 (generate_other_failures Examples.onlyDiscussion (js "/app")
                   Examples.keyOnly Examples.timestamp Examples.resetting
                   Examples.titleOnly [] _ _ _)
            (js "Error") (js "socket hang up") _ _ _ _ _).
  - vm_compute. reflexivity.
  - reflexivity.
  - vm_compute. reflexivity.
  - split; [exists 10; split; [reflexivity | vm_compute; reflexivity] | reflexivity].
  - vm_compute. discriminate.
  - vm_compute. reflexivity.
  - vm_compute. reflexivity.
  - vm_compute. reflexivity.
Defined.

(** ** What is sent to the completion endpoint *)

(** A block of the system prompt: nothing when empty, else a blank line and
    the block. *)
Lemma join_nonempty_blocks (p c h : jsstring) :
  p <> [] ->
  join (nl ++ nl) (List.filter truthy [p; c; h])
  = p ++ (if truthy c then nl ++ nl ++ c else [])
      ++ (if truthy h then nl ++ nl ++ h else []).
Proof.
  intros Hp. apply truthy_true in Hp. simpl. rewrite Hp.
  destruct p as [|p0 p]; [discriminate|].
  destruct c as [|c0 c], h as [|h0 h]; simpl; rewrite ?app_nil_r;
    rewrite <- ?app_assoc; reflexivity.
Qed.

Lemma zhihuPersona_nonempty : zhihuPersona <> [].
Proof. intros H. apply (f_equal length) in H. vm_compute in H. discriminate H. Qed.

(** X4. For a validated request with a credential the handler makes one
    call, whatever the network answers, once the digest of the search data
    is formatted; it makes none when formatting the digest throws, which
    happens exactly when a product without a list of its own in the search
    data is named like a method with parameters of every object
    ("constructor", "hasOwnProperty" and the like).  The call goes to
    [AI_API_URL], or to the OpenAI chat completions URL when that variable is
    unset or empty; it carries [AI_API_KEY] as bearer token, or
    [OPENAI_API_KEY] when [AI_API_KEY] is unset or empty; it asks model
    "gpt-4.1" for at most 4000 tokens at temperature 0.85.  The system prompt
    is the persona, then the content guidance and the style hint, each after
    one blank line and each left out when empty; the user prompt is built
    from the title, the models and the digest. *)
Theorem generate_call_shape
    readFileSync cwd env now network (body : GenerateRequest.t) :
  validated body = true -> truthy_opt (apiKey env) = true ->
  let log := snd (Generate.handle readFileSync cwd env now network (Returned body)) in
  (forall digest,
     searchDigest body = Returned digest ->
     exists call,
       log = [call]
       /\ (forall u, env (js "AI_API_URL") = Some u -> u <> [] -> url call = u)
       /\ (env (js "AI_API_URL") = None \/ env (js "AI_API_URL") = Some [] ->
           url call = js "https://api.openai.com/v1/chat/completions")
       /\ (forall k, env (js "AI_API_KEY") = Some k -> k <> [] ->
           authorization call = js "Bearer " ++ k)
       /\ (env (js "AI_API_KEY") = None \/ env (js "AI_API_KEY") = Some [] ->
           exists k, env (js "OPENAI_API_KEY") = Some k /\ k <> []
                     /\ authorization call = js "Bearer " ++ k)
       /\ method call = js "POST" /\ model call = js "gpt-4.1"
       /\ max_tokens call = 4000 /\ (temperature call == 85 # 100)%Q
       /\ systemContent call
          = zhihuPersona
            ++ (let c := selectContentPrompt readFileSync cwd
                           (or_else (GenerateRequest.contentType body)
                              (js "discussion")) in
                if truthy c then nl ++ nl ++ c else [])
            ++ (let h := selectStyleHint
                           (or_else (GenerateRequest.stylePreference body)
                              (js "random")) in
                if truthy h then nl ++ nl ++ h else [])
       /\ userContent call
          = buildPrompt (default [] (requestTitle body)) (requestModels body)
              digest (hasModels body)
              (or_else (GenerateRequest.stylePreference body) (js "random"))
              (or_else (GenerateRequest.contentType body) (js "discussion")))
  /\ (forall e, searchDigest body = Threw e -> log = [])
  /\ (forall e,
        searchDigest body = Threw e <->
        e = ThrownError (js "TypeError") (js "items.slice is not a function")
        /\ exists m,
             m ∈ requestModels body
             /\ default ∅ (GenerateRequest.searchData body) !! m = None
             /\ m ∈ [js "constructor"; js "hasOwnProperty"; js "isPrototypeOf";
                     js "propertyIsEnumerable"; js "__defineGetter__";
                     js "__defineSetter__"; js "__lookupGetter__";
                     js "__lookupSetter__"]).
Proof.
  intros Hv Hk. cbv zeta. split; [|split].
  - intros digest Hd. exists (completionCall readFileSync cwd env body).
    split; [exact (generate_one_call _ _ _ _ _ body Hv digest Hd Hk)|].
    unfold completionCall. cbn [url authorization method model max_tokens
                                temperature systemContent userContent].
    repeat apply conj; try reflexivity.
    + intros u Hu Hne. unfold apiUrl. rewrite Hu. simpl.
      apply truthy_true in Hne. now rewrite Hne.
    + intros [Hu|Hu]; unfold apiUrl; now rewrite Hu.
    + intros k Hkey Hne. unfold apiKey. rewrite Hkey. simpl.
      apply truthy_true in Hne. now rewrite Hne.
    + intros Hkey. unfold apiKey in *.
      assert (Hf : truthy_opt (env (js "AI_API_KEY")) = false)
        by (destruct Hkey as [-> | ->]; reflexivity).
      rewrite Hf in *. destruct (env (js "OPENAI_API_KEY")) as [k|]; [|discriminate Hk].
      exists k. repeat split. now apply truthy_true.
    + unfold systemPrompt. apply join_nonempty_blocks, zhihuPersona_nonempty.
    + apply (userPrompt_formatted body digest Hd).
  - intros e Hd. now rewrite (generate_no_digest _ _ _ _ _ body Hv e Hd).
  - intros e. rewrite <- methodsWithParameters_names. apply searchDigest_threw.
Qed.

Lemma generate_call_shape_witness :
  exists call,
    snd (Generate.handle Examples.onlyDiscussion (js "/app") Examples.fullEnv
           Examples.timestamp Examples.silent (Returned Examples.titleOnly))
    = [call]
    /\ url call = js "https://llm.example/v1/chat"
    /\ authorization call = js "Bearer sk-own".
Proof.
  destruct (proj1 (generate_call_shape Examples.onlyDiscussion (js "/app")
                     Examples.fullEnv Examples.timestamp Examples.silent
                     Examples.titleOnly eq_refl eq_refl) [] eq_refl)
    as [call [Hlog [Hurl [_ [Hauth _]]]]].
  exists call. split; [exact Hlog|]. split.
  - apply Hurl; [vm_compute; reflexivity | discriminate].
  - rewrite (Hauth (js "sk-own")); [reflexivity | vm_compute; reflexivity | discriminate].
Defined.

(** ** What the prompt carries *)

Lemma buildPrompt_quotes_title title models digest hasModels s c :
  contains (buildPrompt title models digest hasModels s c)
    (js "「" ++ title ++ js "」").
Proof.
  unfold buildPrompt, lines. destruct hasModels; apply contains_join;
    do 2 apply list_elem_of_further; apply list_elem_of_here.
Qed.

Lemma productPrompt_digest title models digest s c :
  contains (buildPrompt title models digest true s c) digest.
Proof.
  unfold buildPrompt, lines. apply contains_join.
  do 35 apply list_elem_of_further. apply list_elem_of_here.
Qed.

Lemma Returned_inj {A} (a b : A) : Returned a = Returned b -> a = b.
Proof. intros H. now injection H. Qed.

(** A digest holds the block of each of its products. *)
Lemma formatSearchData_block models searchData digest m :
  formatSearchData models searchData = Returned digest -> m ∈ models ->
  exists block, formatModel searchData m = Returned block /\ contains digest block.
Proof.
  intros Hd Hm. apply formatSearchData_returned in Hd as (blocks & Hb & ->).
  destruct (Forall2_elem_l _ _ _ _ Hb Hm) as (block & Hin & Hblock).
  exists block. split; [exact Hblock | now apply contains_join].
Qed.

Lemma formatModel_item searchData m items i block :
  searchData !! m = Some items -> i ∈ take 4 items ->
  formatModel searchData m = Returned block ->
  contains block (formatItem i).
Proof.
  intros Hs Hi Hb. rewrite (formatModel_own _ _ _ Hs) in Hb.
  destruct items as [|i0 items]; [now apply elem_of_nil in Hi|].
  change (length (i0 :: items) =? 0)%nat with false in Hb. cbv iota in Hb.
  apply Returned_inj in Hb. subst block. do 3 apply contains_app_r.
  apply contains_join, list_elem_of_fmap. now exists i.
Qed.

Lemma formatModel_names_model searchData m block :
  formatModel searchData m = Returned block -> contains block (m ++ js "：").
Proof.
  assert (Hno : contains (m ++ js "：暂无摘要") (m ++ js "：")).
  { exists [], (js "暂无摘要").
    change (js "：暂无摘要") with (js "：" ++ js "暂无摘要").
    simpl. now rewrite <- !app_assoc. }
  destruct (searchData !! m) as [items|] eqn:Hs.
  - rewrite (formatModel_own _ _ _ Hs). intros H. apply Returned_inj in H.
    subst block. destruct (length items =? 0)%nat; [exact Hno|].
    exists [], (nl ++ join nl (map formatItem (take 4 items))).
    simpl. now rewrite <- !app_assoc.
  - rewrite (formatModel_absent _ _ Hs). case_bool_decide; [discriminate|].
    intros Hb. apply Returned_inj in Hb. now subst block.
Qed.

(** X5. The prompt sent for a validated request, once the digest of its
    search data is formatted, quotes the trimmed title between 「 and 」.
    When the request has products, the prompt names each of them (at most
    three, trimmed) and holds, for each, the line "- title：snippet" of every
    one of its first four snippets. *)
Theorem generate_prompt_carries_input
    readFileSync cwd env now network (body : GenerateRequest.t)
    (digest : jsstring) :
  validated body = true -> searchDigest body = Returned digest ->
  truthy_opt (apiKey env) = true ->
  exists call,
    snd (Generate.handle readFileSync cwd env now network (Returned body)) = [call]
    /\ (exists t, GenerateRequest.title body = Some t
          /\ includes (userContent call) (js "「" ++ trim t ++ js "」") = true)
    /\ (forall m, m ∈ requestModels body ->
          includes (userContent call) (m ++ js "：") = true)
    /\ (forall searchData m items i,
          GenerateRequest.searchData body = Some searchData ->
          m ∈ requestModels body -> searchData !! m = Some items ->
          i ∈ take 4 items ->
          includes (userContent call)
            (js "- " ++ SearchResultItem.title i ++ js "："
             ++ SearchResultItem.snippet i) = true).
Proof.
  intros Hv Hd Hk. exists (completionCall readFileSync cwd env body).
  split; [exact (generate_one_call _ _ _ _ _ body Hv digest Hd Hk)|].
  unfold completionCall. cbn [userContent].
  rewrite (userPrompt_formatted body digest Hd).
  assert (Hblock : forall m, m ∈ requestModels body ->
            hasModels body = true
            /\ exists block,
                 formatModel (default ∅ (GenerateRequest.searchData body)) m
                 = Returned block
                 /\ contains digest block).
  { intros m Hm.
    assert (Hh : hasModels body = true).
    { apply hasModels_spec. intros E. rewrite E in Hm. now apply elem_of_nil in Hm. }
    split; [exact Hh|]. unfold searchDigest in Hd. rewrite Hh in Hd.
    now apply (formatSearchData_block _ _ _ m Hd). }
  split; [|split].
  - pose proof (validated_title body Hv) as Ht. unfold requestTitle in *.
    destruct (GenerateRequest.title body) as [t|]; [|discriminate Ht].
    exists t. split; [reflexivity|]. apply includes_spec.
    apply buildPrompt_quotes_title.
  - intros m Hm. apply includes_spec.
    destruct (Hblock m Hm) as (Hh & block & Hb & Hc). rewrite Hh.
    eapply contains_trans; [apply productPrompt_digest|].
    eapply contains_trans; [exact Hc|].
    now apply (formatModel_names_model _ _ _ Hb).
  - intros sd m items i Hsd Hm Hitems Hi. apply includes_spec.
    destruct (Hblock m Hm) as (Hh & block & Hb & Hc). rewrite Hh.
    rewrite Hsd in Hb. simpl default in Hb.
    eapply contains_trans; [apply productPrompt_digest|].
    eapply contains_trans; [exact Hc|].
    now apply (formatModel_item sd m items i block).
Qed.

Lemma generate_prompt_carries_input_witness :
  exists call,
    snd (Generate.handle Examples.onlyDiscussion (js "/app") Examples.keyOnly
           Examples.timestamp Examples.silent (Returned Examples.oneProduct))
    = [call]
    /\ includes (userContent call) (js "「吹风机怎么选」") = true
    /\ includes (userContent call) (js "- t4：s4") = true.
Proof.
  destruct (generate_prompt_carries_input Examples.onlyDiscussion (js "/app")
              Examples.keyOnly Examples.timestamp Examples.silent
              Examples.oneProduct
              (lines [js "A："; js "- t1：s1"; js "- t2：s2"; js "- t3：s3";
                      js "- t4：s4"]))
    as [call [Hlog [[t [Ht Htitle]] [_ Hitem]]]].
  - vm_compute. reflexivity.
  - vm_compute. reflexivity.
  - vm_compute. reflexivity.
  - exists call. split; [exact Hlog|]. split.
    + injection Ht as <-. exact Htitle.
    + apply (Hitem Examples.fiveSnippets (js "A")
               [Examples.snip "t1" "s1"; Examples.snip "t2" "s2";
                Examples.snip "t3" "s3"; Examples.snip "t4" "s4";
                Examples.snip "t5" "s5"]
               (Examples.snip "t4" "s4")).
      * reflexivity.
      * vm_compute. apply list_elem_of_here.
      * vm_compute. reflexivity.
      * do 3 apply list_elem_of_further. apply list_elem_of_here.
Defined.

(** ** Splitting and the structure frameworks *)

Section SplitFacts.

Variable sep : jsstring.
Hypothesis sep_nonempty : sep <> [].

Implicit Types s p R : jsstring.

Lemma splitFrom_nonempty k s : splitFrom sep k s <> [].
Proof.
  revert k. induction s as [|c s IH]; intros k; simpl; [discriminate|].
  destruct k; [|apply IH].
  destruct (startsWith (c :: s) sep); [discriminate|].
  destruct (splitFrom sep 0 s); discriminate.
Qed.

Lemma splitFrom_skip (t : jsstring) s :
  splitFrom sep (length t) (t ++ s) = splitFrom sep 0 s.
Proof. induction t as [|c t IH]; [reflexivity | exact IH]. Qed.

Lemma join_cons_head c p (ps : list jsstring) :
  join sep ((c :: p) :: ps) = c :: join sep (p :: ps).
Proof. destruct ps; reflexivity. Qed.

(** Joining the pieces gives the string back. *)
Lemma join_splitFrom k s : join sep (splitFrom sep k s) = drop k s.
Proof.
  revert k. induction s as [|c s IH]; intros k.
  - now destruct k.
  - destruct k as [|k]; [|apply IH]. cbn [splitFrom drop].
    destruct (startsWith (c :: s) sep) eqn:Hs.
    + apply startsWith_spec in Hs as [post Hs].
      rewrite join_cons by apply splitFrom_nonempty. rewrite IH.
      destruct sep as [|c0 sep']; [congruence|]. simpl in Hs.
      injection Hs as -> ->. cbn [length Nat.sub app].
      rewrite Nat.sub_0_r, drop_app_length. reflexivity.
    + pose proof (IH 0%nat) as H. cbn [drop] in H.
      destruct (splitFrom sep 0 s) as [|p ps] eqn:E.
      * now apply splitFrom_nonempty in E.
      * now rewrite join_cons_head, H.
Qed.

Lemma join_split s : join sep (split sep s) = s.
Proof. apply (join_splitFrom 0). Qed.

Lemma startsWith_prefix s t pat :
  startsWith s pat = true -> startsWith (s ++ t) pat = true.
Proof.
  rewrite !startsWith_spec. intros [post ->]. exists (post ++ t).
  now rewrite <- app_assoc.
Qed.

Lemma includes_nil_sep : includes [] sep = false.
Proof. destruct sep; [congruence | reflexivity]. Qed.

(** No piece contains the separator. *)
Lemma splitFrom_pieces_free k s p :
  p ∈ splitFrom sep k s -> includes p sep = false.
Proof.
  revert k p. induction s as [|c s IH]; intros k p Hp.
  - simpl in Hp. apply list_elem_of_singleton in Hp as ->. apply includes_nil_sep.
  - destruct k as [|k]; [|now apply (IH k)]. cbn [splitFrom] in Hp.
    destruct (startsWith (c :: s) sep) eqn:Hs.
    + apply elem_of_cons in Hp as [-> | Hp]; [apply includes_nil_sep|].
      now apply (IH _ _ Hp).
    + pose proof (join_splitFrom 0 s) as Hj. cbn [drop] in Hj.
      destruct (splitFrom sep 0 s) as [|q qs] eqn:E.
      * now apply splitFrom_nonempty in E.
      * apply elem_of_cons in Hp as [-> | Hp].
        -- cbn [includes]. rewrite (IH 0%nat q) by (rewrite E; apply list_elem_of_here).
           rewrite orb_false_r.
           destruct (startsWith (c :: q) sep) eqn:Hq; [|reflexivity].
           assert (Hpre : exists x, s = q ++ x).
           { destruct qs as [|q' qs'].
             - exists []. now rewrite app_nil_r.
             - rewrite join_cons in Hj by discriminate. eexists. symmetry. exact Hj. }
           destruct Hpre as [x ->].
           apply (startsWith_prefix _ x) in Hq. simpl app in Hq. congruence.
        -- apply (IH 0%nat). rewrite E. now apply list_elem_of_further.
Qed.

Lemma startsWith_take pat s :
  startsWith (take (length pat) s) pat = startsWith s pat.
Proof.
  revert s. induction pat as [|q pat IH]; intros s; [reflexivity|].
  destruct s as [|c s]; simpl; [reflexivity|]. now rewrite IH.
Qed.

Lemma startsWith_app_take (a b pat : jsstring) :
  startsWith (a ++ b) pat
  = startsWith (a ++ take (length pat - length a) b) pat.
Proof.
  revert a. induction pat as [|q pat IH]; intros a; [reflexivity|].
  destruct a as [|c a].
  - symmetry. exact (startsWith_take (q :: pat) b).
  - simpl. now rewrite IH.
Qed.

Let partial := almost sep.

Lemma startsWith_before_sep (x R : jsstring) :
  x <> [] -> startsWith (x ++ sep ++ R) sep = startsWith (x ++ partial) sep.
Proof.
  intros Hx. rewrite (startsWith_app_take x (sep ++ R)).
  rewrite (startsWith_app_take x partial). f_equal. f_equal.
  unfold partial, almost. rewrite take_take, take_app_le by lia.
  f_equal. destruct x; [congruence|]. simpl. lia.
Qed.

Lemma includes_app_false s t pat :
  includes (s ++ t) pat = false -> includes t pat = false.
Proof.
  rewrite !includes_false. intros H Hc. apply H. now apply contains_app_r.
Qed.

Lemma splitFrom_piece p R :
  includes (p ++ partial) sep = false ->
  splitFrom sep 0 (p ++ sep ++ R) = p :: splitFrom sep 0 R.
Proof.
  induction p as [|c p IH]; intros H.
  - assert (Hsep : exists c0 sep', sep = c0 :: sep')
      by (destruct sep; [congruence | eauto]).
    destruct Hsep as [c0 [sep' E]]. simpl app. rewrite E at 2.
    simpl app. cbn [splitFrom].
    assert (Hs : startsWith (c0 :: sep' ++ R) sep = true).
    { apply startsWith_spec. exists R. now rewrite E. }
    rewrite Hs. f_equal.
    replace (length sep - 1)%nat with (length sep') by (rewrite E; simpl; lia).
    apply splitFrom_skip.
  - simpl app. cbn [splitFrom].
    simpl app in H. cbn [includes] in H. apply orb_false_iff in H as [Hs Hi].
    change (c :: p ++ sep ++ R) with ((c :: p) ++ sep ++ R).
    rewrite startsWith_before_sep by discriminate. simpl app. rewrite Hs.
    now rewrite IH.
Qed.

Lemma splitFrom_last p : includes p sep = false -> splitFrom sep 0 p = [p].
Proof.
  induction p as [|c p IH]; intros H; [reflexivity|].
  cbn [splitFrom]. cbn [includes] in H. apply orb_false_iff in H as [Hs Hi].
  now rewrite Hs, IH.
Qed.

(** Splitting a joined list gives the list back. *)
Lemma split_join (pieces : list jsstring) :
  pieces <> [] ->
  (forall p, p ∈ pieces -> includes (p ++ partial) sep = false) ->
  split sep (join sep pieces) = pieces.
Proof.
  unfold split. induction pieces as [|p pieces IH]; intros Hne H; [congruence|].
  destruct pieces as [|q pieces].
  - simpl. apply splitFrom_last.
    assert (Hp := H p (list_elem_of_here _ _)).
    rewrite includes_false in *. intros Hc. apply Hp. now apply contains_app_l.
  - rewrite join_cons by discriminate.
    rewrite splitFrom_piece by apply H, list_elem_of_here.
    f_equal. apply IH; [discriminate|].
    intros p' Hp'. apply H. now apply list_elem_of_further.
Qed.

End SplitFacts.

Section Frameworks.

Let heading_nonempty : heading <> [].
Proof. discriminate. Qed.

Let nl_nonempty : nl <> [].
Proof. discriminate. Qed.

(** An occurrence cannot end in a text that lacks its last code unit. *)
Lemma contains_app_last (p t F' : jsstring) (fl : N) :
  fl ∉ t -> contains (p ++ t) (F' ++ [fl]) -> contains p (F' ++ [fl]).
Proof.
  intros Hfl [pre [post H]]. rewrite (app_assoc pre) in H.
  apply app_eq_inv in H as [[k [Hp Hpost]] | [k [Hpre Ht]]].
  - exists pre, k. now rewrite Hp, <- app_assoc.
  - destruct k as [|x k' _] using rev_ind.
    + exists pre, []. rewrite !app_nil_r in *. now rewrite <- Hpre.
    + exfalso. apply Hfl. rewrite !app_assoc in Hpre.
      apply app_inj_tail in Hpre as [_ <-].
      rewrite Ht. apply elem_of_app. left. apply elem_of_app. right.
      apply list_elem_of_here.
Qed.

Lemma heading_after_piece (p : jsstring) :
  includes p heading = false -> includes (p ++ almost heading) heading = false.
Proof.
  rewrite !includes_false. intros H Hc. apply H.
  apply (contains_app_last p (almost heading) (nl ++ js "##") 32); [|exact Hc].
  vm_compute. intros Hin.
  repeat (apply elem_of_cons in Hin as [Hin|Hin]; [discriminate Hin|]).
  now apply elem_of_nil in Hin.
Qed.

Lemma join_as_concat sep x (l : list jsstring) :
  join sep (x :: l) = x ++ concat (map (app sep) l).
Proof.
  revert x. induction l as [|y l IH]; intros x.
  - simpl. now rewrite app_nil_r.
  - rewrite join_cons by discriminate. rewrite IH. simpl. now rewrite <- app_assoc.
Qed.

Lemma contains_after_first sep (l : list jsstring) x :
  x ∈ drop 1 l -> contains (join sep l) (sep ++ x).
Proof.
  destruct l as [|y l]; cbn [drop]; [intros H; now apply elem_of_nil in H|].
  intros Hx. rewrite join_as_concat. apply contains_app_r.
  induction l as [|z l IH]; [now apply elem_of_nil in Hx|].
  simpl. apply elem_of_cons in Hx as [-> | Hx].
  - apply contains_app_l, contains_refl.
  - now apply contains_app_r, IH.
Qed.

Lemma parseSection_rendered (f : Framework.t) :
  Framework.title f <> [] -> includes (Framework.title f) nl = false ->
  parseSection (Framework.title f ++ nl ++ Framework.content f) = Some f.
Proof.
  intros Hne Hnl. unfold parseSection, split.
  rewrite (splitFrom_piece nl nl_nonempty)
    by (change (almost nl) with (@nil N); now rewrite app_nil_r).
  apply truthy_true in Hne. rewrite Hne. simpl negb. cbv iota.
  fold (split nl (Framework.content f)). rewrite (join_split nl nl_nonempty).
  now destruct f.
Qed.

Lemma parseSection_inv (section : jsstring) (f : Framework.t) :
  parseSection section = Some f ->
  Framework.title f <> [] /\ includes (Framework.title f) nl = false
  /\ (section = Framework.title f
      \/ section = Framework.title f ++ nl ++ Framework.content f).
Proof.
  unfold parseSection. intros H.
  pose proof (join_split nl nl_nonempty section) as Hj.
  pose proof (splitFrom_pieces_free nl nl_nonempty 0 section) as Hfree.
  fold (split nl section) in Hfree.
  destruct (split nl section) as [|title rest]; [discriminate H|].
  destruct (truthy title) eqn:Ht; [|discriminate H]. simpl in H.
  injection H as <-. cbn [Framework.title Framework.content].
  split; [now apply truthy_true|]. split; [apply Hfree, list_elem_of_here|].
  destruct rest as [|r rest]; [left; now rewrite <- Hj|].
  right. rewrite <- Hj. now rewrite join_cons by discriminate.
Qed.

(** A heading on the first line follows no line break and is not read. *)
Example parseStructureFrameworks_first_line :
  parseStructureFrameworks (js "## 总分总" ++ nl ++ js "先结论后展开") = [].
Proof. vm_compute. reflexivity. Qed.

(** X6. [parseStructureFrameworks] reads a framework only from a heading
    that follows a line break: a text in which "## " never follows a line
    break has no framework, even when its first line is a heading.  Every
    framework it returns has a non-empty title on one line, stands in the text
    as a line break, "## " and that title, and its content holds no further
    heading. *)
Theorem parseStructureFrameworks_headings (content : jsstring) :
  (includes content heading = false -> parseStructureFrameworks content = [])
  /\ (forall f, f ∈ parseStructureFrameworks content ->
        Framework.title f <> []
        /\ includes (Framework.title f) nl = false
        /\ includes content (heading ++ Framework.title f) = true
        /\ includes (Framework.content f) heading = false).
Proof.
  split.
  - intros H. unfold parseStructureFrameworks.
    destruct (truthy content); [|reflexivity]. simpl negb. cbv iota.
    unfold split. now rewrite (splitFrom_last heading).
  - intros f Hf. unfold parseStructureFrameworks in Hf.
    destruct (truthy content); [|now apply elem_of_nil in Hf].
    simpl negb in Hf. cbv iota in Hf.
    apply list_elem_of_omap in Hf as [section [Hs Hp]].
    assert (Hin : section ∈ split heading content).
    { destruct (split heading content); [exact Hs|].
      simpl in Hs. rewrite drop_0 in Hs. now apply list_elem_of_further. }
    pose proof (splitFrom_pieces_free heading heading_nonempty 0 content section Hin)
      as Hfree.
    pose proof (contains_after_first heading _ _ Hs) as Hc.
    rewrite (join_split heading heading_nonempty) in Hc.
    destruct (parseSection_inv section f Hp) as [Hne [Hnl Hsec]].
    split; [exact Hne|]. split; [exact Hnl|]. split.
    + apply includes_spec. eapply contains_trans; [exact Hc|].
      destruct Hsec as [-> | ->].
      * apply contains_refl.
      * exists [], (nl ++ Framework.content f). cbn [app]. now rewrite <- app_assoc.
    + destruct Hsec as [Hsec | Hsec].
      * pose proof (join_split nl nl_nonempty section) as Hj.
        unfold parseSection in Hp. rewrite Hsec in Hp, Hj.
        destruct (split nl (Framework.title f)) as [|t rest] eqn:E;
          [discriminate Hp|].
        destruct (negb (truthy t)); [discriminate Hp|]. injection Hp as Hp.
        rewrite <- Hp in *. cbn [Framework.title Framework.content] in *.
        destruct rest as [|r rest]; [reflexivity|].
        exfalso. rewrite join_cons in Hj by discriminate.
        apply (f_equal length) in Hj. rewrite !length_app in Hj. simpl in Hj. lia.
      * rewrite Hsec in Hfree. apply includes_app_false in Hfree.
        now apply includes_app_false in Hfree.
Qed.

(** X7. Reading back a rules text: a text made of a preamble without
    heading followed by frameworks, each written as a line break, "## ", its
    title, a line break and its content, parses into those frameworks, in
    order, when every title is non-empty and on one line and no section holds
    a heading of its own. *)
Theorem parseStructureFrameworks_rendered
    (preamble : jsstring) (frameworks : list Framework.t) :
  includes preamble heading = false ->
  (forall f, f ∈ frameworks ->
     Framework.title f <> [] /\ includes (Framework.title f) nl = false
     /\ includes (Framework.title f ++ nl ++ Framework.content f) heading = false) ->
  parseStructureFrameworks (preamble ++ concat (map renderFramework frameworks))
  = frameworks.
Proof.
  intros Hpre Hfs.
  set (sections := map (fun f => Framework.title f ++ nl ++ Framework.content f)
                     frameworks).
  assert (Htext : preamble ++ concat (map renderFramework frameworks)
                  = join heading (preamble :: sections)).
  { rewrite join_as_concat. f_equal. f_equal. unfold sections.
    rewrite map_map. reflexivity. }
  rewrite Htext. unfold parseStructureFrameworks.
  destruct (truthy (join heading (preamble :: sections))) eqn:Ht.
  2: { apply truthy_false in Ht. rewrite join_as_concat in Ht.
       apply app_eq_nil in Ht as [_ Ht]. unfold sections in Ht.
       destruct frameworks; [reflexivity|]. discriminate Ht. }
  simpl negb. cbv iota.
  rewrite (split_join heading heading_nonempty); [|discriminate|].
  - simpl. rewrite drop_0. unfold sections.
    clear Htext Ht sections. induction frameworks as [|f fs IH]; [reflexivity|].
    simpl. destruct (Hfs f (list_elem_of_here _ _)) as [Hne [Hnl _]].
    rewrite parseSection_rendered by assumption. f_equal.
    apply IH. intros f' Hf'. apply Hfs. now apply list_elem_of_further.
  - intros p Hp. apply heading_after_piece.
    apply elem_of_cons in Hp as [-> | Hp]; [exact Hpre|].
    unfold sections in Hp. apply list_elem_of_fmap in Hp as [f [-> Hf]].
    now apply Hfs.
Qed.

Lemma parseStructureFrameworks_rendered_witness :
  parseStructureFrameworks
    (js "# 结构规则" ++ concat (map renderFramework Examples.twoFrameworks))
  = Examples.twoFrameworks.
Proof.
  apply parseStructureFrameworks_rendered.
  - vm_compute. reflexivity.
  - intros f Hf. unfold Examples.twoFrameworks in Hf.
    apply elem_of_cons in Hf as [-> | Hf].
    { repeat split; [discriminate | vm_compute; reflexivity ..]. }
    apply elem_of_cons in Hf as [-> | Hf].
    { repeat split; [discriminate | vm_compute; reflexivity ..]. }
    now apply elem_of_nil in Hf.
Defined.

End Frameworks.

(** ** The search handler as a whole *)

Section SearchWhole.

Import Search.

Variable SERPSTACK_API_KEY : option jsstring.
Variable network : jsstring -> JsResult (FetchResponse SerpData).

Let query := querySerpstack SERPSTACK_API_KEY network.
Let respond := Search.handle SERPSTACK_API_KEY network.
Let url := Search.url SERPSTACK_API_KEY.

(** What the search client did when it returns results. *)
Lemma querySerpstack_some_inv (model : jsstring) (log log' : list jsstring)
    (results : list SearchResultItem) :
  query model log = (Returned (Some results), log') ->
  exists q res data organic,
    encodeURIComponent model = Returned q
    /\ network (url q) = Returned res /\ ok res = true
    /\ json res = Returned data /\ error data = None
    /\ organic_results data = Some organic /\ organic <> []
    /\ results = normalized organic /\ log' = log ++ [url q].
Proof.
  unfold query, querySerpstack, Search.fetch. run_effects. fold url.
  destruct (encodeURIComponent model) as [q|e]; [|discriminate].
  destruct (network (url q)) as [res|e] eqn:Hn; [|discriminate].
  destruct (ok res) eqn:Hok; cbn [negb]; cbv beta iota.
  2: { destruct (text res); discriminate. }
  destruct (json res) as [data|e] eqn:Hj; [|discriminate].
  destruct (error data) eqn:He; [discriminate|].
  destruct (organic_results data) as [organic|] eqn:Ho; simpl default;
    [|discriminate].
  destruct organic as [|raw organic]; [discriminate|]. cbn [length Nat.eqb].
  intros H. injection H as <- <-.
  exists q, res, data, (raw :: organic). repeat split; try assumption.
  discriminate.
Qed.

(** The client asks the provider at most once. *)
Lemma querySerpstack_log (model : jsstring) (log : list jsstring) :
  snd (query model log) = log
  \/ exists q, encodeURIComponent model = Returned q
               /\ snd (query model log) = log ++ [url q].
Proof.
  unfold query, querySerpstack, Search.fetch. run_effects. fold url.
  destruct (encodeURIComponent model) as [q|e]; [|now left].
  right. exists q. split; [reflexivity|].
  destruct (network (url q)) as [res|e]; [|reflexivity].
  destruct (ok res); cbn [negb]; cbv beta iota.
  - destruct (json res) as [data|e]; [|reflexivity].
    destruct (error data); [reflexivity|].
    destruct (length (default [] (organic_results data)) =? 0)%nat; reflexivity.
  - destruct (text res); reflexivity.
Qed.

Lemma search_handle_configured (body : SearchRequestBody) :
  truthy_opt (requestedModel body) = true ->
  truthy_opt SERPSTACK_API_KEY = true ->
  respond (Returned body)
  = match query (default [] (requestedModel body)) [] with
    | (Returned (Some (r :: results)), log) =>
        (Returned (Response_json
                     (ResultsPayload (default [] (requestedModel body))
                        (r :: results)) 200), log)
    | (_, log) =>
        (Returned (Response_json
                     (ErrorPayload (js "未能获取搜索结果，请稍后再试")) 502), log)
    end.
Proof.
  intros H Hk. unfold respond, Search.handle, Search.POST. run_effects.
  fold (requestedModel body). rewrite H, Hk. cbn [negb]. cbv beta iota.
  fold query.
  destruct (querySerpstack_returns SERPSTACK_API_KEY network
              (default [] (requestedModel body)) []) as [found Hfound].
  fold query in Hfound.
  destruct (query (default [] (requestedModel body)) []) as [r log'].
  simpl in Hfound. subst r. destruct found as [[|r results]|]; reflexivity.
Qed.

End SearchWhole.

(** X8. The search handler never throws: every request is answered, with
    status 200, 400, 401, 500 or 502.  It asks the provider at most once, and
    not at all when it answers 400, 401 or 500. *)
Theorem search_always_answers
    (SERPSTACK_API_KEY : option jsstring)
    (network : jsstring -> JsResult (FetchResponse Search.SerpData))
    (request_json : JsResult Search.SearchRequestBody) :
  let result := Search.handle SERPSTACK_API_KEY network request_json in
  exists r,
    fst result = Returned r
    /\ (responseStatus r = 200 \/ responseStatus r = 400
        \/ responseStatus r = 401 \/ responseStatus r = 500
        \/ responseStatus r = 502)
    /\ (length (snd result) <= 1)%nat
    /\ (responseStatus r = 400 \/ responseStatus r = 401
        \/ responseStatus r = 500 -> snd result = []).
Proof.
  cbv zeta. destruct request_json as [body|e].
  2: { rewrite search_unreadable_body. eexists. split; [reflexivity|].
       cbn [snd responseStatus Response_json].
       destruct (includes _ _ || includes _ _); repeat split; auto. }
  destruct (truthy_opt (requestedModel body)) eqn:Hm.
  2: { rewrite (search_empty_model _ _ body Hm). eexists.
       split; [reflexivity|]. simpl. repeat split; auto. }
  destruct (truthy_opt SERPSTACK_API_KEY) eqn:Hk.
  2: { rewrite (search_no_credential _ _ body Hm Hk). eexists.
       split; [reflexivity|]. simpl. repeat split; auto 6. }
  rewrite (search_handle_configured _ _ body Hm Hk).
  pose proof (querySerpstack_log SERPSTACK_API_KEY network
                (default [] (requestedModel body)) []) as Hlog.
  destruct (Search.querySerpstack SERPSTACK_API_KEY network
              (default [] (requestedModel body)) []) as [found log].
  assert (Hlen : (length log <= 1)%nat).
  { simpl in Hlog. destruct Hlog as [-> | [q [_ ->]]]; simpl; lia. }
  destruct found as [[[|r results]|]|e]; eexists; (split; [reflexivity|]);
    cbn [snd responseStatus Response_json]; repeat split; auto 6;
    intros [H|[H|H]]; discriminate H.
Qed.

(** X9. A 200 answer of the search handler carries the trimmed, non-empty
    model name and at least one result; the results are the provider's
    complete entries in their order, each with a non-empty title, snippet
    and link and the source "serpstack"; and the one request made went to the
    search URL for the encoded model name. *)
Theorem search_success_results
    (SERPSTACK_API_KEY : option jsstring)
    (network : jsstring -> JsResult (FetchResponse Search.SerpData))
    (body : Search.SearchRequestBody)
    (model : jsstring) (results : list Search.SearchResultItem) :
  fst (Search.handle SERPSTACK_API_KEY network (Returned body))
  = Returned (Response_json (Search.ResultsPayload model results) 200) ->
  (exists raw, Search.model body = Some raw /\ model = trim raw)
  /\ model <> [] /\ results <> []
  /\ (forall item, item ∈ results ->
        Search.title item <> [] /\ Search.snippet item <> []
        /\ Search.link item <> [] /\ Search.source item = js "serpstack")
  /\ exists q organic,
       Search.encodeURIComponent model = Returned q
       /\ snd (Search.handle SERPSTACK_API_KEY network (Returned body))
          = [Search.url SERPSTACK_API_KEY q]
       /\ (exists res data,
             network (Search.url SERPSTACK_API_KEY q) = Returned res
             /\ json res = Returned data
             /\ Search.organic_results data = Some organic)
       /\ results = Search.normalized organic.
Proof.
  intros H.
  destruct (truthy_opt (requestedModel body)) eqn:Hm.
  2: { rewrite (search_empty_model _ _ body Hm) in H. discriminate H. }
  destruct (truthy_opt SERPSTACK_API_KEY) eqn:Hk.
  2: { rewrite (search_no_credential _ _ body Hm Hk) in H. discriminate H. }
  rewrite (search_handle_configured _ _ body Hm Hk) in *.
  destruct (Search.querySerpstack SERPSTACK_API_KEY network
              (default [] (requestedModel body)) []) as [found log] eqn:Hq.
  destruct found as [[[|r rs]|]|e]; try discriminate H.
  simpl in H. injection H as <- <-.
  apply querySerpstack_some_inv in Hq
    as [q [res [data [organic [Henc [Hn [Hok [Hj [He [Ho [Hne [Hr ->]]]]]]]]]]]].
  unfold requestedModel in *.
  destruct (Search.model body) as [raw|]; [|discriminate Hm]. simpl in *.
  split; [now exists raw|]. split; [now apply truthy_true|].
  split; [discriminate|]. split.
  - intros item Hitem. rewrite Hr in Hitem.
    apply elem_of_normalized in Hitem as [raw' [_ [Hc ->]]].
    destruct (complete_fields raw' Hc) as [t [s [u [Ht [Hs [Hu [Nt [Ns Nu]]]]]]]].
    unfold Search.normalize. simpl. rewrite Ht, Hs, Hu. simpl. auto.
  - exists q, organic. repeat split; try assumption. now exists res, data.
Qed.

Lemma search_success_results_witness :
  (exists raw,
     Search.model {| Search.model := Some (js " AirPods 4 ") |} = Some raw
     /\ js "AirPods 4" = trim raw)
  /\ js "AirPods 4" <> []
  /\ replicate 11 (Search.normalize Examples.rawHit) <> [].
Proof.
  destruct (search_success_results (Some (js "key")) Examples.elevenHits
              {| Search.model := Some (js " AirPods 4 ") |}
              (js "AirPods 4") (replicate 11 (Search.normalize Examples.rawHit)))
    as [H1 [H2 [H3 _]]].
  - vm_compute. reflexivity.
  - repeat split; assumption.
Defined.

Lemma normalized_none (organic : list Search.Raw.t) :
  (forall raw, raw ∈ organic -> Search.complete raw = false) ->
  Search.normalized organic = [].
Proof.
  unfold Search.normalized. induction organic as [|x l IH]; intros H;
    [reflexivity|].
  simpl. rewrite (H x) by apply list_elem_of_here. apply IH.
  intros y Hy. apply H. now apply list_elem_of_further.
Qed.

(** X10. A provider answer none of whose results has a title, a snippet
    and a link is answered 502, as is an answer with no result at all. *)
Theorem search_all_incomplete
    (SERPSTACK_API_KEY : option jsstring)
    (network : jsstring -> JsResult (FetchResponse Search.SerpData))
    (body : Search.SearchRequestBody) (q : jsstring)
    (res : FetchResponse Search.SerpData) (data : Search.SerpData)
    (organic : list Search.Raw.t) :
  truthy_opt (requestedModel body) = true ->
  truthy_opt SERPSTACK_API_KEY = true ->
  Search.encodeURIComponent (default [] (requestedModel body)) = Returned q ->
  network (Search.url SERPSTACK_API_KEY q) = Returned res -> ok res = true ->
  json res = Returned data -> Search.error data = None ->
  Search.organic_results data = Some organic ->
  (forall raw, raw ∈ organic -> Search.complete raw = false) ->
  Search.handle SERPSTACK_API_KEY network (Returned body)
  = (Returned (Response_json
                 (Search.ErrorPayload (js "未能获取搜索结果，请稍后再试")) 502),
     [Search.url SERPSTACK_API_KEY q]).
Proof.
  intros Hm Hk Henc Hn Hok Hj He Ho Hall.
  rewrite (search_handle_configured _ _ body Hm Hk).
  destruct organic as [|raw organic].
  - rewrite (querySerpstack_no_results _ _ _ q [] Henc res data Hn Hok Hj He)
      by (now right). reflexivity.
  - rewrite (querySerpstack_results _ _ _ q [] Henc res data (raw :: organic)
               Hn Hok Hj He Ho) by discriminate.
    rewrite (normalized_none (raw :: organic) Hall). reflexivity.
Qed.

Lemma search_all_incomplete_witness :
  Search.handle (Some (js "key")) Examples.bareHits
    (Returned {| Search.model := Some (js " AirPods 4 ") |})
  = (Returned (Response_json
                 (Search.ErrorPayload (js "未能获取搜索结果，请稍后再试")) 502),
     [Search.url (Some (js "key")) (js "AirPods%204")]).
Proof.
  refine (search_all_incomplete (Some (js "key")) Examples.bareHits
            {| Search.model := Some (js " AirPods 4 ") |} (js "AirPods%204")
            Examples.bareAnswer
            {| Search.error := None;
               Search.organic_results := Some [Examples.bareHit; Examples.bareHit] |}
            [Examples.bareHit; Examples.bareHit] _ _ _ _ _ _ _ _ _);
    try (vm_compute; reflexivity).
  intros raw Hraw.
  apply elem_of_cons in Hraw as [-> | Hraw]; [reflexivity|].
  apply elem_of_cons in Hraw as [-> | Hraw]; [reflexivity|].
  now apply elem_of_nil in Hraw.
Defined.

(** ** The search URL *)

Section Encoding.

Import Search.

Ltac bool_to_prop :=
  repeat rewrite ?orb_true_iff, ?andb_true_iff, ?orb_false_iff, ?andb_false_iff,
    ?N.leb_le, ?N.leb_gt, ?N.eqb_eq, ?N.eqb_neq, ?N.ltb_lt, ?N.ltb_ge in *.

Lemma unreserved_not_surrogate (c : N) :
  unreserved c = true -> isHighSurrogate c = false /\ isLowSurrogate c = false.
Proof.
  unfold unreserved, isHighSurrogate, isLowSurrogate. intros H.
  bool_to_prop. lia.
Qed.

Lemma hexDigit_unreserved (n : N) : n < 16 -> unreserved (hexDigit n) = true.
Proof.
  intros H. unfold hexDigit, unreserved.
  destruct (n <? 10) eqn:E; bool_to_prop; lia.
Qed.

Lemma percent_safe (byte : N) :
  byte < 256 -> forall c, c ∈ percent byte -> urlSafe c = true.
Proof.
  intros H c Hc. unfold percent in Hc. unfold urlSafe.
  apply elem_of_cons in Hc as [-> | Hc]; [reflexivity|].
  apply elem_of_cons in Hc as [-> | Hc].
  { rewrite hexDigit_unreserved; [reflexivity|].
    rewrite N.shiftr_div_pow2. change (2 ^ 4) with 16.
    apply N.Div0.div_lt_upper_bound. lia. }
  apply elem_of_cons in Hc as [-> | Hc]; [|now apply elem_of_nil in Hc].
  rewrite hexDigit_unreserved; [reflexivity|].
  change 15 with (N.ones 4). rewrite N.land_ones. change (2 ^ 4) with 16.
  apply N.mod_lt. lia.
Qed.

Lemma lor_byte (a b : N) : a < 256 -> b < 256 -> N.lor a b < 256.
Proof.
  intros Ha Hb. destruct (N.eq_dec (N.lor a b) 0) as [-> | Hz]; [lia|].
  change 256 with (2 ^ 8). apply N.log2_lt_pow2; [lia|].
  rewrite N.log2_lor.
  assert (La : N.log2 a < 8).
  { destruct (N.eq_dec a 0) as [-> | Hn]; [reflexivity|].
    apply N.log2_lt_pow2; [lia | exact Ha]. }
  assert (Lb : N.log2 b < 8).
  { destruct (N.eq_dec b 0) as [-> | Hn]; [reflexivity|].
    apply N.log2_lt_pow2; [lia | exact Hb]. }
  lia.
Qed.

Lemma low_six (x : N) : N.lor 128 (N.land x 63) < 256.
Proof.
  apply lor_byte; [lia|]. change 63 with (N.ones 6). rewrite N.land_ones.
  change (2 ^ 6) with 64. pose proof (N.mod_lt x 64). lia.
Qed.

Lemma shifted_below (cp k bound : N) :
  cp < bound * 2 ^ k -> N.shiftr cp k < bound.
Proof.
  intros H. rewrite N.shiftr_div_pow2.
  apply N.Div0.div_lt_upper_bound. lia.
Qed.

Lemma utf8_bytes_are_bytes (cp : N) :
  cp < 2097152 -> forall b, b ∈ utf8_bytes cp -> b < 256.
Proof.
  intros H b Hb. unfold utf8_bytes in Hb.
  destruct (cp <? 128) eqn:E1.
  { apply list_elem_of_singleton in Hb as ->. apply N.ltb_lt in E1. lia. }
  destruct (cp <? 2048) eqn:E2.
  { apply N.ltb_lt in E2.
    apply elem_of_cons in Hb as [-> | Hb].
    - apply lor_byte; [lia|]. pose proof (shifted_below cp 6 32). lia.
    - apply list_elem_of_singleton in Hb as ->. apply low_six. }
  destruct (cp <? 65536) eqn:E3.
  { apply N.ltb_lt in E3.
    apply elem_of_cons in Hb as [-> | Hb].
    - apply lor_byte; [lia|]. pose proof (shifted_below cp 12 16). lia.
    - apply elem_of_cons in Hb as [-> | Hb]; [apply low_six|].
      apply list_elem_of_singleton in Hb as ->. apply low_six. }
  apply elem_of_cons in Hb as [-> | Hb].
  - apply lor_byte; [lia|]. pose proof (shifted_below cp 18 8). lia.
  - apply elem_of_cons in Hb as [-> | Hb]; [apply low_six|].
    apply elem_of_cons in Hb as [-> | Hb]; [apply low_six|].
    apply list_elem_of_singleton in Hb as ->. apply low_six.
Qed.

Lemma escaped_safe (cp : N) :
  cp < 2097152 -> forall c, c ∈ escaped cp -> urlSafe c = true.
Proof.
  intros H c Hc. unfold escaped in Hc.
  apply list_elem_of_In, in_concat in Hc as [piece [Hp Hc]].
  apply in_map_iff in Hp as [byte [<- Hbyte]].
  apply (percent_safe byte); [|now apply list_elem_of_In].
  apply (utf8_bytes_are_bytes cp); [exact H | now apply list_elem_of_In].
Qed.

(** The shape of the recursion of [encodeUnits]: one code unit, or a
    surrogate pair, at a time. *)
Lemma by_units_and_pairs (P : jsstring -> Prop) :
  P [] ->
  (forall c r, P r -> (forall d r', r = d :: r' -> P r') -> P (c :: r)) ->
  forall s, P s.
Proof.
  intros Hnil Hstep s.
  enough (H : P s /\ forall c, P (c :: s)) by apply H.
  induction s as [|d s [IH1 IH2]].
  - split; [exact Hnil|]. intros c. apply Hstep; [exact Hnil|]. discriminate.
  - split; [apply IH2|]. intros c. apply Hstep; [apply IH2|].
    intros d' r' E. injection E as <- <-. exact IH1.
Qed.

Lemma encodeUnits_safe (s : jsstring) :
  (forall c, c ∈ s -> c < 65536) ->
  forall e, encodeUnits s = Some e -> forall c, c ∈ e -> urlSafe c = true.
Proof.
  induction s as [|c r IH1 IH2] using by_units_and_pairs; intros H16 e He x Hx.
  - injection He as <-. now apply elem_of_nil in Hx.
  - assert (Hr : forall y, y ∈ r -> y < 65536)
      by (intros y Hy; apply H16; now apply list_elem_of_further).
    cbn [encodeUnits] in He. destruct (unreserved c) eqn:Eu.
    { destruct (encodeUnits r) as [e'|]; [|discriminate He].
      injection He as <-. apply elem_of_cons in Hx as [-> | Hx].
      - unfold urlSafe. now rewrite Eu.
      - now apply (IH1 Hr e'). }
    destruct (isHighSurrogate c) eqn:Eh.
    { destruct r as [|d r']; [discriminate He|].
      destruct (isLowSurrogate d) eqn:El; [|discriminate He].
      destruct (encodeUnits r') as [e'|] eqn:Er; [|discriminate He].
      injection He as <-. apply elem_of_app in Hx as [Hx | Hx].
      - apply (escaped_safe (65536 + (c - 55296) * 1024 + (d - 56320))); [|exact Hx].
        unfold isHighSurrogate, isLowSurrogate in *. bool_to_prop. lia.
      - apply (IH2 d r' eq_refl) with e'; [|exact Er|exact Hx].
        intros y Hy. apply Hr. now apply list_elem_of_further. }
    destruct (isLowSurrogate c); [discriminate He|].
    destruct (encodeUnits r) as [e'|]; [|discriminate He].
    injection He as <-. apply elem_of_app in Hx as [Hx | Hx].
    + apply (escaped_safe c); [|exact Hx].
      pose proof (H16 c (list_elem_of_here _ _)). lia.
    + now apply (IH1 Hr e').
Qed.

Lemma encodeUnits_unreserved (s : jsstring) :
  (forall c, c ∈ s -> unreserved c = true) -> encodeUnits s = Some s.
Proof.
  induction s as [|c s IH]; intros H; [reflexivity|].
  cbn [encodeUnits]. rewrite (H c) by apply list_elem_of_here.
  rewrite IH; [reflexivity|]. intros y Hy. apply H. now apply list_elem_of_further.
Qed.

(** [encodeURIComponent] throws exactly on a string with a lone surrogate. *)
Lemma encodeUnits_wellFormed (s : jsstring) :
  encodeUnits s = None <-> isWellFormed s = false.
Proof.
  induction s as [|c r IH1 IH2] using by_units_and_pairs.
  - split; discriminate.
  - cbn [encodeUnits isWellFormed]. destruct (unreserved c) eqn:Eu.
    { destruct (unreserved_not_surrogate c Eu) as [-> ->]. cbv iota.
      rewrite <- IH1. destruct (encodeUnits r); cbn [option_map]; split;
        intros H; try discriminate H; reflexivity. }
    destruct (isHighSurrogate c).
    { destruct r as [|d r']; [split; reflexivity|].
      destruct (isLowSurrogate d); [|split; reflexivity].
      simpl andb. rewrite <- (IH2 d r' eq_refl).
      destruct (encodeUnits r'); cbn [option_map]; split;
        intros H; try discriminate H; reflexivity. }
    destruct (isLowSurrogate c); [split; reflexivity|].
    rewrite <- IH1. destruct (encodeUnits r); cbn [option_map]; split;
      intros H; try discriminate H; reflexivity.
Qed.

End Encoding.

Lemma elem_of_trimStart (c : N) (s : jsstring) : c ∈ trimStart s -> c ∈ s.
Proof.
  induction s as [|x s IH]; [easy|]. cbn [trimStart].
  destruct (isWhiteSpace x); [|easy].
  intros H. apply list_elem_of_further. now apply IH.
Qed.

Lemma elem_of_trim (c : N) (s : jsstring) : c ∈ trim s -> c ∈ s.
Proof.
  unfold trim, trimEnd. intros H.
  apply list_elem_of_In, in_rev, list_elem_of_In, elem_of_trimStart in H.
  apply list_elem_of_In, in_rev, list_elem_of_In in H.
  now apply elem_of_trimStart.
Qed.

Lemma encodeURIComponent_wellFormed (s : jsstring) :
  isWellFormed s = true ->
  exists q, Search.encodeURIComponent s = Returned q.
Proof.
  intros H. unfold Search.encodeURIComponent.
  destruct (Search.encodeUnits s) as [q|] eqn:E; [now exists q|].
  apply encodeUnits_wellFormed in E. congruence.
Qed.

Lemma encodeURIComponent_malformed (s : jsstring) :
  isWellFormed s = false ->
  Search.encodeURIComponent s
  = Threw (ThrownError (js "URIError") (js "URI malformed")).
Proof.
  intros H. unfold Search.encodeURIComponent.
  apply encodeUnits_wellFormed in H. now rewrite H.
Qed.

Lemma isWellFormed_truthy (s : jsstring) : isWellFormed s = false -> truthy s = true.
Proof. now destruct s. Qed.

(** X11. For a readable body the search handler asks the provider exactly
    when the trimmed model name is non-empty, the credential is configured
    and the name is well-formed UTF-16; it then makes one request, to the
    search URL for the percent-encoded name.  A name with a lone surrogate
    is answered 502 without any request. *)
Theorem search_asks_provider_iff
    (SERPSTACK_API_KEY : option jsstring)
    (network : jsstring -> JsResult (FetchResponse Search.SerpData))
    (body : Search.SearchRequestBody) :
  let model := default [] (requestedModel body) in
  let result := Search.handle SERPSTACK_API_KEY network (Returned body) in
  (snd result <> []
   <-> model <> [] /\ truthy_opt SERPSTACK_API_KEY = true
       /\ isWellFormed model = true)
  /\ (snd result <> [] ->
      exists q, Search.encodeURIComponent model = Returned q
                /\ snd result = [Search.url SERPSTACK_API_KEY q])
  /\ (truthy_opt SERPSTACK_API_KEY = true -> isWellFormed model = false ->
      result
      = (Returned (Response_json
                     (Search.ErrorPayload (js "未能获取搜索结果，请稍后再试")) 502),
         [])).
Proof.
  cbv zeta.
  destruct (truthy_opt (requestedModel body)) eqn:Hm.
  2: { rewrite (search_empty_model _ _ body Hm). cbn [snd].
       assert (Hnil : default [] (requestedModel body) = []).
       { destruct (requestedModel body) as [m|]; [|reflexivity].
         now apply truthy_false. }
       rewrite Hnil. repeat split; try easy; try (now intros [? _]). }
  assert (Hne : default [] (requestedModel body) <> []).
  { destruct (requestedModel body) as [m|]; [|discriminate Hm].
    now apply truthy_true. }
  destruct (truthy_opt SERPSTACK_API_KEY) eqn:Hk.
  2: { rewrite (search_no_credential _ _ body Hm Hk). cbn [snd].
       repeat split; try easy; try (now intros [_ [? _]]). }
  rewrite (search_handle_configured _ _ body Hm Hk).
  destruct (isWellFormed (default [] (requestedModel body))) eqn:Hw.
  - destruct (encodeURIComponent_wellFormed _ Hw) as [q Hq].
    destruct (querySerpstack_log SERPSTACK_API_KEY network
                (default [] (requestedModel body)) []) as [Hlog | [q' [Hq' Hlog]]].
    + exfalso. revert Hlog.
      unfold Search.querySerpstack, Search.fetch. run_effects. rewrite Hq.
      cbv beta iota.
      destruct (network _) as [res|e]; [|discriminate].
      destruct (ok res); cbn [negb]; cbv beta iota.
      * destruct (json res) as [data|e]; [|discriminate].
        destruct (Search.error data); [discriminate|].
        destruct (length (default [] (Search.organic_results data)) =? 0)%nat;
          discriminate.
      * destruct (text res); discriminate.
    + assert (Hsnd : forall (found : JsResult (option (list Search.SearchResultItem)))
                (log : list jsstring),
                snd (match found with
                     | Returned (Some (r :: results)) =>
                         (Returned (Response_json
                            (Search.ResultsPayload
                               (default [] (requestedModel body)) (r :: results)) 200),
                          log)
                     | _ =>
                         (Returned (Response_json
                            (Search.ErrorPayload (js "未能获取搜索结果，请稍后再试")) 502),
                          log)
                     end) = log).
      { intros [[[|r rs]|]|e] log; reflexivity. }
      destruct (Search.querySerpstack SERPSTACK_API_KEY network
                  (default [] (requestedModel body)) []) as [found log].
      rewrite Hsnd. cbn [snd] in Hlog. subst log. cbn [app].
      repeat split; try easy; try (intros _; now exists q').
  - rewrite (querySerpstack_malformed _ _ _ []
               (ThrownError (js "URIError") (js "URI malformed")))
      by now apply encodeURIComponent_malformed.
    cbn [snd]. repeat split; try easy; try (now intros [_ [_ ?]]).
Qed.

(** X12. Whatever the model name, the query the handler puts in the search
    URL consists of letters, digits, [- _ . ! ~ * ' ( )] and percent escapes
    only, so the name cannot add or end a URL parameter; a name made of
    unreserved characters is sent unchanged. *)
Theorem search_query_escaped
    (SERPSTACK_API_KEY : option jsstring)
    (network : jsstring -> JsResult (FetchResponse Search.SerpData))
    (raw : jsstring) (u : jsstring) :
  (forall c, c ∈ raw -> c < 65536) ->
  u ∈ snd (Search.handle SERPSTACK_API_KEY network
             (Returned {| Search.model := Some raw |})) ->
  exists q,
    u = Search.url SERPSTACK_API_KEY q
    /\ Search.encodeURIComponent (trim raw) = Returned q
    /\ (forall c, c ∈ q -> urlSafe c = true)
    /\ ((forall c, c ∈ trim raw -> Search.unreserved c = true) -> q = trim raw).
Proof.
  intros H16 Hu.
  set (body := {| Search.model := Some raw |}) in *.
  destruct (truthy_opt (requestedModel body)) eqn:Hm.
  2: { rewrite (search_empty_model _ _ body Hm) in Hu.
       now apply elem_of_nil in Hu. }
  destruct (truthy_opt SERPSTACK_API_KEY) eqn:Hk.
  2: { rewrite (search_no_credential _ _ body Hm Hk) in Hu.
       now apply elem_of_nil in Hu. }
  rewrite (search_handle_configured _ _ body Hm Hk) in Hu.
  pose proof (querySerpstack_log SERPSTACK_API_KEY network
                (default [] (requestedModel body)) []) as Hlog.
  destruct (Search.querySerpstack SERPSTACK_API_KEY network
              (default [] (requestedModel body)) []) as [found log].
  assert (Hu' : u ∈ log) by (destruct found as [[[|r rs]|]|e]; exact Hu).
  clear Hu. cbn [snd app] in Hlog.
  destruct Hlog as [-> | [q [Hq ->]]]; [now apply elem_of_nil in Hu'|].
  apply list_elem_of_singleton in Hu' as ->.
  change (default [] (requestedModel body)) with (trim raw) in Hq.
  exists q. split; [reflexivity|]. split; [exact Hq|].
  unfold Search.encodeURIComponent in Hq.
  destruct (Search.encodeUnits (trim raw)) as [e|] eqn:He; [|discriminate Hq].
  injection Hq as ->. split.
  - apply (encodeUnits_safe (trim raw)); [|exact He].
    intros c Hc. apply H16. now apply elem_of_trim.
  - intros Hun. rewrite (encodeUnits_unreserved _ Hun) in He. now injection He.
Qed.

Lemma search_query_escaped_witness :
  exists q,
    Search.encodeURIComponent (trim (js " a&b=c ")) = Returned q
    /\ q = js "a%26b%3Dc".
Proof.
  destruct (search_query_escaped (Some (js "key")) Examples.elevenHits
              (js " a&b=c ")
              (Search.url (Some (js "key")) (js "a%26b%3Dc")))
    as [q [_ [Hq _]]].
  - intros c Hc. apply list_elem_of_In in Hc. vm_compute in Hc.
    repeat (destruct Hc as [<- | Hc]; [reflexivity|]). destruct Hc.
  - vm_compute. apply list_elem_of_here.
  - exists q. split; [exact Hq|].
    assert (E : Search.encodeURIComponent (trim (js " a&b=c "))
                = Returned (js "a%26b%3Dc")) by (vm_compute; reflexivity).
    rewrite E in Hq. now injection Hq.
Defined.

(** ** The form *)

Ltac run_page :=
  unfold Pages.tryFinally, Pages.orNetworkError, Pages.request, Pages.perform,
    Pages.errorMessageOf;
  run_effects.

(** Closes a branch in which the answer was not accepted. *)
Ltac not_accepted :=
  let H := fresh in
  intros H;
  repeat match goal with
         | H : ex _ |- _ => destruct H
         | H : _ /\ _ |- _ => destruct H
         | H : accepted _ _ |- _ => unfold accepted in H
         | H : answersNull _ |- _ => unfold answersNull in H
         | H : truthy _ = false |- _ => apply truthy_false in H
         end;
  congruence.

Lemma accepted_unique {D} (answer : JsResult (FetchResponse (option D)))
    (d d' : D) :
  accepted answer d -> accepted answer d' -> d = d'.
Proof.
  intros (r & t & Ha & _ & _ & _ & Hj) (r' & t' & Ha' & _ & _ & _ & Hj').
  congruence.
Qed.

Section HomeFacts.

Variable baseId : jsstring.
Variable searchApi
  : Search.SearchRequestBody
    -> JsResult (FetchResponse (option Pages.SearchReply.t)).
Variable generateApi
  : GenerateRequest.t -> JsResult (FetchResponse (option Pages.GenerateReply.t)).
Variable nullRead : jsstring -> jsstring.
Variable setItem : jsstring -> Pages.GenerateReply.t -> JsResult unit.

(** How a search started from the form ends. *)
Lemma handleFetchSearch_started (st : Home.State) (modelId : jsstring)
    (target : Home.ModelEntry.t) :
  List.find (fun m => bool_decide (Home.ModelEntry.id m = modelId)) (Home.models st)
  = Some target ->
  trim (Home.ModelEntry.name target) <> [] ->
  let body := {| Search.model := Some (trim (Home.ModelEntry.name target)) |} in
  let started :=
    [Home.setError []; Home.setModels (Home.total (Home.loading modelId));
     Home.fetch (Pages.postSearch body)] in
  (exists data,
     accepted (searchApi body) data
     /\ Home.handleFetchSearch searchApi nullRead st modelId []
        = (Returned tt,
           started ++ [Home.setModels (Home.loaded nullRead modelId (Some data))]))
  \/ (answersNull (searchApi body)
      /\ Home.handleFetchSearch searchApi nullRead st modelId []
         = (Returned tt,
            started ++ [Home.setModels (Home.loaded nullRead modelId None)]))
  \/ ((forall data, ~ accepted (searchApi body) data)
      /\ ~ answersNull (searchApi body)
      /\ exists message,
           Home.handleFetchSearch searchApi nullRead st modelId []
           = (Returned tt,
              started
              ++ [Home.setModels (Home.total (Home.failed modelId message));
                  Home.setError message])).
Proof.
  intros Hfind Hname. cbv zeta. unfold Home.handleFetchSearch. rewrite Hfind.
  destruct (truthy (trim (Home.ModelEntry.name target))) eqn:Ht.
  2: { now apply truthy_false in Ht. }
  cbn [negb]. cbv iota. run_page. cbn [app]. cbv zeta.
  destruct (searchApi _) as [response|e] eqn:Hs.
  2: { right. right. split; [intros d; not_accepted|].
       split; [not_accepted|]. eexists. reflexivity. }
  destruct (ok response) eqn:Hok; cbn [negb]; cbv beta iota.
  2: { right. right. split; [intros d; not_accepted|]. split; [not_accepted|].
       destruct (json response) as [[d|]|e]; eexists; reflexivity. }
  destruct (text response) as [t|e] eqn:Htext.
  2: { right. right. split; [intros d; not_accepted|].
       split; [not_accepted|]. eexists. reflexivity. }
  destruct (truthy t) eqn:Htt; cbn [negb]; cbv beta iota.
  2: { right. right. split; [intros d; not_accepted|].
       split; [not_accepted|]. eexists. reflexivity. }
  destruct (json response) as [[data|]|e] eqn:Hj.
  - left. exists data. split; [|reflexivity].
    exists response, t. repeat split; try assumption. now apply truthy_true.
  - right. left. split; [|reflexivity].
    exists response, t. repeat split; try assumption. now apply truthy_true.
  - right. right. split; [intros d; not_accepted|].
    split; [not_accepted|]. eexists. reflexivity.
Qed.

(** How the form's submission ends once both checks have passed. *)
Lemma handleSubmit_sent (st : Home.State) :
  trim (Home.title st) <> [] ->
  existsb (fun model => (length (Home.ModelEntry.results model) =? 0)%nat)
    (Home.activeModels (Home.models st)) = false ->
  let payload := Home.payload st in
  let sent :=
    [Home.setError []; Home.setIsLoading true;
     Home.fetch (Pages.postGenerate payload)] in
  (exists data article,
     accepted (generateApi payload) data
     /\ Pages.GenerateReply.article data = Some article /\ article <> []
     /\ let saved := Home.dataToSave data (GenerateRequest.searchData payload) in
        let stored := Home.sessionStorage_setItem (js "generatedArticle") saved in
        (setItem (js "generatedArticle") saved = Returned tt
         /\ Home.handleSubmit generateApi nullRead setItem st []
            = (Returned tt,
               sent ++ [stored; Home.location_href (js "/result");
                        Home.setIsLoading false]))
        \/ (exists e,
              setItem (js "generatedArticle") saved = Threw e
              /\ Home.handleSubmit generateApi nullRead setItem st []
                 = (Returned tt,
                    sent ++ [stored;
                             Home.setError (Pages.messageOr e (js "生成出错，请重试"));
                             Home.setIsLoading false])))
  \/ ((forall data article,
         accepted (generateApi payload) data ->
         Pages.GenerateReply.article data = Some article -> article = [])
      /\ exists message,
           Home.handleSubmit generateApi nullRead setItem st []
           = (Returned tt,
              sent ++ [Home.setError message; Home.setIsLoading false])).
Proof.
  intros Htitle Hsearch. cbv zeta. unfold Home.handleSubmit.
  destruct (truthy (trim (Home.title st))) eqn:Ht.
  2: { now apply truthy_false in Ht. }
  cbn [negb]. cbv iota. cbv zeta. rewrite Hsearch, andb_false_r.
  run_page. cbn [app].
  destruct (generateApi _) as [response|e] eqn:Hs.
  2: { right. split; [intros d a; not_accepted|]. eexists. reflexivity. }
  destruct (ok response) eqn:Hok; cbn [negb]; cbv beta iota.
  2: { right. split; [intros d a; not_accepted|].
       destruct (json response) as [[d|]|e]; eexists; reflexivity. }
  destruct (text response) as [t|e] eqn:Htext.
  2: { right. split; [intros d a; not_accepted|]. eexists. reflexivity. }
  destruct (truthy t) eqn:Htt; cbn [negb]; cbv beta iota.
  2: { right. split; [intros d a; not_accepted|]. eexists. reflexivity. }
  destruct (json response) as [[data|]|e] eqn:Hj.
  2, 3: right; (split; [intros d a; not_accepted|]); eexists; reflexivity.
  assert (Hacc : accepted (Returned response) data).
  { exists response, t. repeat split; try assumption. now apply truthy_true. }
  destruct (Pages.GenerateReply.article data) as [article|] eqn:Ha.
  2: { right. split; [|eexists; reflexivity].
       intros d a Hd Hda. rewrite <- (accepted_unique _ _ _ Hacc Hd) in Hda.
       congruence. }
  cbn [truthy_opt].
  destruct (truthy article) eqn:Hart; cbn [negb]; cbv beta iota.
  2: { right. split; [|eexists; reflexivity].
       intros d a Hd Hda. rewrite <- (accepted_unique _ _ _ Hacc Hd) in Hda.
       apply truthy_false in Hart. congruence. }
  left. exists data, article. split; [exact Hacc|]. split; [exact Ha|].
  split; [now apply truthy_true|].
  cbv zeta. destruct (setItem _ _) as [[]|e] eqn:Hset.
  - left. split; reflexivity.
  - right. exists e. split; reflexivity.
Qed.

End HomeFacts.

(** *** The payload of the form *)

Lemma existsb_no_results (l : list Home.ModelEntry.t) :
  existsb (fun model => (length (Home.ModelEntry.results model) =? 0)%nat) l = false
  <-> forall m, m ∈ l -> Home.ModelEntry.results m <> [].
Proof.
  induction l as [|x l IH]; simpl.
  - split; [intros _ m Hm; now apply elem_of_nil in Hm | reflexivity].
  - rewrite orb_false_iff, IH. split.
    + intros [Hx Hl] m Hm. apply elem_of_cons in Hm as [-> | Hm]; [|now apply Hl].
      destruct (Home.ModelEntry.results x); [discriminate Hx | discriminate].
    + intros H. split.
      * pose proof (H x (list_elem_of_here _ _)) as Hx.
        destruct (Home.ModelEntry.results x); [now destruct Hx | reflexivity].
      * intros m Hm. apply H. now apply list_elem_of_further.
Qed.

Lemma elem_of_activeModels (l : list Home.ModelEntry.t) (m : Home.ModelEntry.t) :
  m ∈ Home.activeModels l <-> m ∈ l /\ trim (Home.ModelEntry.name m) <> [].
Proof.
  unfold Home.activeModels. rewrite list_elem_of_In, List.filter_In.
  rewrite <- list_elem_of_In. split; intros [H1 H2]; (split; [exact H1|]).
  - now apply truthy_true.
  - destruct (trim (Home.ModelEntry.name m)); [now destruct H2 | reflexivity].
Qed.

Section Assigning.

Context {A V : Type} (key : A -> jsstring) (val : A -> V).

Let step (acc : gmap jsstring V) (m : A) : gmap jsstring V :=
  Pages.assign acc (key m) (val m).

Lemma foldl_assign_snoc (acc : gmap jsstring V) (l : list A) (x : A) :
  foldl step acc (l ++ [x]) = Pages.assign (foldl step acc l) (key x) (val x).
Proof. now rewrite foldl_app. Qed.

(** A key that no element has, and the key [__proto__], are left as they
    were. *)
Lemma foldl_assign_other (acc : gmap jsstring V) (l : list A) (k : jsstring) :
  (forall m, m ∈ l -> key m = k -> k = js "__proto__") ->
  foldl step acc l !! k = acc !! k.
Proof.
  induction l as [|x l IH] using rev_ind; intros H; [reflexivity|].
  rewrite foldl_assign_snoc. unfold Pages.assign.
  destruct (decide (key x = js "__proto__")) as [Hp|Hp].
  - apply IH. intros m Hm. apply H. apply elem_of_app. now left.
  - rewrite lookup_insert_ne.
    + apply IH. intros m Hm. apply H. apply elem_of_app. now left.
    + intros E. apply Hp. rewrite E. apply (H x); [|exact E].
      apply elem_of_app. right. apply list_elem_of_here.
Qed.

(** Any other key holds the value of an element that has this key. *)
Lemma foldl_assign_lookup (acc : gmap jsstring V) (l : list A) (m : A) :
  m ∈ l -> key m <> js "__proto__" ->
  exists m', m' ∈ l /\ key m' = key m
             /\ foldl step acc l !! key m = Some (val m').
Proof.
  induction l as [|x l IH] using rev_ind; intros Hm Hk.
  - now apply elem_of_nil in Hm.
  - rewrite foldl_assign_snoc. unfold Pages.assign.
    destruct (decide (key x = key m)) as [E|E].
    + exists x. split; [apply elem_of_app; right; apply list_elem_of_here|].
      split; [exact E|]. rewrite E.
      destruct (decide (key m = js "__proto__")); [contradiction|].
      apply lookup_insert_eq.
    + apply elem_of_app in Hm as [Hm | Hm].
      * destruct (IH Hm Hk) as [m' [Hm' [Hkm Hl]]].
        exists m'. split; [apply elem_of_app; now left|]. split; [exact Hkm|].
        destruct (decide (key x = js "__proto__")); [exact Hl|].
        now rewrite lookup_insert_ne.
      * apply list_elem_of_singleton in Hm. now subst.
Qed.

Lemma foldl_assign_empty (l : list A) :
  foldl step ∅ l = ∅ <-> forall m, m ∈ l -> key m = js "__proto__".
Proof.
  split.
  - intros E m Hm. destruct (decide (key m = js "__proto__")) as [|Hk]; [easy|].
    destruct (foldl_assign_lookup ∅ l m Hm Hk) as [m' [_ [_ Hl]]].
    rewrite E, lookup_empty in Hl. discriminate Hl.
  - intros H. apply map_eq. intros k. rewrite lookup_empty.
    rewrite foldl_assign_other; [apply lookup_empty|].
    intros m Hm <-. now apply H.
Qed.

End Assigning.

Lemma payload_requestTitle (st : Home.State) :
  requestTitle (Home.payload st) = Some (trim (Home.title st)).
Proof. unfold requestTitle, Home.payload. simpl. now rewrite trim_idem. Qed.

Lemma payload_models_all (l : list Home.ModelEntry.t) :
  List.filter truthy
    (map trim (map (fun model => trim (Home.ModelEntry.name model))
                 (Home.activeModels l)))
  = map (fun model => trim (Home.ModelEntry.name model)) (Home.activeModels l).
Proof.
  unfold Home.activeModels. induction l as [|x l IH]; [reflexivity|].
  cbn [List.filter]. destruct (truthy (trim (Home.ModelEntry.name x))) eqn:E;
    [|exact IH].
  cbn [map List.filter]. rewrite trim_idem, E. now f_equal.
Qed.

Lemma payload_requestModels (st : Home.State) :
  requestModels (Home.payload st)
  = take 3 (map (fun model => trim (Home.ModelEntry.name model))
              (Home.activeModels (Home.models st))).
Proof.
  unfold requestModels, Home.payload, slice0. simpl.
  now rewrite payload_models_all.
Qed.

Lemma payload_hasModels (st : Home.State) :
  hasModels (Home.payload st) = true <-> Home.activeModels (Home.models st) <> [].
Proof.
  rewrite hasModels_spec, payload_requestModels.
  destruct (Home.activeModels (Home.models st)); simpl; split; congruence.
Qed.

Lemma payload_lacksSearchData (st : Home.State) :
  lacksSearchData (Home.payload st) = true
  <-> forall m, m ∈ Home.activeModels (Home.models st) ->
        trim (Home.ModelEntry.name m) = js "__proto__".
Proof.
  rewrite lacksSearchData_spec. unfold Home.payload. simpl.
  destruct (Home.activeModels (Home.models st)) as [|x l] eqn:E.
  - simpl. split; [intros _ m Hm; now apply elem_of_nil in Hm | now right].
  - cbn [length Nat.ltb Nat.leb]. split.
    + intros [H|H]; [discriminate H|]. injection H as H.
      now apply (foldl_assign_empty (fun model => trim (Home.ModelEntry.name model))
                   Home.ModelEntry.results).
    + intros H. right. f_equal.
      now apply (foldl_assign_empty (fun model => trim (Home.ModelEntry.name model))
                   Home.ModelEntry.results).
Qed.

(** X13. What the form sends is what the generate handler expects.  For a
    form that passes its own checks, the handler reads the trimmed title,
    the trimmed names of the models that have one (all of them when the form
    holds at most three) and, under every name other than "__proto__", the
    non-empty results of a model of that name.  The request passes the
    validation of the handler, and is answered 200 or 500, unless the form
    has models and all of them are named "__proto__": then it is answered
    400 for missing search data. *)
Theorem home_submission_validated
    readFileSync cwd env now network (st : Home.State) :
  trim (Home.title st) <> [] ->
  (forall m, m ∈ Home.activeModels (Home.models st) ->
     Home.ModelEntry.results m <> []) ->
  let payload := Home.payload st in
  let active := Home.activeModels (Home.models st) in
  let name m := trim (Home.ModelEntry.name m) in
  let answer :=
    Generate.handle readFileSync cwd env now network (Returned payload) in
  requestTitle payload = Some (trim (Home.title st))
  /\ requestModels payload = take 3 (map name active)
  /\ ((length (Home.models st) <= 3)%nat -> requestModels payload = map name active)
  /\ (forall m, m ∈ active -> name m <> js "__proto__" ->
        exists m' searchData,
          m' ∈ active /\ name m' = name m
          /\ GenerateRequest.searchData payload = Some searchData
          /\ searchData !! name m = Some (Home.ModelEntry.results m')
          /\ Home.ModelEntry.results m' <> [])
  /\ (validated payload = true
      <-> active = [] \/ exists m, m ∈ active /\ name m <> js "__proto__")
  /\ (validated payload = true ->
      statusOf (fst answer) = Some 200 \/ statusOf (fst answer) = Some 500)
  /\ (validated payload = false ->
      answer
      = (Returned (Response_json (ErrorPayload (js "缺少搜索数据 searchData")) 400),
         [])).
Proof.
  intros Htitle Hresults. cbv zeta.
  assert (Ht : truthy_opt (requestTitle (Home.payload st)) = true).
  { rewrite payload_requestTitle. simpl.
    destruct (trim (Home.title st)); [now destruct Htitle | reflexivity]. }
  assert (Hvalid : validated (Home.payload st) = true
                   <-> Home.activeModels (Home.models st) = []
                       \/ exists m, m ∈ Home.activeModels (Home.models st)
                                    /\ trim (Home.ModelEntry.name m) <> js "__proto__").
  { unfold validated. rewrite Ht. cbn [andb]. rewrite negb_true_iff, andb_false_iff.
    rewrite <- !not_true_iff_false, payload_hasModels, payload_lacksSearchData.
    split.
    - intros [H|H].
      + left. destruct (Home.activeModels (Home.models st)); [reflexivity|].
        exfalso. apply H. discriminate.
      + destruct (Home.activeModels (Home.models st)) as [|x l] eqn:E; [now left|].
        right. rewrite <- E in *.
        destruct (decide (Forall (fun m => trim (Home.ModelEntry.name m) = js "__proto__")
                            (Home.activeModels (Home.models st)))) as [Hall|Hex].
        * exfalso. apply H. now apply Forall_forall.
        * apply not_Forall_Exists in Hex; [|intros m; apply _].
          apply Exists_exists in Hex as [m [Hm Hk]]. now exists m.
    - intros [H|[m [Hm Hk]]].
      + left. intros Hne. now apply Hne.
      + right. intros Hall. apply Hk. now apply Hall. }
  split; [apply payload_requestTitle|].
  split; [apply payload_requestModels|].
  split.
  { intros Hlen. rewrite payload_requestModels. apply take_ge.
    rewrite length_map. unfold Home.activeModels.
    pose proof (List.filter_length_le
                  (fun m => truthy (trim (Home.ModelEntry.name m))) (Home.models st)).
    lia. }
  split.
  { intros m Hm Hk.
    destruct (foldl_assign_lookup (fun model => trim (Home.ModelEntry.name model))
                Home.ModelEntry.results ∅ _ m Hm Hk) as [m' [Hm' [Hkm Hl]]].
    assert (Hpos : (0 <? length (Home.activeModels (Home.models st)))%nat = true).
    { destruct (Home.activeModels (Home.models st));
        [now apply elem_of_nil in Hm | reflexivity]. }
    exists m'. eexists. split; [exact Hm'|]. split; [exact Hkm|].
    unfold Home.payload. cbn [GenerateRequest.searchData]. rewrite Hpos.
    split; [reflexivity|]. split; [exact Hl|]. now apply Hresults. }
  split; [exact Hvalid|].
  split.
  - intros Hv.
    destruct (generate_validated_answer readFileSync cwd env now network
                (Home.payload st) Hv) as [r [Hr [[Hs _] | [Hs _]]]];
      rewrite Hr; simpl; rewrite Hs; auto.
  - intros Hv. apply generate_no_searchData; [exact Ht| |].
    + unfold validated in Hv. rewrite Ht in Hv. cbn [andb] in Hv.
      apply negb_false_iff, andb_true_iff in Hv. apply Hv.
    + unfold validated in Hv. rewrite Ht in Hv. cbn [andb] in Hv.
      apply negb_false_iff, andb_true_iff in Hv. apply Hv.
Qed.

(** Membership in an explicit log. *)
Ltac in_log H :=
  repeat (apply elem_of_cons in H as [H | H]; [try discriminate H|]);
  try (now apply elem_of_nil in H).

Lemma handleSubmit_no_title generateApi nullRead setItem (st : Home.State) :
  trim (Home.title st) = [] ->
  Home.handleSubmit generateApi nullRead setItem st []
  = (Returned tt, [Home.setError (js "请输入知乎问题或标题")]).
Proof.
  intros H. unfold Home.handleSubmit. rewrite H. cbn [truthy negb]. cbv iota.
  reflexivity.
Qed.

Lemma handleSubmit_missing_search generateApi nullRead setItem (st : Home.State) :
  trim (Home.title st) <> [] ->
  existsb (fun model => (length (Home.ModelEntry.results model) =? 0)%nat)
    (Home.activeModels (Home.models st)) = true ->
  Home.handleSubmit generateApi nullRead setItem st []
  = (Returned tt, [Home.setError (js "请先为每个型号获取搜索信息")]).
Proof.
  intros Ht Hs. unfold Home.handleSubmit.
  destruct (trim (Home.title st)) eqn:E; [now destruct Ht|].
  cbn [truthy negb]. cbv iota zeta. rewrite Hs.
  destruct (Home.activeModels (Home.models st)); [discriminate Hs|].
  reflexivity.
Qed.

(** X14. Submitting the form.  [handleSubmit] never throws.  It sends
    nothing and only shows a message when the title is blank, or when a
    model that has a name has no search results.  Otherwise it sends one
    request, to the generate endpoint, and is no longer loading at the end;
    the models are left as they were.  It leaves for the result page exactly
    when the answer is accepted, holds a non-empty article and could be
    stored; what it stores is the answer with the search data of the request
    added to its metadata. *)
Theorem home_submit
    (generateApi : GenerateRequest.t
                   -> JsResult (FetchResponse (option Pages.GenerateReply.t)))
    (nullRead : jsstring -> jsstring)
    (setItem : jsstring -> Pages.GenerateReply.t -> JsResult unit)
    (st : Home.State) :
  let result := Home.handleSubmit generateApi nullRead setItem st [] in
  let log := snd result in
  let active := Home.activeModels (Home.models st) in
  let payload := Home.payload st in
  let saved data := Home.dataToSave data (GenerateRequest.searchData payload) in
  fst result = Returned tt
  /\ (trim (Home.title st) = [] ->
      log = [Home.setError (js "请输入知乎问题或标题")])
  /\ (trim (Home.title st) <> [] ->
      (exists m, m ∈ active /\ Home.ModelEntry.results m = []) ->
      log = [Home.setError (js "请先为每个型号获取搜索信息")])
  /\ (trim (Home.title st) <> [] ->
      (forall m, m ∈ active -> Home.ModelEntry.results m <> []) ->
      homeRequests log = [Pages.postGenerate payload]
      /\ Home.isLoading (Home.settle st log) = false
      /\ Home.models (Home.settle st log) = Home.models st
      /\ (Home.location_href (js "/result") ∈ log
          <-> exists data article,
                accepted (generateApi payload) data
                /\ Pages.GenerateReply.article data = Some article
                /\ article <> []
                /\ setItem (js "generatedArticle") (saved data) = Returned tt)
      /\ (forall data,
            accepted (generateApi payload) data ->
            Home.location_href (js "/result") ∈ log ->
            Home.sessionStorage_setItem (js "generatedArticle") (saved data) ∈ log)).
Proof.
  cbv zeta.
  destruct (truthy (trim (Home.title st))) eqn:Ht.
  2: { apply truthy_false in Ht.
       rewrite (handleSubmit_no_title generateApi nullRead setItem st Ht).
       split; [reflexivity|]. split; [reflexivity|].
       split; intros Hne; now destruct Hne. }
  apply truthy_true in Ht.
  destruct (existsb (fun model => (length (Home.ModelEntry.results model) =? 0)%nat)
              (Home.activeModels (Home.models st))) eqn:Hs.
  { assert (Hex : exists m, m ∈ Home.activeModels (Home.models st)
                            /\ Home.ModelEntry.results m = []).
    { apply existsb_exists in Hs as [m [Hm Hr]]. exists m.
      split; [now apply list_elem_of_In|].
      destruct (Home.ModelEntry.results m); [reflexivity | discriminate Hr]. }
    rewrite (handleSubmit_missing_search generateApi nullRead setItem st Ht Hs).
    split; [reflexivity|]. split; [intros E; now destruct Ht|].
    split; [reflexivity|].
    intros _ Hall. destruct Hex as [m [Hm Hr]]. now destruct (Hall m Hm). }
  split.
  { destruct (handleSubmit_sent generateApi nullRead setItem st Ht Hs)
      as [(d & a & _ & _ & _ & [[_ ->] | [e [_ ->]]]) | [_ [msg ->]]];
      reflexivity. }
  split; [intros E; now destruct Ht|].
  split.
  { intros _ [m [Hm Hr]]. exfalso.
    now apply (proj1 (existsb_no_results _) Hs m Hm). }
  intros _ _.
  destruct (handleSubmit_sent generateApi nullRead setItem st Ht Hs)
    as [(d & a & Hacc & Ha & Hne & [[Hset ->] | [e [Hset ->]]]) | [Hno [msg ->]]];
    cbn [snd app].
  - split; [reflexivity|]. split; [reflexivity|]. split; [reflexivity|]. split.
    + split; [intros _; now exists d, a|].
      intros _. do 4 apply list_elem_of_further. apply list_elem_of_here.
    + intros d' Hd' _. rewrite <- (accepted_unique _ _ _ Hacc Hd').
      do 3 apply list_elem_of_further. apply list_elem_of_here.
  - split; [reflexivity|]. split; [reflexivity|]. split; [reflexivity|]. split.
    + split; [intros H; in_log H|].
      intros (d' & a' & Hd' & _ & _ & Hset').
      rewrite <- (accepted_unique _ _ _ Hacc Hd') in Hset'. congruence.
    + intros d' _ H. in_log H.
  - split; [reflexivity|]. split; [reflexivity|]. split; [reflexivity|]. split.
    + split; [intros H; in_log H|].
      intros (d' & a' & Hd' & Ha' & Hne' & _). now destruct (Hne' (Hno d' a' Hd' Ha')).
    + intros d' _ H. in_log H.
Qed.

(** *** The list of models *)

(** The update after an answer with data never throws. *)
Lemma loaded_data (nullRead : jsstring -> jsstring) (modelId : jsstring)
    (data : Pages.SearchReply.t) (l : list Home.ModelEntry.t) :
  Home.loaded nullRead modelId (Some data) l
  = Returned
      (map (fun m =>
              if decide (Home.ModelEntry.id m = modelId)
              then {| Home.ModelEntry.id := Home.ModelEntry.id m;
                      Home.ModelEntry.name := Home.ModelEntry.name m;
                      Home.ModelEntry.results :=
                        default [] (Pages.SearchReply.results data);
                      Home.ModelEntry.isLoading := false;
                      Home.ModelEntry.error := Home.ModelEntry.error m |}
              else m) l).
Proof.
  unfold Home.loaded. induction l as [|m l IH]; [reflexivity|].
  cbn [mapThrowing map]. rewrite IH.
  now destruct (decide (Home.ModelEntry.id m = modelId)).
Qed.

(** The update after the answer [null] throws on a list with an entry of
    the id, and leaves any other list as it is. *)
Lemma loaded_null (nullRead : jsstring -> jsstring) (modelId : jsstring)
    (l : list Home.ModelEntry.t) :
  Home.loaded nullRead modelId None l
  = if existsb (fun m => bool_decide (Home.ModelEntry.id m = modelId)) l
    then Threw (Pages.nullError nullRead (js "results"))
    else Returned l.
Proof.
  unfold Home.loaded. induction l as [|m l IH]; [reflexivity|].
  cbn [mapThrowing existsb]. rewrite IH.
  destruct (decide (Home.ModelEntry.id m = modelId)) as [E|E].
  - now rewrite bool_decide_eq_true_2.
  - rewrite bool_decide_eq_false_2 by exact E. cbn [orb].
    now destruct (existsb _ l).
Qed.

Lemma loading_has_id (modelId : jsstring) (l : list Home.ModelEntry.t)
    (target : Home.ModelEntry.t) :
  List.find (fun m => bool_decide (Home.ModelEntry.id m = modelId)) l = Some target ->
  existsb (fun m => bool_decide (Home.ModelEntry.id m = modelId))
    (Home.loading modelId l) = true.
Proof.
  intros H. apply find_some in H as [Hin Hid].
  apply existsb_exists.
  exists (if decide (Home.ModelEntry.id target = modelId)
          then {| Home.ModelEntry.id := Home.ModelEntry.id target;
                  Home.ModelEntry.name := Home.ModelEntry.name target;
                  Home.ModelEntry.results := Home.ModelEntry.results target;
                  Home.ModelEntry.isLoading := true;
                  Home.ModelEntry.error := None |}
          else target).
  split.
  - unfold Home.loading. apply in_map_iff. now exists target.
  - apply bool_decide_eq_true in Hid. rewrite decide_True by exact Hid.
    now apply bool_decide_eq_true.
Qed.

Lemma loaded_loading (nullRead : jsstring -> jsstring) (modelId : jsstring)
    (data : Pages.SearchReply.t) (l : list Home.ModelEntry.t) :
  Home.loaded nullRead modelId (Some data) (Home.loading modelId l)
  = Returned
      (map (fun m =>
              if decide (Home.ModelEntry.id m = modelId)
              then {| Home.ModelEntry.id := Home.ModelEntry.id m;
                      Home.ModelEntry.name := Home.ModelEntry.name m;
                      Home.ModelEntry.results :=
                        default [] (Pages.SearchReply.results data);
                      Home.ModelEntry.isLoading := false;
                      Home.ModelEntry.error := None |}
              else m) l).
Proof.
  rewrite loaded_data. f_equal.
  unfold Home.loading. rewrite map_map. apply map_ext. intros m.
  destruct (decide (Home.ModelEntry.id m = modelId)) as [E|E]; simpl.
  - now rewrite decide_True.
  - now rewrite decide_False.
Qed.

Lemma failed_loading (modelId message : jsstring) (l : list Home.ModelEntry.t) :
  Home.failed modelId message (Home.loading modelId l)
  = map (fun m =>
           if decide (Home.ModelEntry.id m = modelId)
           then {| Home.ModelEntry.id := Home.ModelEntry.id m;
                   Home.ModelEntry.name := Home.ModelEntry.name m;
                   Home.ModelEntry.results := [];
                   Home.ModelEntry.isLoading := false;
                   Home.ModelEntry.error := Some message |}
           else m) l.
Proof.
  unfold Home.failed, Home.loading. rewrite map_map. apply map_ext. intros m.
  destruct (decide (Home.ModelEntry.id m = modelId)) as [E|E]; simpl.
  - now rewrite decide_True.
  - now rewrite decide_False.
Qed.

Lemma handleFetchSearch_not_found searchApi nullRead (st : Home.State)
    (modelId : jsstring) :
  List.find (fun m => bool_decide (Home.ModelEntry.id m = modelId)) (Home.models st)
  = None ->
  Home.handleFetchSearch searchApi nullRead st modelId [] = (Returned tt, []).
Proof. intros H. unfold Home.handleFetchSearch. now rewrite H. Qed.

Lemma handleFetchSearch_no_name searchApi nullRead (st : Home.State)
    (modelId : jsstring) (target : Home.ModelEntry.t) :
  List.find (fun m => bool_decide (Home.ModelEntry.id m = modelId)) (Home.models st)
  = Some target ->
  trim (Home.ModelEntry.name target) = [] ->
  Home.handleFetchSearch searchApi nullRead st modelId []
  = (Returned tt, [Home.setError (js "请先输入商品型号")]).
Proof.
  intros H Hn. unfold Home.handleFetchSearch. rewrite H, Hn.
  cbn [truthy negb]. cbv iota. reflexivity.
Qed.

(** X15. Fetching the search results of an entry of the form.  The
    handler never throws.  It sends nothing when no entry has the id, or
    when the name of the first entry with the id is blank.  Otherwise it
    sends one request, for the trimmed name, and the list keeps its entries
    in their order, those with another id unchanged.  When the answer is
    accepted the entries with the id hold its results (none when it names no
    results) and no error, they are no longer loading, and the error of the
    form is cleared.  When the answer is [ok] and its text parses to
    [null], the [catch] of the handler does not run: no message is shown,
    the entries with the id stay loading, and the update that reads the
    results throws the [TypeError] of the engine when React applies it, which
    fails the render of the form.  In every other case the entries with the
    id hold no results and the message that the form shows as its error, and
    are no longer loading. *)
Theorem home_fetch_search
    (searchApi : Search.SearchRequestBody
                 -> JsResult (FetchResponse (option Pages.SearchReply.t)))
    (nullRead : jsstring -> jsstring) (st : Home.State) (modelId : jsstring) :
  let result := Home.handleFetchSearch searchApi nullRead st modelId [] in
  let log := snd result in
  let after := Home.settle st log in
  let found :=
    List.find (fun m => bool_decide (Home.ModelEntry.id m = modelId))
      (Home.models st) in
  let entries change :=
    map (fun m => if decide (Home.ModelEntry.id m = modelId) then change m else m)
      (Home.models st) in
  let entry results isLoading error m :=
    {| Home.ModelEntry.id := Home.ModelEntry.id m;
       Home.ModelEntry.name := Home.ModelEntry.name m;
       Home.ModelEntry.results := results m;
       Home.ModelEntry.isLoading := isLoading;
       Home.ModelEntry.error := error |} in
  fst result = Returned tt
  /\ (found = None -> log = [])
  /\ (forall target,
        found = Some target -> trim (Home.ModelEntry.name target) = [] ->
        log = [Home.setError (js "请先输入商品型号")])
  /\ (forall target,
        found = Some target -> trim (Home.ModelEntry.name target) <> [] ->
        let body := {| Search.model := Some (trim (Home.ModelEntry.name target)) |} in
        homeRequests log = [Pages.postSearch body]
        /\ ((exists data,
               accepted (searchApi body) data
               /\ Home.models after
                  = entries
                      (entry (fun _ => default [] (Pages.SearchReply.results data))
                         false None)
               /\ Home.error after = []
               /\ Home.crashed after = Home.crashed st)
            \/ (answersNull (searchApi body)
                /\ Home.models after
                   = entries (entry Home.ModelEntry.results true None)
                /\ Home.error after = []
                /\ Home.crashed after
                   = Some (ThrownError (js "TypeError") (nullRead (js "results"))))
            \/ ((forall data, ~ accepted (searchApi body) data)
                /\ ~ answersNull (searchApi body)
                /\ exists message,
                     Home.models after
                     = entries (entry (fun _ => []) false (Some message))
                     /\ Home.error after = message
                     /\ Home.crashed after = Home.crashed st))).
Proof.
  cbv zeta.
  destruct (List.find _ (Home.models st)) as [target|] eqn:Hfind.
  2: { rewrite (handleFetchSearch_not_found _ _ _ _ Hfind).
       repeat split; intros; discriminate. }
  destruct (truthy (trim (Home.ModelEntry.name target))) eqn:Hn.
  2: { apply truthy_false in Hn.
       rewrite (handleFetchSearch_no_name _ _ _ _ _ Hfind Hn).
       split; [reflexivity|]. split; [discriminate|].
       split; [reflexivity|].
       intros t' E Hne. injection E as <-. now destruct Hne. }
  apply truthy_true in Hn.
  destruct (handleFetchSearch_started searchApi nullRead st modelId target Hfind Hn)
    as [[data [Hacc ->]] | [[Hnull ->] | (Hno & Hnn & message & ->)]];
    cbn [fst snd app].
  - split; [reflexivity|]. split; [discriminate|].
    split; [intros t' E Hne; injection E as <-; contradiction|].
    intros t' E _. injection E as <-. split; [reflexivity|].
    left. exists data. split; [exact Hacc|].
    cbn [Home.settle foldl Home.apply Home.total Home.models].
    rewrite loaded_loading. now repeat split.
  - split; [reflexivity|]. split; [discriminate|].
    split; [intros t' E Hne; injection E as <-; contradiction|].
    intros t' E _. injection E as <-. split; [reflexivity|].
    right. left. split; [exact Hnull|].
    cbn [Home.settle foldl Home.apply Home.total Home.models].
    rewrite loaded_null, (loading_has_id _ _ _ Hfind). now repeat split.
  - split; [reflexivity|]. split; [discriminate|].
    split; [intros t' E Hne; injection E as <-; contradiction|].
    intros t' E _. injection E as <-. split; [reflexivity|].
    right. right. split; [exact Hno|]. split; [exact Hnn|]. exists message.
    cbn [Home.settle foldl Home.apply Home.total Home.models Home.error
           Home.crashed].
    split; [apply failed_loading|]. now split.
Qed.

Lemma handleSubmit_models generateApi nullRead setItem (st : Home.State) :
  Home.models
    (Home.settle st (snd (Home.handleSubmit generateApi nullRead setItem st [])))
  = Home.models st.
Proof.
  destruct (truthy (trim (Home.title st))) eqn:Ht.
  2: { apply truthy_false in Ht. now rewrite handleSubmit_no_title. }
  apply truthy_true in Ht.
  destruct (existsb (fun model => (length (Home.ModelEntry.results model) =? 0)%nat)
              (Home.activeModels (Home.models st))) eqn:Hs.
  { now rewrite handleSubmit_missing_search. }
  destruct (handleSubmit_sent generateApi nullRead setItem st Ht Hs)
    as [(d & a & _ & _ & _ & [[_ ->] | [e [_ ->]]]) | [_ [msg ->]]];
    reflexivity.
Qed.

Lemma handleFetchSearch_length searchApi nullRead (st : Home.State)
    (modelId : jsstring) :
  length (Home.models
            (Home.settle st
               (snd (Home.handleFetchSearch searchApi nullRead st modelId []))))
  = length (Home.models st).
Proof.
  destruct (List.find (fun m => bool_decide (Home.ModelEntry.id m = modelId))
              (Home.models st)) as [target|] eqn:Hfind.
  2: { now rewrite handleFetchSearch_not_found. }
  destruct (truthy (trim (Home.ModelEntry.name target))) eqn:Hn.
  2: { apply truthy_false in Hn.
       now rewrite (handleFetchSearch_no_name _ _ _ _ _ Hfind Hn). }
  apply truthy_true in Hn.
  destruct (handleFetchSearch_started searchApi nullRead st modelId target Hfind Hn)
    as [[data [_ ->]] | [[_ ->] | (_ & _ & message & ->)]];
    cbn [snd app Home.settle foldl Home.apply Home.total Home.models].
  - rewrite loaded_loading. cbn [Home.models]. now rewrite length_map.
  - rewrite loaded_null, (loading_has_id _ _ _ Hfind). cbn [Home.models].
    unfold Home.loading. now rewrite length_map.
  - unfold Home.failed, Home.loading. now rewrite !length_map.
Qed.

Lemma addModel_models (baseId : jsstring) (st : Home.State) :
  Home.models (Home.settle st (snd (Home.addModel baseId st [])))
  = if Home.MAX_MODELS <=? N.of_nat (length (Home.models st))
    then Home.models st
    else Home.models st
         ++ [Home.blank (baseId ++ js "-"
                         ++ toString (N.of_nat (length (Home.models st))))].
Proof.
  unfold Home.addModel.
  destruct (Home.MAX_MODELS <=? N.of_nat (length (Home.models st))); reflexivity.
Qed.

Section Bounded.

Variable baseId : jsstring.
Variable searchApi
  : Search.SearchRequestBody
    -> JsResult (FetchResponse (option Pages.SearchReply.t)).
Variable generateApi
  : GenerateRequest.t -> JsResult (FetchResponse (option Pages.GenerateReply.t)).
Variable nullRead : jsstring -> jsstring.
Variable setItem : jsstring -> Pages.GenerateReply.t -> JsResult unit.

Let next := after baseId searchApi generateApi nullRead setItem.

Lemma after_bounded (st : Home.State) (a : Action) :
  (length (Home.models st) <= 3)%nat ->
  (length (Home.models (next st a)) <= 3)%nat.
Proof.
  intros H. unfold next, after. destruct a as [|id|id value|modelId| |];
    cbn [homeHandler].
  - rewrite addModel_models. unfold Home.MAX_MODELS.
    destruct (3 <=? N.of_nat (length (Home.models st))) eqn:E; [exact H|].
    apply N.leb_gt in E. rewrite length_app. simpl. lia.
  - unfold Home.removeModel, Pages.perform.
    cbn [snd app Home.settle foldl Home.apply Home.total Home.models].
    pose proof (List.filter_length_le
                  (fun model => negb (bool_decide (Home.ModelEntry.id model = id)))
                  (Home.models st)). lia.
  - unfold Home.updateModelName, Pages.perform.
    cbn [snd app Home.settle foldl Home.apply Home.total Home.models].
    now rewrite length_map.
  - now rewrite handleFetchSearch_length.
  - unfold Home.handleReset. run_page.
    cbn [snd app Home.settle foldl Home.apply Home.total Home.models].
    unfold Home.initialModels. simpl. lia.
  - now rewrite handleSubmit_models.
Qed.

Lemma reachable_bounded (actions : list Action) :
  (length (Home.models (foldl next (initialState baseId) actions)) <= 3)%nat.
Proof.
  induction actions as [|a actions IH] using rev_ind.
  - simpl. lia.
  - rewrite foldl_app. simpl. now apply after_bounded.
Qed.

End Bounded.

(** X16. The list of models of the form.  Starting from the form as first
    rendered, whatever the user does (adding, removing and renaming models,
    searching, resetting, submitting, each handler run to its end from the
    state it was created in), the form never holds more than three models.
    Adding to a form with three models leaves the list as it is and shows
    the message that at most 3 are supported; adding to a form with fewer
    appends an empty entry whose id is the base id, a hyphen and the number
    of entries so far. *)
Theorem home_models_bounded
    (baseId : jsstring)
    (searchApi : Search.SearchRequestBody
                 -> JsResult (FetchResponse (option Pages.SearchReply.t)))
    (generateApi : GenerateRequest.t
                   -> JsResult (FetchResponse (option Pages.GenerateReply.t)))
    (nullRead : jsstring -> jsstring)
    (setItem : jsstring -> Pages.GenerateReply.t -> JsResult unit)
    (actions : list Action) :
  let next := after baseId searchApi generateApi nullRead setItem in
  let st := foldl next (initialState baseId) actions in
  let count := length (Home.models st) in
  (count <= 3)%nat
  /\ (count = 3%nat ->
      Home.models (next st addModel) = Home.models st
      /\ Home.error (next st addModel) = js "最多支持 3 个型号")
  /\ ((count < 3)%nat ->
      Home.models (next st addModel)
      = Home.models st
        ++ [ {| Home.ModelEntry.id := baseId ++ js "-" ++ toString (N.of_nat count);
                Home.ModelEntry.name := [];
                Home.ModelEntry.results := [];
                Home.ModelEntry.isLoading := false;
                Home.ModelEntry.error := None |} ]).
Proof.
  cbv zeta. split; [apply reachable_bounded|].
  set (st := foldl _ _ actions). clearbody st. split.
  - intros H. unfold after. cbn [homeHandler]. rewrite addModel_models.
    unfold Home.addModel, Home.MAX_MODELS. rewrite H. cbn [N.of_nat].
    split; [reflexivity|]. vm_compute. reflexivity.
  - intros H. unfold after. cbn [homeHandler]. rewrite addModel_models.
    unfold Home.MAX_MODELS.
    destruct (3 <=? N.of_nat (length (Home.models st))) eqn:E; [|reflexivity].
    apply N.leb_le in E. lia.
Qed.

(** ** The result page *)

Section ResultFacts.

Variable searchApi
  : Search.SearchRequestBody
    -> JsResult (FetchResponse (option Pages.SearchReply.t)).
Variable generateApi
  : GenerateRequest.t -> JsResult (FetchResponse (option Pages.GenerateReply.t)).
Variable nullRead : jsstring -> jsstring.
Variable setItem : jsstring -> Pages.GenerateReply.t -> JsResult unit.

(** The loop asks once for every model, in order, and keeps what it finds. *)
Lemma searchAgain_spec (models : list jsstring)
    (acc : gmap jsstring (list Pages.SearchResultItem))
    (log : list ResultPage.Effect) :
  ResultPage.searchAgain searchApi nullRead models acc log
  = (Returned (foldl (fun acc model =>
                        Pages.assign acc model (foundAgain searchApi model))
                 acc models),
     log ++ map searchFor models).
Proof.
  revert acc log. induction models as [|model rest IH]; intros acc log.
  - simpl. unfold ret. now rewrite app_nil_r.
  - cbn [ResultPage.searchAgain foldl map]. run_page. unfold foundAgain at 2.
    replace (log ++ searchFor model :: map searchFor rest)
      with ((log ++ [searchFor model]) ++ map searchFor rest)
      by now rewrite <- app_assoc.
    destruct (searchApi _) as [response|e]; [|apply IH].
    destruct (ok response); [|apply IH].
    destruct (json response) as [[d|]|e]; apply IH.
Qed.

(** How the request to the generate endpoint ends. *)
Lemma generateAgain_cases (body : GenerateRequest.t) (log : list ResultPage.Effect) :
  let sent := log ++ [ResultPage.fetch (Pages.postGenerate body)] in
  (exists data article,
     accepted (generateApi body) data
     /\ Pages.GenerateReply.article data = Some article /\ article <> []
     /\ let shown :=
          sent ++ [ResultPage.setArticle article;
                   ResultPage.setEditedContent article;
                   ResultPage.setIsEditing false;
                   ResultPage.sessionStorage_setItem (js "generatedArticle") data] in
        (setItem (js "generatedArticle") data = Returned tt
         /\ ResultPage.generateAgain generateApi nullRead setItem body log
            = (Returned tt,
               shown ++ [ResultPage.setMetadata (Pages.GenerateReply.metadata data)]))
        \/ (exists e,
              setItem (js "generatedArticle") data = Threw e
              /\ ResultPage.generateAgain generateApi nullRead setItem body log
                 = (Threw e, shown)))
  \/ ((forall data article,
         accepted (generateApi body) data ->
         Pages.GenerateReply.article data = Some article -> article = [])
      /\ exists e,
           ResultPage.generateAgain generateApi nullRead setItem body log
           = (Threw e, sent)).
Proof.
  cbv zeta. unfold ResultPage.generateAgain. run_page.
  destruct (generateApi _) as [response|e] eqn:Hs.
  2: { right. split; [intros d a; not_accepted|]. eexists. reflexivity. }
  destruct (ok response) eqn:Hok; cbn [negb]; cbv beta iota.
  2: { right. split; [intros d a; not_accepted|].
       destruct (json response) as [[d|]|e]; eexists; reflexivity. }
  destruct (text response) as [t|e] eqn:Htext.
  2: { right. split; [intros d a; not_accepted|]. eexists. reflexivity. }
  destruct (truthy t) eqn:Htt; cbn [negb]; cbv beta iota.
  2: { right. split; [intros d a; not_accepted|]. eexists. reflexivity. }
  destruct (json response) as [[data|]|e] eqn:Hj.
  2, 3: right; (split; [intros d a; not_accepted|]); eexists; reflexivity.
  assert (Hacc : accepted (Returned response) data).
  { exists response, t. repeat split; try assumption. now apply truthy_true. }
  destruct (Pages.GenerateReply.article data) as [[|c article]|] eqn:Ha.
  1, 3: right; (split; [|eexists; reflexivity]); intros d a Hd Hda;
        rewrite <- (accepted_unique _ _ _ Hacc Hd) in Hda; congruence.
  left. exists data, (c :: article). split; [exact Hacc|]. split; [exact Ha|].
  split; [discriminate|].
  cbv zeta. destruct (setItem _ _) as [[]|e] eqn:Hset.
  - left. split; [reflexivity|]. now rewrite <- !app_assoc.
  - right. exists e. split; [reflexivity|]. now rewrite <- !app_assoc.
Qed.

Let regenerate := ResultPage.handleRegenerate searchApi generateApi nullRead setItem.

Lemma handleRegenerate_no_title (md : Pages.ArticleMetadata.t) :
  ResultPage.titleOf md = [] ->
  regenerate (Some md) []
  = (Returned tt,
     regenerateStart ++ [ResultPage.setRegenerateError (js "缺少文章标题，无法重新生成");
               ResultPage.setIsRegenerating false]).
Proof.
  intros H. unfold regenerate, ResultPage.handleRegenerate. cbv zeta. rewrite H.
  cbn [truthy negb]. cbv iota. reflexivity.
Qed.

Lemma handleRegenerate_no_models (md : Pages.ArticleMetadata.t) :
  ResultPage.titleOf md <> [] -> ResultPage.modelsOf md = [] ->
  regenerate (Some md) []
  = (Returned tt,
     regenerateStart ++ [ResultPage.setRegenerateError (js "缺少商品型号信息，无法重新生成");
               ResultPage.setIsRegenerating false]).
Proof.
  intros Ht H. unfold regenerate, ResultPage.handleRegenerate. cbv zeta. rewrite H.
  destruct (ResultPage.titleOf md); [now destruct Ht|].
  cbn [truthy negb length Nat.eqb]. cbv iota. reflexivity.
Qed.

Lemma no_keys {V} (m : gmap jsstring V) :
  (length (map_to_list m).*1 =? 0)%nat = true <-> m = ∅.
Proof.
  rewrite Nat.eqb_eq, length_fmap, length_zero_iff_nil.
  apply map_to_list_empty_iff.
Qed.

Lemma handleRegenerate_stored (md : Pages.ArticleMetadata.t) :
  ResultPage.titleOf md <> [] -> ResultPage.modelsOf md <> [] ->
  default ∅ (Pages.ArticleMetadata.searchData md) <> ∅ ->
  regenerate (Some md) []
  = regenerateEnd (ResultPage.generateAgain generateApi nullRead setItem
              (ResultPage.regenerateBody md (ResultPage.titleOf md)
                 (ResultPage.modelsOf md)
                 (default ∅ (Pages.ArticleMetadata.searchData md)))
              regenerateStart).
Proof.
  intros Ht Hm Hs. unfold regenerate, ResultPage.handleRegenerate. cbv zeta.
  destruct (ResultPage.titleOf md) as [|c title] eqn:Et; [now destruct Ht|].
  destruct (ResultPage.modelsOf md) as [|m ms] eqn:Em; [now destruct Hm|].
  cbn [truthy negb length Nat.eqb]. cbv iota.
  destruct (length (map_to_list (default ∅ (Pages.ArticleMetadata.searchData md))).*1
            =? 0)%nat eqn:Ek.
  { now apply no_keys in Ek. }
  run_page. cbn [app]. fold regenerateStart.
  destruct (ResultPage.generateAgain _ _ _ _ regenerateStart) as [[[]|e] log];
    [reflexivity | unfold regenerateEnd; now rewrite <- app_assoc].
Qed.

Lemma handleRegenerate_searched (md : Pages.ArticleMetadata.t) :
  ResultPage.titleOf md <> [] -> ResultPage.modelsOf md <> [] ->
  default ∅ (Pages.ArticleMetadata.searchData md) = ∅ ->
  let found :=
    foldl (fun acc model => Pages.assign acc model (foundAgain searchApi model))
      ∅ (ResultPage.modelsOf md) in
  let searched :=
    regenerateStart ++ [ResultPage.setRegenerateError (js "正在重新获取搜索数据...")]
    ++ map searchFor (ResultPage.modelsOf md) in
  regenerate (Some md) []
  = if existsb (fun results => (0 <? length results)%nat) (map_to_list found).*2
    then regenerateEnd (ResultPage.generateAgain generateApi nullRead setItem
                   (ResultPage.regenerateBody md (ResultPage.titleOf md)
                      (ResultPage.modelsOf md) found)
                   searched)
    else (Returned tt,
          searched
          ++ [ResultPage.setRegenerateError
                (js "无法获取搜索数据，请检查网络连接或返回首页重新生成");
              ResultPage.setIsRegenerating false]).
Proof.
  intros Ht Hm Hs. cbv zeta. unfold regenerate, ResultPage.handleRegenerate.
  cbv zeta. rewrite Hs.
  destruct (ResultPage.titleOf md) as [|c title] eqn:Et; [now destruct Ht|].
  destruct (ResultPage.modelsOf md) as [|m ms] eqn:Em; [now destruct Hm|].
  cbn [truthy negb length Nat.eqb]. cbv iota.
  replace (length (map_to_list (∅ : gmap jsstring (list Pages.SearchResultItem))).*1
           =? 0)%nat with true by now rewrite map_to_list_empty.
  run_page. rewrite searchAgain_spec. cbv beta iota. cbn [app]. fold regenerateStart.
  destruct (existsb _ _); cbn [negb]; cbv beta iota.
  - change (ResultPage.setIsRegenerating true
            :: ResultPage.setRegenerateError []
            :: ResultPage.setRegenerateError (js "正在重新获取搜索数据...")
            :: map searchFor (m :: ms))
      with (regenerateStart ++ [ResultPage.setRegenerateError (js "正在重新获取搜索数据...")]
            ++ map searchFor (m :: ms)).
    destruct (ResultPage.generateAgain _ _ _ _ _) as [[[]|e] log];
      [reflexivity | unfold regenerateEnd; now rewrite <- app_assoc].
  - cbn [Pages.messageOr newError]. now rewrite <- !app_assoc.
Qed.

End ResultFacts.

Lemma has_results (m : gmap jsstring (list Pages.SearchResultItem)) :
  existsb (fun results => (0 <? length results)%nat) (map_to_list m).*2 = true
  <-> exists model items, m !! model = Some items /\ items <> [].
Proof.
  rewrite existsb_exists. split.
  - intros [items [Hin Hlen]]. apply list_elem_of_In, list_elem_of_fmap in Hin
      as [[model items'] [-> Hin]].
    apply elem_of_map_to_list in Hin. exists model, items'. split; [exact Hin|].
    simpl in Hlen. destruct items'; [discriminate Hlen | discriminate].
  - intros [model [items [Hl Hne]]]. exists items. split.
    + apply list_elem_of_In, list_elem_of_fmap. exists (model, items).
      split; [reflexivity|]. now apply elem_of_map_to_list.
    + destruct items; [now destruct Hne | reflexivity].
Qed.

Lemma resultRequests_app (l1 l2 : list ResultPage.Effect) :
  resultRequests (l1 ++ l2) = resultRequests l1 ++ resultRequests l2.
Proof. apply omap_app. Qed.

Lemma resultRequests_searches (models : list jsstring) :
  resultRequests (map searchFor models)
  = map (fun model => Pages.postSearch {| Search.model := Some model |}) models.
Proof.
  induction models as [|m ms IH]; [reflexivity|].
  cbn [map]. rewrite <- IH. reflexivity.
Qed.

Lemma result_settle_app (st : ResultPage.State) (l1 l2 : list ResultPage.Effect) :
  ResultPage.settle st (l1 ++ l2) = ResultPage.settle (ResultPage.settle st l1) l2.
Proof. apply foldl_app. Qed.

(** Requests change nothing on the page. *)
Lemma result_settle_searches (st : ResultPage.State) (models : list jsstring) :
  ResultPage.settle st (map searchFor models) = st.
Proof.
  induction models as [|m ms IH]; [reflexivity|]. exact IH.
Qed.

Section Regenerating.

Variable searchApi
  : Search.SearchRequestBody
    -> JsResult (FetchResponse (option Pages.SearchReply.t)).
Variable generateApi
  : GenerateRequest.t -> JsResult (FetchResponse (option Pages.GenerateReply.t)).
Variable nullRead : jsstring -> jsstring.
Variable setItem : jsstring -> Pages.GenerateReply.t -> JsResult unit.

(** The request to the generate endpoint with the clauses that follow it. *)
Lemma generateAgain_ended (body : GenerateRequest.t) (log : list ResultPage.Effect) :
  let ended :=
    regenerateEnd (ResultPage.generateAgain generateApi nullRead setItem body log) in
  let sent := log ++ [ResultPage.fetch (Pages.postGenerate body)] in
  (exists data article,
     accepted (generateApi body) data
     /\ Pages.GenerateReply.article data = Some article /\ article <> []
     /\ let shown :=
          sent ++ [ResultPage.setArticle article;
                   ResultPage.setEditedContent article;
                   ResultPage.setIsEditing false;
                   ResultPage.sessionStorage_setItem (js "generatedArticle") data] in
        (setItem (js "generatedArticle") data = Returned tt
         /\ ended
            = (Returned tt,
               shown ++ [ResultPage.setMetadata (Pages.GenerateReply.metadata data);
                         ResultPage.setIsRegenerating false]))
        \/ (exists e,
              setItem (js "generatedArticle") data = Threw e
              /\ ended
                 = (Returned tt,
                    shown ++ [ResultPage.setRegenerateError
                                (Pages.messageOr e (js "重新生成失败，请重试"));
                              ResultPage.setIsRegenerating false])))
  \/ ((forall data article,
         accepted (generateApi body) data ->
         Pages.GenerateReply.article data = Some article -> article = [])
      /\ exists message,
           ended
           = (Returned tt,
              sent ++ [ResultPage.setRegenerateError message;
                       ResultPage.setIsRegenerating false])).
Proof.
  cbv zeta.
  destruct (generateAgain_cases generateApi nullRead setItem body log)
    as [(d & a & Hacc & Ha & Hne & [[Hset ->] | [e [Hset ->]]]) | [Hno [e ->]]].
  - left. exists d, a. repeat (split; [assumption|]). left.
    split; [exact Hset|]. unfold regenerateEnd. now rewrite <- !app_assoc.
  - left. exists d, a. repeat (split; [assumption|]). right. exists e.
    split; [exact Hset|]. reflexivity.
  - right. split; [exact Hno|]. eexists. reflexivity.
Qed.

Lemma generateAgain_requests (body : GenerateRequest.t)
    (log : list ResultPage.Effect) (st : ResultPage.State) :
  let ended :=
    regenerateEnd (ResultPage.generateAgain generateApi nullRead setItem body log) in
  fst ended = Returned tt
  /\ resultRequests (snd ended) = resultRequests log ++ [Pages.postGenerate body]
  /\ ResultPage.isRegenerating (ResultPage.settle st (snd ended)) = false.
Proof.
  cbv zeta.
  destruct (generateAgain_ended body log)
    as [(d & a & _ & _ & _ & [[_ ->] | [e [_ ->]]]) | [_ [msg ->]]];
    cbn [fst snd]; (split; [reflexivity|]);
    rewrite !resultRequests_app, <- !app_assoc, !result_settle_app;
    split; reflexivity.
Qed.

End Regenerating.

(** X17. Regenerating from the result page.  [handleRegenerate] never
    throws and is no longer regenerating at the end.  Without a title (or
    question), or without models, it sends nothing and shows why.  With
    stored search data it sends one request, to the generate endpoint, with
    the stored title, models and search data, and no manual prompt.  Without
    stored search data it first searches again, once for every model in
    order; it then sends the generate request with what it found when some
    model has a result, and otherwise stops with a message. *)
Theorem regenerate_requests
    (searchApi : Search.SearchRequestBody
                 -> JsResult (FetchResponse (option Pages.SearchReply.t)))
    (generateApi : GenerateRequest.t
                   -> JsResult (FetchResponse (option Pages.GenerateReply.t)))
    (nullRead : jsstring -> jsstring)
    (setItem : jsstring -> Pages.GenerateReply.t -> JsResult unit)
    (st : ResultPage.State) (md : Pages.ArticleMetadata.t) :
  let result :=
    ResultPage.handleRegenerate searchApi generateApi nullRead setItem (Some md) [] in
  let after := ResultPage.settle st (snd result) in
  let title := ResultPage.titleOf md in
  let models := ResultPage.modelsOf md in
  let stored := default ∅ (Pages.ArticleMetadata.searchData md) in
  let found :=
    foldl (fun acc model => Pages.assign acc model (foundAgain searchApi model))
      ∅ models in
  let search model := Pages.postSearch {| Search.model := Some model |} in
  let generate searchData :=
    Pages.postGenerate
      {| GenerateRequest.title := Some title;
         GenerateRequest.models := Some models;
         GenerateRequest.searchData := Some searchData;
         GenerateRequest.manualPrompt := None;
         GenerateRequest.contentType :=
           Some (or_else (Pages.ArticleMetadata.contentType md) (js "discussion"));
         GenerateRequest.stylePreference :=
           Some (or_else (Pages.ArticleMetadata.stylePreference md) (js "random")) |} in
  fst result = Returned tt
  /\ ResultPage.isRegenerating after = false
  /\ (title = [] ->
      resultRequests (snd result) = []
      /\ ResultPage.regenerateError after = js "缺少文章标题，无法重新生成")
  /\ (title <> [] -> models = [] ->
      resultRequests (snd result) = []
      /\ ResultPage.regenerateError after = js "缺少商品型号信息，无法重新生成")
  /\ (title <> [] -> models <> [] -> stored <> ∅ ->
      resultRequests (snd result) = [generate stored])
  /\ (title <> [] -> models <> [] -> stored = ∅ ->
      (exists model items, found !! model = Some items /\ items <> []) ->
      resultRequests (snd result) = map search models ++ [generate found])
  /\ (title <> [] -> models <> [] -> stored = ∅ ->
      (forall model items, found !! model = Some items -> items = []) ->
      resultRequests (snd result) = map search models
      /\ ResultPage.regenerateError after
         = js "无法获取搜索数据，请检查网络连接或返回首页重新生成").
Proof.
  cbv zeta.
  destruct (decide (ResultPage.titleOf md = [])) as [Ht|Ht].
  { rewrite (handleRegenerate_no_title searchApi generateApi nullRead setItem md Ht).
    cbn [fst snd]. rewrite result_settle_app.
    split; [reflexivity|]. split; [reflexivity|]. split; [now split|].
    split; [intros; contradiction|]. split; [intros; contradiction|].
    split; intros; contradiction. }
  destruct (decide (ResultPage.modelsOf md = [])) as [Hm|Hm].
  { rewrite (handleRegenerate_no_models searchApi generateApi nullRead setItem
               md Ht Hm).
    cbn [fst snd]. rewrite result_settle_app.
    split; [reflexivity|]. split; [reflexivity|].
    split; [intros; contradiction|]. split; [now split|].
    split; [intros; contradiction|]. split; intros; contradiction. }
  destruct (decide (default ∅ (Pages.ArticleMetadata.searchData md) = ∅)) as [Hs|Hs].
  2: { rewrite (handleRegenerate_stored searchApi generateApi nullRead setItem
                  md Ht Hm Hs).
       destruct (generateAgain_requests generateApi nullRead setItem
                   (ResultPage.regenerateBody md (ResultPage.titleOf md)
                      (ResultPage.modelsOf md)
                      (default ∅ (Pages.ArticleMetadata.searchData md)))
                   regenerateStart st) as [H1 [H2 H3]].
       split; [exact H1|]. split; [exact H3|].
       split; [intros; contradiction|]. split; [intros; contradiction|].
       split; [intros _ _ _; exact H2|].
       split; intros; contradiction. }
  pose proof (handleRegenerate_searched searchApi generateApi nullRead setItem
                md Ht Hm Hs) as Hrun. cbv zeta in Hrun. rewrite Hrun. clear Hrun.
  destruct (existsb _ _) eqn:Hex.
  - destruct (generateAgain_requests generateApi nullRead setItem
                (ResultPage.regenerateBody md (ResultPage.titleOf md)
                   (ResultPage.modelsOf md)
                   (foldl (fun acc model =>
                             Pages.assign acc model (foundAgain searchApi model))
                      ∅ (ResultPage.modelsOf md)))
                (regenerateStart
                 ++ [ResultPage.setRegenerateError (js "正在重新获取搜索数据...")]
                 ++ map searchFor (ResultPage.modelsOf md)) st) as [H1 [H2 H3]].
    split; [exact H1|]. split; [exact H3|].
    split; [intros; contradiction|]. split; [intros; contradiction|].
    split; [intros; contradiction|]. split.
    + intros _ _ _ _. rewrite H2, !resultRequests_app, resultRequests_searches.
      reflexivity.
    + intros _ _ _ Hnone. apply has_results in Hex as [model [items [Hl Hne]]].
      now destruct (Hne (Hnone model items Hl)).
  - cbn [fst snd]. split; [reflexivity|].
    rewrite !resultRequests_app, resultRequests_searches, !result_settle_app,
      result_settle_searches.
    split; [reflexivity|].
    split; [intros; contradiction|]. split; [intros; contradiction|].
    split; [intros; contradiction|]. split.
    + intros _ _ _ Hsome. apply has_results in Hsome. congruence.
    + intros _ _ _ _. split; [now rewrite app_nil_r | reflexivity].
Qed.

Lemma quiet_settle (log : list ResultPage.Effect) (st : ResultPage.State) :
  Forall quiet log -> sameArticle (ResultPage.settle st log) st.
Proof.
  intros H. revert st. induction H as [|e log He _ IH]; intros st.
  - repeat split.
  - change (ResultPage.settle st (e :: log))
      with (ResultPage.settle (ResultPage.apply st e) log).
    destruct (IH (ResultPage.apply st e)) as (H1 & H2 & H3 & H4).
    unfold sameArticle. rewrite H1, H2, H3, H4.
    destruct e as [| | | | | |[]|]; try (now destruct He); repeat split.
Qed.

Lemma quiet_requests (log : list ResultPage.Effect) (body : GenerateRequest.t) :
  Forall quiet log -> Pages.postGenerate body ∉ resultRequests log.
Proof.
  intros H. induction H as [|e log He _ IH]; [apply not_elem_of_nil|].
  destruct e as [| | | | | |[]|]; try (now destruct He); try exact IH.
  unfold resultRequests in *. cbn [omap list_omap]. intros Hin.
  apply elem_of_cons in Hin as [Hin | Hin]; [discriminate Hin | now apply IH].
Qed.

Lemma quiet_searches (models : list jsstring) : Forall quiet (map searchFor models).
Proof. induction models; constructor; [exact I | assumption]. Qed.

Section RegenerateCases.

Variable searchApi
  : Search.SearchRequestBody
    -> JsResult (FetchResponse (option Pages.SearchReply.t)).
Variable generateApi
  : GenerateRequest.t -> JsResult (FetchResponse (option Pages.GenerateReply.t)).
Variable nullRead : jsstring -> jsstring.
Variable setItem : jsstring -> Pages.GenerateReply.t -> JsResult unit.

(** The handler either stops before the request to the generate endpoint, or
    sends it after effects that are all quiet. *)
Lemma handleRegenerate_cases (md : Pages.ArticleMetadata.t) :
  let run :=
    ResultPage.handleRegenerate searchApi generateApi nullRead setItem (Some md) [] in
  (exists before message,
     Forall quiet before
     /\ run = (Returned tt,
               before ++ [ResultPage.setRegenerateError message;
                          ResultPage.setIsRegenerating false]))
  \/ (exists before searchData,
        Forall quiet before
        /\ run = regenerateEnd
                   (ResultPage.generateAgain generateApi nullRead setItem
                      (ResultPage.regenerateBody md (ResultPage.titleOf md)
                         (ResultPage.modelsOf md) searchData)
                      before)).
Proof.
  cbv zeta.
  assert (Hstart : Forall quiet regenerateStart) by (repeat constructor).
  destruct (decide (ResultPage.titleOf md = [])) as [Ht|Ht].
  { left. rewrite (handleRegenerate_no_title searchApi generateApi nullRead setItem md Ht).
    eexists _, _. split; [exact Hstart | reflexivity]. }
  destruct (decide (ResultPage.modelsOf md = [])) as [Hm|Hm].
  { left. rewrite (handleRegenerate_no_models searchApi generateApi nullRead setItem
                     md Ht Hm).
    eexists _, _. split; [exact Hstart | reflexivity]. }
  destruct (decide (default ∅ (Pages.ArticleMetadata.searchData md) = ∅)) as [Hs|Hs].
  2: { right. rewrite (handleRegenerate_stored searchApi generateApi nullRead setItem
                         md Ht Hm Hs).
       eexists _, _. split; [exact Hstart | reflexivity]. }
  pose proof (handleRegenerate_searched searchApi generateApi nullRead setItem
                md Ht Hm Hs) as Hrun. cbv zeta in Hrun. rewrite Hrun. clear Hrun.
  assert (Hquiet : Forall quiet
            (regenerateStart
             ++ [ResultPage.setRegenerateError (js "正在重新获取搜索数据...")]
             ++ map searchFor (ResultPage.modelsOf md))).
  { apply Forall_app. split; [exact Hstart|]. apply Forall_app.
    split; [repeat constructor | apply quiet_searches]. }
  destruct (existsb _ _).
  - right. eexists _, _. split; [exact Hquiet | reflexivity].
  - left. eexists _, _. split; [exact Hquiet | reflexivity].
Qed.

End RegenerateCases.

(** X18. What regenerating changes on the page.  The article, its edited
    copy, the editing flag and the metadata stay as they are unless a
    request to the generate endpoint is sent and its answer is accepted with
    a non-empty article.  Then the article and its edited copy become that
    article, editing is left, and the answer is handed to the session
    storage: when it could be stored the metadata become those of the
    answer; when not, the metadata stay and the error of the storage is
    shown, the article having been replaced already. *)
Theorem regenerate_outcome
    (searchApi : Search.SearchRequestBody
                 -> JsResult (FetchResponse (option Pages.SearchReply.t)))
    (generateApi : GenerateRequest.t
                   -> JsResult (FetchResponse (option Pages.GenerateReply.t)))
    (nullRead : jsstring -> jsstring)
    (setItem : jsstring -> Pages.GenerateReply.t -> JsResult unit)
    (st : ResultPage.State) (md : Pages.ArticleMetadata.t) :
  let result :=
    ResultPage.handleRegenerate searchApi generateApi nullRead setItem (Some md) [] in
  let after := ResultPage.settle st (snd result) in
  ((forall body, Pages.postGenerate body ∉ resultRequests (snd result)) ->
   sameArticle after st)
  /\ (forall body,
        Pages.postGenerate body ∈ resultRequests (snd result) ->
        ((forall data article,
            accepted (generateApi body) data ->
            Pages.GenerateReply.article data = Some article -> article = []) ->
         sameArticle after st)
        /\ (forall data article,
              accepted (generateApi body) data ->
              Pages.GenerateReply.article data = Some article -> article <> [] ->
              ResultPage.article after = article
              /\ ResultPage.editedContent after = article
              /\ ResultPage.isEditing after = false
              /\ ResultPage.sessionStorage_setItem (js "generatedArticle") data
                 ∈ snd result
              /\ (setItem (js "generatedArticle") data = Returned tt ->
                  ResultPage.metadata after = Pages.GenerateReply.metadata data)
              /\ (forall e,
                    setItem (js "generatedArticle") data = Threw e ->
                    ResultPage.metadata after = ResultPage.metadata st
                    /\ ResultPage.regenerateError after
                       = Pages.messageOr e (js "重新生成失败，请重试")))).
Proof.
  cbv zeta.
  destruct (handleRegenerate_cases searchApi generateApi nullRead setItem md)
    as [(before & message & Hq & ->) | (before & searchData & Hq & ->)].
  { assert (Hall : Forall quiet
              (before ++ [ResultPage.setRegenerateError message;
                          ResultPage.setIsRegenerating false])).
    { apply Forall_app. split; [exact Hq | repeat constructor]. }
    cbn [snd]. split; [intros _; now apply quiet_settle|].
    intros body Hin. now apply (quiet_requests _ body) in Hall. }
  set (body := ResultPage.regenerateBody md _ _ searchData).
  assert (Hbody : forall b log,
            Pages.postGenerate b
            ∈ resultRequests
                ((before ++ [ResultPage.fetch (Pages.postGenerate body)]) ++ log) ->
            resultRequests log = [] -> b = body).
  { intros b log Hin Hlog.
    rewrite !resultRequests_app, Hlog, app_nil_r in Hin.
    apply elem_of_app in Hin as [Hin | Hin].
    - now apply (quiet_requests _ b) in Hq.
    - apply list_elem_of_singleton in Hin. now injection Hin. }
  assert (Hsent : forall log,
            Pages.postGenerate body
            ∈ resultRequests
                ((before ++ [ResultPage.fetch (Pages.postGenerate body)]) ++ log)).
  { intros log. rewrite !resultRequests_app. apply elem_of_app. left.
    apply elem_of_app. right. apply list_elem_of_here. }
  destruct (quiet_settle before st Hq) as (Q1 & Q2 & Q3 & Q4).
  destruct (generateAgain_ended generateApi nullRead setItem body before)
    as [(d & a & Hacc & Ha & Hne & [[Hset ->] | [e [Hset ->]]]) | [Hno [msg ->]]];
    cbn [snd]; rewrite !result_settle_app.
  - split; [intros Hnone; destruct (Hnone body); rewrite <- app_assoc; apply Hsent|].
    intros b Hin. rewrite <- app_assoc in Hin.
    apply Hbody in Hin; [subst b | reflexivity].
    split; [intros Hnone; now destruct (Hne (Hnone d a Hacc Ha))|].
    intros d' a' Hd' Ha' _. rewrite <- (accepted_unique _ _ _ Hacc Hd') in *.
    assert (a' = a) by congruence. subst a'.
    split; [reflexivity|]. split; [reflexivity|]. split; [reflexivity|].
    split.
    { apply elem_of_app. left. apply elem_of_app. right.
      do 3 apply list_elem_of_further. apply list_elem_of_here. }
    split; [reflexivity|]. intros e He. congruence.
  - split; [intros Hnone; destruct (Hnone body); rewrite <- app_assoc; apply Hsent|].
    intros b Hin. rewrite <- app_assoc in Hin.
    apply Hbody in Hin; [subst b | reflexivity].
    split; [intros Hnone; now destruct (Hne (Hnone d a Hacc Ha))|].
    intros d' a' Hd' Ha' _. rewrite <- (accepted_unique _ _ _ Hacc Hd') in *.
    assert (a' = a) by congruence. subst a'.
    split; [reflexivity|]. split; [reflexivity|]. split; [reflexivity|].
    split.
    { apply elem_of_app. left. apply elem_of_app. right.
      do 3 apply list_elem_of_further. apply list_elem_of_here. }
    split; [intros He; congruence|]. intros e' He'.
    assert (e' = e) by congruence. subst e'. split; [exact Q4 | reflexivity].
  - split; [intros Hnone; now destruct (Hnone body (Hsent _))|].
    intros b Hin. apply Hbody in Hin; [subst b | reflexivity].
    split.
    + intros _. unfold sameArticle.
      cbn [ResultPage.settle foldl ResultPage.apply ResultPage.article
             ResultPage.editedContent ResultPage.isEditing ResultPage.metadata].
      repeat split; assumption.
    + intros d' a' Hd' Ha' Hne'. now destruct (Hne' (Hno d' a' Hd' Ha')).
Qed.

(** ** From the form to the result page *)

(** The handler reads of a request its title, models, search data, content
    type and style preference, the first four after normalising them. *)
Lemma generate_handle_same readFileSync cwd env now network
    (b b' : GenerateRequest.t) :
  requestTitle b = requestTitle b' ->
  requestModels b = requestModels b' ->
  requestContentType b = requestContentType b' ->
  requestStyle b = requestStyle b' ->
  GenerateRequest.searchData b = GenerateRequest.searchData b' ->
  Generate.handle readFileSync cwd env now network (Returned b)
  = Generate.handle readFileSync cwd env now network (Returned b').
Proof.
  intros Ht Hm Hc Hs Hd. unfold Generate.handle, Generate.POST.
  unfold tryCatch at 1 3. unfold bind at 1 4. unfold await at 1 3. cbv beta iota.
  fold (requestTitle b) (requestModels b) (requestContentType b) (requestStyle b).
  fold (requestTitle b') (requestModels b') (requestContentType b') (requestStyle b').
  rewrite Ht, Hm, Hc, Hs, Hd. reflexivity.
Qed.

(** A 200 answer comes from a validated request and echoes it. *)
Lemma generate_200_inv readFileSync cwd env now network
    (body : GenerateRequest.t) (article : jsstring) (metadata : Metadata.t) :
  fst (Generate.handle readFileSync cwd env now network (Returned body))
  = Returned (Response_json (ArticlePayload article metadata) 200) ->
  validated body = true
  /\ metadata
     = {| Metadata.title := default [] (requestTitle body);
          Metadata.models := requestModels body;
          Metadata.contentType := requestContentType body;
          Metadata.stylePreference := requestStyle body;
          Metadata.generatedAt := now |}.
Proof.
  intros H.
  destruct (truthy_opt (requestTitle body)) eqn:Ht.
  2: { rewrite (generate_no_title _ _ _ _ _ body Ht) in H. discriminate H. }
  destruct (hasModels body && lacksSearchData body) eqn:Hs.
  { apply andb_true_iff in Hs as [Hm Hl].
    rewrite (generate_no_searchData _ _ _ _ _ body Ht Hm Hl) in H. discriminate H. }
  assert (Hv : validated body = true) by (unfold validated; now rewrite Ht, Hs).
  split; [exact Hv|].
  destruct (generate_validated_answer readFileSync cwd env now network body Hv)
    as [r [Hr [[Hstatus _] | [_ [a [_ Hbody]]]]]];
    rewrite Hr in H; injection H as ->.
  - discriminate Hstatus.
  - cbn [responseBody Response_json] in Hbody. now injection Hbody.
Qed.

Lemma or_else_idem (o : option jsstring) (d : jsstring) :
  or_else (Some (or_else o d)) d = or_else o d.
Proof.
  destruct o as [s|]; cbn [or_else].
  - destruct (truthy s) eqn:E; [now rewrite E|]. now destruct (truthy d).
  - now destruct (truthy d).
Qed.

Lemma normal_models (l : list jsstring) :
  (length l <= 3)%nat -> (forall m, m ∈ l -> m <> [] /\ trim m = m) ->
  slice0 3 (List.filter truthy (map trim l)) = l.
Proof.
  intros Hlen H. unfold slice0.
  assert (E : List.filter truthy (map trim l) = l).
  { clear Hlen. induction l as [|x l IH]; [reflexivity|].
    destruct (H x (list_elem_of_here _ _)) as [Hne Htrim].
    cbn [map List.filter]. rewrite Htrim.
    destruct x; [now destruct Hne|]. cbn [truthy]. f_equal.
    apply IH. intros m Hm. apply H. now apply list_elem_of_further. }
  rewrite E. now apply take_ge.
Qed.

Section Stored.

Variable readFileSync : jsstring -> JsResult jsstring.
Variable cwd : jsstring.
Variable env : jsstring -> option jsstring.
Variable now : jsstring.
Variable network : FetchCall -> Settlement.
Variable form : Home.State.
Variable article : jsstring.
Variable metadata : Metadata.t.

Hypothesis answered :
  fst (Generate.handle readFileSync cwd env now network (Returned (Home.payload form)))
  = Returned (Response_json (ArticlePayload article metadata) 200).

(** The metadata the form stores with the article. *)
Let saved : option Pages.ArticleMetadata.t :=
  Pages.GenerateReply.metadata
    (Home.dataToSave (parsed (ArticlePayload article metadata))
       (GenerateRequest.searchData (Home.payload form))).

Lemma saved_metadata :
  exists searchData,
    GenerateRequest.searchData (Home.payload form) = Some searchData
    /\ saved
       = Some {| Pages.ArticleMetadata.title := Some (trim (Home.title form));
                 Pages.ArticleMetadata.models := Some (requestModels (Home.payload form));
                 Pages.ArticleMetadata.searchData := Some searchData;
                 Pages.ArticleMetadata.contentType :=
                   Some (requestContentType (Home.payload form));
                 Pages.ArticleMetadata.stylePreference :=
                   Some (requestStyle (Home.payload form));
                 Pages.ArticleMetadata.generatedAt := Some now;
                 Pages.ArticleMetadata.question := None;
                 Pages.ArticleMetadata.products := None |}
    /\ trim (Home.title form) <> []
    /\ (requestModels (Home.payload form) <> [] -> searchData <> ∅).
Proof.
  destruct (generate_200_inv _ _ _ _ _ _ _ _ answered) as [Hv ->].
  pose proof (validated_title _ Hv) as Ht.
  pose proof (validated_searchData _ Hv) as Hs.
  rewrite payload_requestTitle in Ht. cbn [truthy_opt] in Ht.
  destruct (GenerateRequest.searchData (Home.payload form)) as [searchData|] eqn:Hd.
  2: { unfold Home.payload in Hd. discriminate Hd. }
  exists searchData. split; [reflexivity|]. split.
  { unfold saved. rewrite ?Hd. unfold Home.dataToSave, parsed, parsedMetadata.
    cbn [Pages.GenerateReply.metadata Pages.GenerateReply.error
           Pages.GenerateReply.article Pages.ArticleMetadata.title
           Pages.ArticleMetadata.models Pages.ArticleMetadata.contentType
           Pages.ArticleMetadata.stylePreference Pages.ArticleMetadata.generatedAt
           Pages.ArticleMetadata.question Pages.ArticleMetadata.products
           Metadata.title Metadata.models Metadata.contentType
           Metadata.stylePreference Metadata.generatedAt].
    now rewrite payload_requestTitle. }
  split; [now apply truthy_true|].
  intros Hm ->. apply hasModels_spec in Hm. rewrite Hm in Hs. cbn [andb] in Hs.
  apply not_true_iff_false in Hs. apply Hs, lacksSearchData_spec. now right.
Qed.

End Stored.

Lemma titleOf_stored (t : jsstring) (md : Pages.ArticleMetadata.t) :
  Pages.ArticleMetadata.title md = Some t -> t <> [] -> ResultPage.titleOf md = t.
Proof.
  intros H Hne. unfold ResultPage.titleOf. rewrite H. cbn [or_else].
  destruct t; [now destruct Hne | reflexivity].
Qed.

(** X19. An article written without products cannot be regenerated.  When
    the form has no model with a name and its submission is answered 200,
    the metadata it stores with the article hold an empty list of models;
    [handleRegenerate] on these metadata sends no request, shows that the
    product models are missing, and leaves the article as it is. *)
Theorem regenerate_needs_models
    readFileSync cwd env now network
    (searchApi : Search.SearchRequestBody
                 -> JsResult (FetchResponse (option Pages.SearchReply.t)))
    (generateApi : GenerateRequest.t
                   -> JsResult (FetchResponse (option Pages.GenerateReply.t)))
    (nullRead : jsstring -> jsstring)
    (setItem : jsstring -> Pages.GenerateReply.t -> JsResult unit)
    (form : Home.State) (page : ResultPage.State)
    (article : jsstring) (metadata : Metadata.t) :
  Home.activeModels (Home.models form) = [] ->
  fst (Generate.handle readFileSync cwd env now network (Returned (Home.payload form)))
  = Returned (Response_json (ArticlePayload article metadata) 200) ->
  let saved :=
    Home.dataToSave (parsed (ArticlePayload article metadata))
      (GenerateRequest.searchData (Home.payload form)) in
  let result :=
    ResultPage.handleRegenerate searchApi generateApi nullRead setItem
      (Pages.GenerateReply.metadata saved) [] in
  let after := ResultPage.settle page (snd result) in
  (exists md, Pages.GenerateReply.metadata saved = Some md
              /\ Pages.ArticleMetadata.models md = Some [])
  /\ resultRequests (snd result) = []
  /\ ResultPage.regenerateError after = js "缺少商品型号信息，无法重新生成"
  /\ sameArticle after page.
Proof.
  intros Hactive Hanswer. cbv zeta.
  destruct (saved_metadata _ _ _ _ _ _ _ _ Hanswer) as (sd & _ & Hsaved & Ht & _).
  cbv zeta in Hsaved. rewrite Hsaved.
  assert (Hmodels : requestModels (Home.payload form) = []).
  { rewrite payload_requestModels, Hactive. reflexivity. }
  rewrite Hmodels. split; [eexists; split; reflexivity|].
  rewrite (handleRegenerate_no_models searchApi generateApi nullRead setItem).
  - cbn [snd]. rewrite result_settle_app. split; [reflexivity|].
    split; [reflexivity|]. repeat split.
  - now rewrite (titleOf_stored (trim (Home.title form))).
  - reflexivity.
Qed.

(** X20. Regenerating an article written for products repeats the
    submission.  When the form has a model with a name and its submission is
    answered 200, [handleRegenerate] on the metadata stored with the article
    sends one request, to the generate endpoint and without a manual prompt,
    and nothing to the search endpoint.  The generate handler answers this
    request as it answers the submission, whatever the clock and the
    completion endpoint: the request passes validation and leads to the
    same completion call. *)
Theorem regenerate_repeats_submission
    readFileSync cwd env now network
    (searchApi : Search.SearchRequestBody
                 -> JsResult (FetchResponse (option Pages.SearchReply.t)))
    (generateApi : GenerateRequest.t
                   -> JsResult (FetchResponse (option Pages.GenerateReply.t)))
    (nullRead : jsstring -> jsstring)
    (setItem : jsstring -> Pages.GenerateReply.t -> JsResult unit)
    (form : Home.State) (article : jsstring) (metadata : Metadata.t) :
  Home.activeModels (Home.models form) <> [] ->
  fst (Generate.handle readFileSync cwd env now network (Returned (Home.payload form)))
  = Returned (Response_json (ArticlePayload article metadata) 200) ->
  let saved :=
    Home.dataToSave (parsed (ArticlePayload article metadata))
      (GenerateRequest.searchData (Home.payload form)) in
  let result :=
    ResultPage.handleRegenerate searchApi generateApi nullRead setItem
      (Pages.GenerateReply.metadata saved) [] in
  exists again,
    resultRequests (snd result) = [Pages.postGenerate again]
    /\ GenerateRequest.manualPrompt again = None
    /\ validated again = true
    /\ completionCall readFileSync cwd env again
       = completionCall readFileSync cwd env (Home.payload form)
    /\ forall now' network',
         Generate.handle readFileSync cwd env now' network' (Returned again)
         = Generate.handle readFileSync cwd env now' network'
             (Returned (Home.payload form)).
Proof.
  intros Hactive Hanswer. cbv zeta.
  destruct (generate_200_inv _ _ _ _ _ _ _ _ Hanswer) as [Hv _].
  destruct (saved_metadata _ _ _ _ _ _ _ _ Hanswer) as (sd & Hd & Hsaved & Ht & Hsd).
  cbv zeta in Hsaved. rewrite Hsaved. clear Hsaved.
  set (md := {| Pages.ArticleMetadata.title := Some (trim (Home.title form));
                Pages.ArticleMetadata.searchData := Some sd |}).
  assert (Hmodels : requestModels (Home.payload form) <> []).
  { now apply hasModels_spec, payload_hasModels. }
  assert (Htitle : ResultPage.titleOf md = trim (Home.title form)).
  { now apply titleOf_stored. }
  set (again := ResultPage.regenerateBody md (ResultPage.titleOf md)
                  (ResultPage.modelsOf md)
                  (default ∅ (Pages.ArticleMetadata.searchData md))).
  assert (E1 : requestTitle again = requestTitle (Home.payload form)).
  { rewrite payload_requestTitle. unfold requestTitle, again.
    cbn [ResultPage.regenerateBody GenerateRequest.title option_map].
    now rewrite Htitle, trim_idem. }
  assert (E2 : requestModels again = requestModels (Home.payload form)).
  { unfold requestModels at 1. unfold again.
    cbn [ResultPage.regenerateBody GenerateRequest.models default
           ResultPage.modelsOf md Pages.ArticleMetadata.models].
    destruct (requestModels_spec (Home.payload form)) as [Hlen Hall].
    apply normal_models; [exact Hlen|].
    intros m Hm. destruct (Hall m Hm) as (H1 & H2 & _). now split. }
  assert (E3 : requestContentType again = requestContentType (Home.payload form)).
  { unfold requestContentType at 1. unfold again.
    cbn [ResultPage.regenerateBody GenerateRequest.contentType md
           Pages.ArticleMetadata.contentType].
    unfold requestContentType. now rewrite !or_else_idem. }
  assert (E4 : requestStyle again = requestStyle (Home.payload form)).
  { unfold requestStyle at 1. unfold again.
    cbn [ResultPage.regenerateBody GenerateRequest.stylePreference md
           Pages.ArticleMetadata.stylePreference].
    unfold requestStyle. now rewrite !or_else_idem. }
  assert (E5 : GenerateRequest.searchData again
               = GenerateRequest.searchData (Home.payload form)).
  { now rewrite Hd. }
  exists again. split.
  { rewrite (handleRegenerate_stored searchApi generateApi nullRead setItem md).
    - fold again.
      destruct (generateAgain_requests generateApi nullRead setItem again
                  regenerateStart
                  {| ResultPage.article := []; ResultPage.metadata := None;
                     ResultPage.isEditing := false; ResultPage.editedContent := [];
                     ResultPage.isRegenerating := false;
                     ResultPage.regenerateError := [] |}) as (_ & H & _).
      exact H.
    - now rewrite Htitle.
    - exact Hmodels.
    - cbn [md Pages.ArticleMetadata.searchData default]. now apply Hsd. }
  split; [reflexivity|].
  split.
  { unfold validated, hasModels, lacksSearchData in *. now rewrite E1, E2, E5. }
  split.
  { unfold completionCall, systemPrompt, userPrompt, searchDigest, hasModels.
    now rewrite E1, E2, E3, E4, E5. }
  intros now' network'. now apply generate_handle_same.
Qed.

(** ** The pages and the handlers together *)

Lemma delivered_accepted {B D} (parse : B -> D) (r : HttpResponse B)
    (response : FetchResponse (option D)) :
  delivered parse r response -> ok response = true ->
  accepted (Returned response) (parse (responseBody r)).
Proof.
  intros (_ & [t [Ht Hne]] & Hj) Hok. now exists response, t.
Qed.

(** A search that the endpoint refuses: the form shows the message of the
    answer. *)
Lemma handleFetchSearch_refused searchApi nullRead (st : Home.State)
    (modelId : jsstring) (target : Home.ModelEntry.t)
    (response : FetchResponse (option Pages.SearchReply.t))
    (data : Pages.SearchReply.t) :
  List.find (fun m => bool_decide (Home.ModelEntry.id m = modelId)) (Home.models st)
  = Some target ->
  trim (Home.ModelEntry.name target) <> [] ->
  let body := {| Search.model := Some (trim (Home.ModelEntry.name target)) |} in
  searchApi body = Returned response -> ok response = false ->
  json response = Returned (Some data) ->
  let message := or_else (Pages.SearchReply.error data) (js "搜索失败") in
  Home.handleFetchSearch searchApi nullRead st modelId []
  = (Returned tt,
     [Home.setError []; Home.setModels (Home.total (Home.loading modelId));
      Home.fetch (Pages.postSearch body);
      Home.setModels (Home.total (Home.failed modelId message));
      Home.setError message]).
Proof.
  intros Hfind Hname. cbv zeta. intros Hs Hok Hj.
  unfold Home.handleFetchSearch. rewrite Hfind.
  destruct (trim (Home.ModelEntry.name target)) as [|c n] eqn:E;
    [now destruct Hname|].
  cbn [truthy negb]. cbv iota. run_page. cbv zeta. cbn [app].
  rewrite Hs. cbv beta iota. rewrite Hok. cbn [negb]. cbv beta iota.
  rewrite Hj. reflexivity.
Qed.

Lemma handleSubmit_refused generateApi nullRead setItem (st : Home.State)
    (response : FetchResponse (option Pages.GenerateReply.t))
    (data : Pages.GenerateReply.t) :
  trim (Home.title st) <> [] ->
  existsb (fun model => (length (Home.ModelEntry.results model) =? 0)%nat)
    (Home.activeModels (Home.models st)) = false ->
  generateApi (Home.payload st) = Returned response -> ok response = false ->
  json response = Returned (Some data) ->
  Home.handleSubmit generateApi nullRead setItem st []
  = (Returned tt,
     [Home.setError []; Home.setIsLoading true;
      Home.fetch (Pages.postGenerate (Home.payload st));
      Home.setError (or_else (Pages.GenerateReply.error data) (js "生成失败"));
      Home.setIsLoading false]).
Proof.
  intros Ht Hsearch Hs Hok Hj. unfold Home.handleSubmit.
  destruct (trim (Home.title st)) as [|c n] eqn:E; [now destruct Ht|].
  cbn [truthy negb]. cbv iota zeta. rewrite Hsearch, andb_false_r.
  run_page. cbn [app]. rewrite Hs. cbv beta iota. rewrite Hok.
  cbn [negb]. cbv beta iota. rewrite Hj. reflexivity.
Qed.

(** X21. A search from the form, answered by the search handler.  The
    request of the form is never answered 400 or 401: the answer is 200,
    500 (no credential) or 502.  On 200 the entries with the id hold the
    results of the handler, of which there is at least one, so that the
    check of [handleSubmit] passes for them; otherwise they hold no results
    and the form shows the error message of the handler unchanged. *)
Theorem home_search_end_to_end
    (SERPSTACK_API_KEY : option jsstring)
    (network : jsstring -> JsResult (FetchResponse Search.SerpData))
    (searchApi : Search.SearchRequestBody
                 -> JsResult (FetchResponse (option Pages.SearchReply.t)))
    (nullRead : jsstring -> jsstring) (st : Home.State) (modelId : jsstring)
    (target : Home.ModelEntry.t) (r : HttpResponse Search.Payload)
    (response : FetchResponse (option Pages.SearchReply.t)) :
  List.find (fun m => bool_decide (Home.ModelEntry.id m = modelId)) (Home.models st)
  = Some target ->
  trim (Home.ModelEntry.name target) <> [] ->
  let body := {| Search.model := Some (trim (Home.ModelEntry.name target)) |} in
  fst (Search.handle SERPSTACK_API_KEY network (Returned body)) = Returned r ->
  searchApi body = Returned response ->
  delivered parsedSearch r response ->
  let log := snd (Home.handleFetchSearch searchApi nullRead st modelId []) in
  let after := Home.settle st log in
  let entry m results error :=
    {| Home.ModelEntry.id := Home.ModelEntry.id m;
       Home.ModelEntry.name := Home.ModelEntry.name m;
       Home.ModelEntry.results := results;
       Home.ModelEntry.isLoading := false;
       Home.ModelEntry.error := error |} in
  (responseStatus r = 200 \/ responseStatus r = 500 \/ responseStatus r = 502)
  /\ (responseStatus r = 200 ->
      exists results,
        responseBody r
        = Search.ResultsPayload (trim (Home.ModelEntry.name target)) results
        /\ results <> []
        /\ Home.models after
           = map (fun m =>
                    if decide (Home.ModelEntry.id m = modelId)
                    then entry m (map received results) None else m)
               (Home.models st)
        /\ Home.error after = [])
  /\ (responseStatus r <> 200 ->
      exists message,
        responseBody r = Search.ErrorPayload message /\ message <> []
        /\ Home.models after
           = map (fun m =>
                    if decide (Home.ModelEntry.id m = modelId)
                    then entry m [] (Some message) else m)
               (Home.models st)
        /\ Home.error after = message).
Proof.
  intros Hfind Hname. cbv zeta. intros Hr Hs Hd.
  set (body := {| Search.model := Some (trim (Home.ModelEntry.name target)) |}) in *.
  assert (Hmodel : requestedModel body = Some (trim (Home.ModelEntry.name target))).
  { unfold requestedModel, body. simpl. now rewrite trim_idem. }
  assert (Hm : truthy_opt (requestedModel body) = true).
  { rewrite Hmodel. simpl.
    destruct (trim (Home.ModelEntry.name target)); [now destruct Hname | reflexivity]. }
  assert (Hrefused : forall message,
            r = Response_json (Search.ErrorPayload message) (responseStatus r) ->
            ok response = false -> message <> [] ->
            exists message,
              responseBody r = Search.ErrorPayload message /\ message <> []
              /\ Home.models
                   (Home.settle st
                      (snd (Home.handleFetchSearch searchApi nullRead st modelId [])))
                 = map (fun m =>
                          if decide (Home.ModelEntry.id m = modelId)
                          then {| Home.ModelEntry.id := Home.ModelEntry.id m;
                                  Home.ModelEntry.name := Home.ModelEntry.name m;
                                  Home.ModelEntry.results := [];
                                  Home.ModelEntry.isLoading := false;
                                  Home.ModelEntry.error := Some message |}
                          else m)
                     (Home.models st)
              /\ Home.error
                   (Home.settle st
                      (snd (Home.handleFetchSearch searchApi nullRead st modelId [])))
                 = message).
  { intros message Er Hok Hne. destruct Hd as (_ & _ & Hj). rewrite Er in Hj.
    cbn [responseBody Response_json parsedSearch] in Hj.
    exists message. split; [now rewrite Er|]. split; [exact Hne|].
    rewrite (handleFetchSearch_refused searchApi nullRead st modelId target
               response _ Hfind Hname Hs Hok Hj).
    cbn [Pages.SearchReply.error or_else].
    destruct message as [|c message]; [now destruct Hne|]. cbn [truthy snd].
    split; [apply failed_loading | reflexivity]. }
  destruct (truthy_opt SERPSTACK_API_KEY) eqn:Hk.
  2: { rewrite (search_no_credential _ _ body Hm Hk) in Hr. cbn [fst] in Hr.
       injection Hr as <-. cbn [responseStatus Response_json].
       split; [auto|]. split; [discriminate|]. intros _.
       apply (Hrefused (js "SERPSTACK_API_KEY 未配置")); [reflexivity| |discriminate].
       destruct Hd as (Hst & _). unfold ok. rewrite Hst. reflexivity. }
  rewrite (search_handle_configured _ _ body Hm Hk) in Hr.
  destruct (Search.querySerpstack SERPSTACK_API_KEY network
              (default [] (requestedModel body)) []) as [found qlog].
  destruct found as [[[|r0 results]|]|e]; cbn [fst] in Hr; injection Hr as <-;
    cbn [responseStatus Response_json].
  1, 3, 4: (split; [auto|]); (split; [discriminate|]); intros _;
           apply (Hrefused (js "未能获取搜索结果，请稍后再试"));
           [reflexivity | | discriminate];
           destruct Hd as (Hst & _); unfold ok; rewrite Hst; reflexivity.
  split; [auto|]. split; [|intros Hne; now destruct Hne].
  intros _. exists (r0 :: results). cbn [responseBody Response_json].
  rewrite trim_idem.
  split; [reflexivity|]. split; [discriminate|].
  assert (Hok : ok response = true).
  { destruct Hd as (Hst & _). unfold ok. rewrite Hst. reflexivity. }
  pose proof (delivered_accepted _ _ _ Hd Hok) as Hacc. rewrite <- Hs in Hacc.
  destruct (handleFetchSearch_started searchApi nullRead st modelId target Hfind Hname)
    as [[data [Hacc' ->]] | [[Hnull _] | [Hno _]]].
  - rewrite <- (accepted_unique _ _ _ Hacc Hacc').
    cbn [snd app Home.settle foldl Home.apply Home.total Home.models].
    rewrite loaded_loading.
    cbn [Home.models Home.error responseBody Response_json parsedSearch
           Pages.SearchReply.results default].
    split; reflexivity.
  - destruct Hacc as (r1 & t1 & E1 & _ & _ & _ & Hj1).
    destruct Hnull as (r2 & t2 & E2 & _ & _ & _ & Hj2).
    assert (E : r1 = r2) by (apply Returned_inj; rewrite <- E1; exact E2).
    rewrite E, Hj2 in Hj1. discriminate Hj1.
  - now destruct (Hno _ Hacc).
Qed.

(** X22. A submission of the form, answered by the generate handler.  On
    200 the form hands to the session storage the article of the handler
    with its metadata and the search data of the request, and leaves for the
    result page when that could be stored; the check for an empty article
    never fires.  On any other status nothing is stored, the form stays, and
    it shows the error message of the handler, or "生成失败" when that
    message is empty. *)
Theorem home_submit_end_to_end
    readFileSync cwd env now network
    (generateApi : GenerateRequest.t
                   -> JsResult (FetchResponse (option Pages.GenerateReply.t)))
    (nullRead : jsstring -> jsstring)
    (setItem : jsstring -> Pages.GenerateReply.t -> JsResult unit)
    (st : Home.State) (r : HttpResponse Payload)
    (response : FetchResponse (option Pages.GenerateReply.t)) :
  trim (Home.title st) <> [] ->
  (forall m, m ∈ Home.activeModels (Home.models st) ->
     Home.ModelEntry.results m <> []) ->
  let payload := Home.payload st in
  fst (Generate.handle readFileSync cwd env now network (Returned payload))
  = Returned r ->
  generateApi payload = Returned response ->
  delivered parsed r response ->
  let log := snd (Home.handleSubmit generateApi nullRead setItem st []) in
  let after := Home.settle st log in
  (responseStatus r = 200 ->
   exists article metadata,
     responseBody r = ArticlePayload article metadata /\ article <> []
     /\ let saved :=
          Home.dataToSave (parsed (ArticlePayload article metadata))
            (GenerateRequest.searchData payload) in
        Home.sessionStorage_setItem (js "generatedArticle") saved ∈ log
        /\ (setItem (js "generatedArticle") saved = Returned tt ->
            Home.location_href (js "/result") ∈ log /\ Home.error after = [])
        /\ (forall e,
              setItem (js "generatedArticle") saved = Threw e ->
              (Home.location_href (js "/result") ∉ log)
              /\ Home.error after = Pages.messageOr e (js "生成出错，请重试")))
  /\ (responseStatus r <> 200 ->
      exists message,
        responseBody r = ErrorPayload message
        /\ Home.error after = (if truthy message then message else js "生成失败")
        /\ (Home.location_href (js "/result") ∉ log)
        /\ forall saved,
             Home.sessionStorage_setItem (js "generatedArticle") saved ∉ log).
Proof.
  intros Ht Hres. cbv zeta. intros Hr Hs Hd.
  assert (Hsearch : existsb
            (fun model => (length (Home.ModelEntry.results model) =? 0)%nat)
            (Home.activeModels (Home.models st)) = false)
    by now apply existsb_no_results.
  assert (Hcases : (responseStatus r = 200
                    /\ exists article metadata,
                         responseBody r = ArticlePayload article metadata
                         /\ article <> [])
                   \/ (responseStatus r <> 200 /\ ok response = false
                       /\ exists message, responseBody r = ErrorPayload message)).
  { assert (Hnot : forall message status,
              r = Response_json (ErrorPayload message) status -> status <> 200 ->
              status = 400 \/ status = 500 ->
              responseStatus r <> 200 /\ ok response = false
              /\ exists message, responseBody r = ErrorPayload message).
    { intros message status -> Hne Hst. split; [exact Hne|]. split.
      - destruct Hd as (Hstatus & _). unfold ok. rewrite Hstatus.
        cbn [responseStatus Response_json]. now destruct Hst as [-> | ->].
      - now exists message. }
    destruct (truthy_opt (requestTitle (Home.payload st))) eqn:Htitle.
    2: { rewrite (generate_no_title _ _ _ _ _ _ Htitle) in Hr. injection Hr as <-.
         right. eapply Hnot; [reflexivity | discriminate | now left]. }
    destruct (hasModels (Home.payload st) && lacksSearchData (Home.payload st)) eqn:Hl.
    { apply andb_true_iff in Hl as [Hm Hl].
      rewrite (generate_no_searchData _ _ _ _ _ _ Htitle Hm Hl) in Hr.
      injection Hr as <-. right.
      eapply Hnot; [reflexivity | discriminate | now left]. }
    assert (Hv : validated (Home.payload st) = true)
      by (unfold validated; now rewrite Htitle, Hl).
    destruct (generate_validated_answer readFileSync cwd env now network _ Hv)
      as [r' [Hr' [[H500 [msg Hb]] | [H200 [a [Hne Hb]]]]]];
      rewrite Hr' in Hr; injection Hr as ->.
    - right. destruct r as [b s]. cbn [responseStatus responseBody] in *. subst.
      eapply Hnot; [reflexivity | discriminate | now right].
    - left. split; [exact H200|]. exists a. eexists. split; [exact Hb | exact Hne]. }
  destruct Hcases as [[H200 (article & metadata & Hb & Hne)]
                     | (Hn200 & Hok & message & Hb)].
  - split; [|intros Hn; now destruct Hn]. intros _.
    exists article, metadata. split; [exact Hb|]. split; [exact Hne|]. cbv zeta.
    assert (Hok : ok response = true).
    { destruct Hd as (Hstatus & _). unfold ok. now rewrite Hstatus, H200. }
    pose proof (delivered_accepted _ _ _ Hd Hok) as Hacc.
    rewrite Hb, <- Hs in Hacc.
    destruct (handleSubmit_sent generateApi nullRead setItem st Ht Hsearch)
      as [(d & a & Hacc' & Ha & _ & [[Hset ->] | [e [Hset ->]]]) | [Hno _]].
    + rewrite <- (accepted_unique _ _ _ Hacc Hacc') in *. cbn [snd app].
      split; [do 3 apply list_elem_of_further; apply list_elem_of_here|].
      split.
      * intros _. split; [|reflexivity].
        do 4 apply list_elem_of_further. apply list_elem_of_here.
      * intros e He. congruence.
    + rewrite <- (accepted_unique _ _ _ Hacc Hacc') in *. cbn [snd app].
      split; [do 3 apply list_elem_of_further; apply list_elem_of_here|].
      split; [intros He; congruence|].
      intros e' He'. assert (e' = e) by congruence. subst e'.
      split; [|reflexivity]. intros H. in_log H.
    + exfalso. apply Hne. apply (Hno _ article Hacc). reflexivity.
  - split; [intros H200; now destruct Hn200|]. intros _.
    exists message. split; [exact Hb|].
    destruct Hd as (_ & _ & Hj). rewrite Hb in Hj. cbn [parsed] in Hj.
    rewrite (handleSubmit_refused generateApi nullRead setItem st response _
               Ht Hsearch Hs Hok Hj).
    cbn [snd Pages.GenerateReply.error or_else].
    split; [reflexivity|]. split; [intros H; in_log H|].
    intros saved H. in_log H.
Qed.

(** *** The ids of the entries *)

Lemma digits_of_uint_inj (d d' : Decimal.uint) :
  digits_of_uint d = digits_of_uint d' -> d = d'.
Proof.
  revert d'. induction d; destruct d'; cbn [digits_of_uint]; intros H;
    try discriminate H; try reflexivity; injection H as H; f_equal; auto.
Qed.

Lemma toString_inj (a b : N) : toString a = toString b -> a = b.
Proof.
  unfold toString. intros H. apply digits_of_uint_inj in H.
  rewrite <- (DecimalN.Unsigned.of_to a), <- (DecimalN.Unsigned.of_to b).
  now rewrite H.
Qed.

Lemma entryId_inj (baseId : jsstring) (a b : nat) :
  entryId baseId a = entryId baseId b -> a = b.
Proof.
  unfold entryId. intros H. apply app_inv_head, app_inv_head in H.
  apply toString_inj in H. lia.
Qed.

Lemma handleFetchSearch_ids searchApi nullRead (st : Home.State)
    (modelId : jsstring) :
  map Home.ModelEntry.id
    (Home.models
       (Home.settle st
          (snd (Home.handleFetchSearch searchApi nullRead st modelId []))))
  = map Home.ModelEntry.id (Home.models st).
Proof.
  assert (Hmap : forall (f : Home.ModelEntry.t -> Home.ModelEntry.t) l,
            (forall m, Home.ModelEntry.id (f m) = Home.ModelEntry.id m) ->
            map Home.ModelEntry.id (map f l) = map Home.ModelEntry.id l).
  { intros f l Hf. rewrite map_map. apply map_ext. exact Hf. }
  destruct (List.find (fun m => bool_decide (Home.ModelEntry.id m = modelId))
              (Home.models st)) as [target|] eqn:Hfind.
  2: { now rewrite handleFetchSearch_not_found. }
  destruct (truthy (trim (Home.ModelEntry.name target))) eqn:Hn.
  2: { apply truthy_false in Hn.
       now rewrite (handleFetchSearch_no_name _ _ _ _ _ Hfind Hn). }
  apply truthy_true in Hn.
  destruct (handleFetchSearch_started searchApi nullRead st modelId target Hfind Hn)
    as [[data [_ ->]] | [[_ ->] | (_ & _ & message & ->)]];
    cbn [snd app Home.settle foldl Home.apply Home.total Home.models].
  - rewrite loaded_loading. cbn [Home.models].
    apply Hmap. intros m. now destruct (decide _).
  - rewrite loaded_null, (loading_has_id _ _ _ Hfind). cbn [Home.models].
    apply Hmap. intros m. now destruct (decide _).
  - rewrite failed_loading. apply Hmap. intros m. now destruct (decide _).
Qed.

Section Ids.

Variable baseId : jsstring.
Variable searchApi
  : Search.SearchRequestBody
    -> JsResult (FetchResponse (option Pages.SearchReply.t)).
Variable generateApi
  : GenerateRequest.t -> JsResult (FetchResponse (option Pages.GenerateReply.t)).
Variable nullRead : jsstring -> jsstring.
Variable setItem : jsstring -> Pages.GenerateReply.t -> JsResult unit.

Let next := after baseId searchApi generateApi nullRead setItem.

(** The entries carry the ids of their positions. *)
Let numbered (st : Home.State) : Prop :=
  map Home.ModelEntry.id (Home.models st)
  = map (entryId baseId) (seq 0 (length (Home.models st))).

Lemma initial_numbered : numbered (initialState baseId).
Proof. unfold numbered. cbn. unfold entryId. reflexivity. Qed.

Lemma after_numbered (st : Home.State) (a : Action) :
  keepsEntries a -> numbered st -> numbered (next st a).
Proof.
  unfold numbered, next, after. intros Hk H.
  destruct a as [|id|id value|modelId| |]; cbn [homeHandler].
  - rewrite addModel_models.
    destruct (Home.MAX_MODELS <=? N.of_nat (length (Home.models st))); [exact H|].
    rewrite map_app, length_app, H. cbn [length map Home.blank Home.ModelEntry.id].
    rewrite Nat.add_1_r, seq_S, map_app. reflexivity.
  - destruct Hk.
  - unfold Home.updateModelName, Pages.perform.
    cbn [snd app Home.settle foldl Home.apply Home.total Home.models].
    rewrite length_map, <- H, map_map. apply map_ext. intros m.
    now destruct (decide _).
  - rewrite handleFetchSearch_ids, H.
    pose proof (f_equal (@length _) (handleFetchSearch_ids searchApi nullRead st modelId)) as L.
    rewrite !length_map in L. now rewrite L.
  - apply initial_numbered.
  - now rewrite handleSubmit_models.
Qed.

Lemma reachable_numbered (actions : list Action) :
  Forall keepsEntries actions -> numbered (foldl next (initialState baseId) actions).
Proof.
  induction actions as [|a actions IH] using rev_ind; intros H.
  - apply initial_numbered.
  - apply Forall_app in H as [H Ha]. apply Forall_inv in Ha.
    rewrite foldl_app. cbn [foldl]. apply after_numbered; [exact Ha | now apply IH].
Qed.

End Ids.

(** X23. The ids of the entries of the form.  As long as no entry is
    removed, whatever else the user does from the form as first rendered,
    the entry at position k has the id made of the base id, a hyphen and k:
    the ids are pairwise distinct, so a handler given an id reaches one
    entry.  (After a removal the next entry added takes the id of the
    current length, which an entry may already have.) *)
Theorem home_ids_distinct
    (baseId : jsstring)
    (searchApi : Search.SearchRequestBody
                 -> JsResult (FetchResponse (option Pages.SearchReply.t)))
    (generateApi : GenerateRequest.t
                   -> JsResult (FetchResponse (option Pages.GenerateReply.t)))
    (nullRead : jsstring -> jsstring)
    (setItem : jsstring -> Pages.GenerateReply.t -> JsResult unit)
    (actions : list Action) :
  Forall keepsEntries actions ->
  let st :=
    foldl (after baseId searchApi generateApi nullRead setItem)
      (initialState baseId) actions in
  map Home.ModelEntry.id (Home.models st)
  = map (entryId baseId) (seq 0 (length (Home.models st)))
  /\ NoDup (map Home.ModelEntry.id (Home.models st))
  /\ forall id,
       (length (List.filter (fun m => bool_decide (Home.ModelEntry.id m = id))
                  (Home.models st)) <= 1)%nat.
Proof.
  intros H. cbv zeta.
  pose proof (reachable_numbered baseId searchApi generateApi nullRead setItem
                actions H) as Hn. cbv zeta in Hn.
  set (st := foldl _ _ actions) in *. clearbody st.
  assert (Hd : NoDup (map Home.ModelEntry.id (Home.models st))).
  { rewrite Hn. apply NoDup_fmap_2; [|apply NoDup_seq].
    intros a b. apply entryId_inj. }
  split; [exact Hn|]. split; [exact Hd|].
  intros id. clear Hn. induction (Home.models st) as [|m l IH]; [simpl; lia|].
  cbn [map] in Hd. apply NoDup_cons in Hd as [Hm Hd].
  cbn [List.filter]. destruct (bool_decide (Home.ModelEntry.id m = id)) eqn:E.
  - apply bool_decide_eq_true in E. subst id. cbn [length].
    assert (Hnone : List.filter
              (fun m' => bool_decide (Home.ModelEntry.id m' = Home.ModelEntry.id m)) l
              = []).
    { clear IH Hd. induction l as [|x l IHl]; [reflexivity|].
      cbn [List.filter].
      destruct (bool_decide (Home.ModelEntry.id x = Home.ModelEntry.id m)) eqn:Ex.
      - apply bool_decide_eq_true in Ex. exfalso. apply Hm. cbn [map].
        rewrite Ex. apply list_elem_of_here.
      - apply IHl. intros Hin. apply Hm. cbn [map].
        now apply list_elem_of_further. }
    rewrite Hnone. simpl. lia.
  - now apply IH.
Qed.

(** After a removal two entries can share an id: renaming one renames
    both. *)
Example home_ids_collide :
  let next :=
    after (js ":r0:") Examples.searchApi Examples.generateApi Examples.nullRead
      Examples.storing in
  map Home.ModelEntry.id
    (Home.models
       (foldl next (initialState (js ":r0:"))
          [addModel; removeModel (js ":r0:-0"); addModel]))
  = [js ":r0:-1"; js ":r0:-1"]
  /\ map Home.ModelEntry.name
       (Home.models
          (foldl next (initialState (js ":r0:"))
             [addModel; removeModel (js ":r0:-0"); addModel;
              updateModelName (js ":r0:-1") (js "A")]))
     = [js "A"; js "A"].
Proof. vm_compute. split; reflexivity. Qed.

Lemma home_ids_distinct_witness :
  NoDup
    (map Home.ModelEntry.id
       (Home.models
          (foldl
             (after (js ":r0:") Examples.searchApi Examples.generateApi
                Examples.nullRead Examples.storing)
             (initialState (js ":r0:"))
             [addModel; updateModelName (js ":r0:-1") (js "A"); addModel]))).
Proof.
  refine (proj1 (proj2
            (home_ids_distinct (js ":r0:") Examples.searchApi Examples.generateApi
               Examples.nullRead Examples.storing
               [addModel; updateModelName (js ":r0:-1") (js "A"); addModel] _))).
  repeat constructor.
Defined.

(** *** Concrete runs of the pages *)

Example home_submit_stores :
  Home.handleSubmit Examples.generateApi Examples.nullRead Examples.storing
    Examples.productForm []
  = (Returned tt,
     [Home.setError []; Home.setIsLoading true;
      Home.fetch (Pages.postGenerate (Home.payload Examples.productForm));
      Home.sessionStorage_setItem (js "generatedArticle")
        (Home.dataToSave
           (parsed (ArticlePayload (js "先说结论。") Examples.productMetadata))
           (Some {[ js "A" := [Examples.snip "t1" "s1"] ]}));
      Home.location_href (js "/result");
      Home.setIsLoading false]).
Proof. vm_compute. reflexivity. Qed.

Example home_submit_unreachable :
  snd (Home.handleSubmit Examples.noGenerateApi Examples.nullRead Examples.storing
         Examples.plainForm [])
  = [Home.setError []; Home.setIsLoading true;
     Home.fetch (Pages.postGenerate (Home.payload Examples.plainForm));
     Home.setError (js "网络请求失败: Failed to fetch");
     Home.setIsLoading false].
Proof. vm_compute. reflexivity. Qed.

Example home_payload_plain :
  Home.payload Examples.plainForm
  = {| GenerateRequest.title := Some (js "为什么要读书");
       GenerateRequest.models := Some [];
       GenerateRequest.searchData := Some ∅;
       GenerateRequest.manualPrompt := Some (js "口语一点");
       GenerateRequest.contentType := Some (js "discussion");
       GenerateRequest.stylePreference := Some (js "random") |}.
Proof. vm_compute. reflexivity. Qed.

Example home_fetch_search_run :
  Home.models
    (after (js ":r0:") Examples.searchApi Examples.generateApi Examples.nullRead
       Examples.storing
       (after (js ":r0:") Examples.searchApi Examples.generateApi Examples.nullRead
          Examples.storing (initialState (js ":r0:"))
          (updateModelName (js ":r0:-0") (js " A ")))
       (handleFetchSearch (js ":r0:-0")))
  = [ {| Home.ModelEntry.id := js ":r0:-0";
         Home.ModelEntry.name := js " A ";
         Home.ModelEntry.results := [Examples.snip "t1" "s1"];
         Home.ModelEntry.isLoading := false;
         Home.ModelEntry.error := None |} ].
Proof. vm_compute. reflexivity. Qed.

(** A search answered with the text "null": no message is shown, the entry
    stays loading and the render fails. *)
Example home_fetch_search_null :
  let log :=
    snd (Home.handleFetchSearch Examples.nullApi Examples.nullRead
           Examples.productForm (js ":r0:-0") []) in
  let after := Home.settle Examples.productForm log in
  length log = 4%nat
  /\ Home.crashed after
     = Some (ThrownError (js "TypeError")
               (js "Cannot read properties of null (reading 'results')"))
  /\ Home.error after = []
  /\ map Home.ModelEntry.isLoading (Home.models after) = [true; false].
Proof. cbv zeta. repeat split; vm_compute; reflexivity. Qed.

(** Without stored search data the result page searches again. *)
Example regenerate_searches_again :
  resultRequests
    (snd (ResultPage.handleRegenerate Examples.searchApi Examples.generateApi
            Examples.nullRead Examples.storing
            (Some (parsedMetadata Examples.productMetadata)) []))
  = [Pages.postSearch {| Search.model := Some (js "A") |};
     Pages.postGenerate
       {| GenerateRequest.title := Some (js "吹风机怎么选");
          GenerateRequest.models := Some [js "A"];
          GenerateRequest.searchData := Some {[ js "A" := [Examples.snip "t1" "s1"] ]};
          GenerateRequest.manualPrompt := None;
          GenerateRequest.contentType := Some (js "appliance");
          GenerateRequest.stylePreference := Some (js "rational") |}].
Proof. vm_compute. reflexivity. Qed.

(** The progress message of the repeated search is still shown after the
    article has been replaced. *)
Example regenerate_keeps_progress_message :
  let after :=
    ResultPage.settle Examples.shown
      (snd (ResultPage.handleRegenerate Examples.searchApi Examples.generateApi
              Examples.nullRead Examples.storing
              (Some (parsedMetadata Examples.productMetadata)) [])) in
  ResultPage.article after = js "先说结论。"
  /\ ResultPage.isEditing after = false
  /\ ResultPage.regenerateError after = js "正在重新获取搜索数据...".
Proof. vm_compute. repeat split. Qed.

Lemma home_submission_validated_witness :
  requestTitle (Home.payload Examples.productForm) = Some (js "吹风机怎么选")
  /\ requestModels (Home.payload Examples.productForm) = [js "A"].
Proof.
  destruct (home_submission_validated Examples.onlyDiscussion (js "/app")
              Examples.keyOnly Examples.timestamp Examples.answering
              Examples.productForm) as (H1 & H2 & _).
  - vm_compute. discriminate.
  - intros m Hm. apply list_elem_of_In in Hm. vm_compute in Hm.
    destruct Hm as [<- | []]. discriminate.
  - split; [exact H1 | exact H2].
Defined.

Lemma regenerate_needs_models_witness :
  resultRequests
    (snd (ResultPage.handleRegenerate Examples.searchApi Examples.generateApi
            Examples.nullRead Examples.storing
            (Pages.GenerateReply.metadata
               (Home.dataToSave
                  (parsed (ArticlePayload (js "先说结论。") Examples.plainMetadata))
                  (GenerateRequest.searchData (Home.payload Examples.plainForm))))
            []))
  = [].
Proof.
  refine (proj1 (proj2
            (regenerate_needs_models Examples.onlyDiscussion (js "/app")
               Examples.keyOnly Examples.timestamp Examples.answering
               Examples.searchApi Examples.generateApi Examples.nullRead
               Examples.storing Examples.plainForm Examples.shown
               (js "先说结论。") Examples.plainMetadata _ _)));
    vm_compute; reflexivity.
Defined.

Lemma regenerate_repeats_submission_witness :
  exists again,
    resultRequests
      (snd (ResultPage.handleRegenerate Examples.searchApi Examples.generateApi
              Examples.nullRead Examples.storing
              (Pages.GenerateReply.metadata
                 (Home.dataToSave
                    (parsed (ArticlePayload (js "先说结论。")
                               Examples.productMetadata))
                    (GenerateRequest.searchData (Home.payload Examples.productForm))))
              []))
    = [Pages.postGenerate again]
    /\ GenerateRequest.manualPrompt again = None.
Proof.
  destruct (regenerate_repeats_submission Examples.onlyDiscussion (js "/app")
              Examples.keyOnly Examples.timestamp Examples.answering
              Examples.searchApi Examples.generateApi Examples.nullRead
              Examples.storing Examples.productForm
              (js "先说结论。") Examples.productMetadata)
    as (again & H1 & H2 & _).
  - vm_compute. discriminate.
  - vm_compute. reflexivity.
  - exists again. split; [exact H1 | exact H2].
Defined.

Lemma home_search_end_to_end_witness :
  exists results,
    responseBody Examples.elevenAnswer
    = Search.ResultsPayload (trim (js " A ")) results
    /\ results <> [].
Proof.
  destruct (home_search_end_to_end (Some (js "key")) Examples.elevenHits
              Examples.elevenApi Examples.nullRead Examples.productForm
              (js ":r0:-0")
              {| Home.ModelEntry.id := js ":r0:-0";
                 Home.ModelEntry.name := js " A ";
                 Home.ModelEntry.results := [Examples.snip "t1" "s1"];
                 Home.ModelEntry.isLoading := false;
                 Home.ModelEntry.error := None |}
              Examples.elevenAnswer Examples.elevenReceived)
    as (_ & H & _).
  - vm_compute. reflexivity.
  - vm_compute. discriminate.
  - vm_compute. reflexivity.
  - reflexivity.
  - split; [reflexivity|]. split; [|reflexivity].
    eexists. split; [reflexivity | vm_compute; discriminate].
  - destruct (H eq_refl) as (results & Hb & Hne & _).
    exists results. split; [exact Hb | exact Hne].
Defined.

Lemma home_submit_end_to_end_witness :
  exists article metadata,
    responseBody
      (Response_json (ArticlePayload (js "先说结论。") Examples.productMetadata) 200)
    = ArticlePayload article metadata
    /\ article <> [].
Proof.
  destruct (home_submit_end_to_end Examples.onlyDiscussion (js "/app")
              Examples.keyOnly Examples.timestamp Examples.answering
              Examples.generateApi Examples.nullRead Examples.storing
              Examples.productForm
              (Response_json
                 (ArticlePayload (js "先说结论。") Examples.productMetadata) 200)
              Examples.generated)
    as (H & _).
  - vm_compute. discriminate.
  - intros m Hm. apply list_elem_of_In in Hm. vm_compute in Hm.
    destruct Hm as [<- | []]. discriminate.
  - vm_compute. reflexivity.
  - reflexivity.
  - split; [reflexivity|]. split; [|reflexivity].
    eexists. split; [reflexivity | vm_compute; discriminate].
  - destruct (H eq_refl) as (article & metadata & Hb & Hne & _).
    exists article, metadata. split; [exact Hb | exact Hne].
Defined.
